(** * Vlibe edit-mode engine: a shallow embedding of [edit-mode.ts]

    The engine runs inside a preview page.  It listens for commands posted
    by the enclosing builder frame, tracks hover and selection with two
    overlay nodes, and applies style, text and image changes to the page.

    The embedding follows the TypeScript source function by function:
    - JavaScript strings are [string]s whose characters stand for UTF-16
      code units below 256;
    - the DOM is a heap of nodes ([gmap node_id node]); a JavaScript
      reference to a node is its [node_id], so aliasing is kept;
    - the module-level variables, the window flag, the registered
      listeners and the timer table form the record [engine];
    - functions that mutate them live in the monad [M], which threads the
      engine, collects what is posted and logged, and has an exceptional
      completion for [throw];
    - what the browser computes (selector matching, layout, computed
      style, [CSS.escape], the sum of two doubles, what a style object
      makes of an assignment) is the interface [Browser];
    - a reading of [performance.now()] is an exact rational number of
      milliseconds;
    - an inline style declaration is a finite map from property names to
      values.  The declarations the engine writes itself are fixed and
      valid, and are entered as written; a name and a value that come
      with a message go through the style object of the browser, which
      may store them, ignore them or throw;
    - [className] is a string on an HTML element and an object on an SVG
      element, and a message payload may be an object or a primitive;
    - a walk up the parents or down the children takes fuel, one unit per
      level, and ends in [None] when the fuel is spent. *)

From Stdlib Require Import Ascii QArith Lqa.
From stdpp Require Import gmap strings list pretty.

Local Open Scope string_scope.

(** ** JavaScript strings *)

Module JsString.

Definition code (c : ascii) : N := N_of_ascii c.

(** The double quote character, as a one-character string. *)
Definition dquote : string := String (ascii_of_N 34) EmptyString.

(** White space as [String.prototype.trim] and the regular expression
    class [\s] see it, among the code units below 256: TAB, LF, VT, FF,
    CR, SPACE and NO-BREAK SPACE. *)
Definition is_ws (c : ascii) : bool :=
  let n := code c in
  ((9 <=? n) && (n <=? 13) || (n =? 32) || (n =? 160))%N.

(** A value used as a condition: the empty string is falsy. *)
Definition truthy (s : string) : bool :=
  match s with EmptyString => false | String _ _ => true end.

Definition lower_char (c : ascii) : ascii :=
  let n := code c in
  if ((65 <=? n) && (n <=? 90))%N then ascii_of_N (n + 32)
  else if ((192 <=? n) && (n <=? 222) && negb (n =? 215))%N
       then ascii_of_N (n + 32)
       else c.

Fixpoint toLowerCase (s : string) : string :=
  match s with
  | EmptyString => EmptyString
  | String c r => String (lower_char c) (toLowerCase r)
  end.

Fixpoint trimStart (s : string) : string :=
  match s with
  | EmptyString => EmptyString
  | String c r => if is_ws c then trimStart r else s
  end.

Fixpoint trimEnd (s : string) : string :=
  match s with
  | EmptyString => EmptyString
  | String c r =>
      let r' := trimEnd r in
      if is_ws c && negb (truthy r') then EmptyString else String c r'
  end.

Definition trim (s : string) : string := trimEnd (trimStart s).

(** [s.slice(0, n)] *)
Fixpoint slice0 (n : nat) (s : string) : string :=
  match n, s with
  | S k, String c r => String c (slice0 k r)
  | _, _ => EmptyString
  end.

(** [s.includes(c)] for a one-character needle. *)
Fixpoint includes_char (c : ascii) (s : string) : bool :=
  match s with
  | EmptyString => false
  | String x r => if Ascii.eqb x c then true else includes_char c r
  end.

(** [s.split(/\s+/)]: [cur] is the piece being read, reversed, and
    [in_sep] tells that the previous code unit was white space. *)
Fixpoint split_ws_go (cur : list ascii) (in_sep : bool) (s : string)
  : list string :=
  match s with
  | EmptyString => [String.string_of_list_ascii (rev cur)]
  | String c r =>
      if is_ws c then
        if in_sep then split_ws_go [] true r
        else String.string_of_list_ascii (rev cur) :: split_ws_go [] true r
      else split_ws_go (c :: cur) false r
  end.

Definition split_ws (s : string) : list string := split_ws_go [] false s.

(** [parts.join(sep)] *)
Fixpoint join (sep : string) (parts : list string) : string :=
  match parts with
  | [] => ""
  | [p] => p
  | p :: rest => p +:+ sep +:+ join sep rest
  end.

(** Some code unit of [s] is not white space. *)
Fixpoint has_ink (s : string) : bool :=
  match s with
  | EmptyString => false
  | String c r => negb (is_ws c) || has_ink r
  end.

End JsString.
Import JsString.

(** ** The DOM heap *)

Definition node_id := nat.

Inductive node_type := ELEMENT_NODE | TEXT_NODE | COMMENT_NODE | DOCUMENT_NODE.

#[global] Instance node_type_eq_dec : EqDecision node_type.
Proof. solve_decision. Defined.

(** What [element.className] reads: a string on an HTML element, an
  [SVGAnimatedString] object on an SVG element.  The object holds the
  class attribute as its [baseVal]. *)
Inductive class_value :=
| ClassString (s : string)
| ClassAnimated (baseVal : string).

#[global] Instance class_value_eq_dec : EqDecision class_value.
Proof. solve_decision. Defined.

(** One DOM node.  [tagName] is upper case for HTML elements; a property
  that JavaScript would read as [undefined] on this kind of node (the
  [id] of a text node, say) is the empty string, which is as falsy.
  [style] is the inline style declaration, keyed by property name. *)
Record node := Node {
nodeType : node_type;
tagName : string;
elem_id : string;
className : class_value;
src : string;
style : gmap string string;
data : string;
parentNode : option node_id;
childNodes : list node_id
}.

(** [document.body] is typed [HTMLElement] by the DOM declarations the
  source is compiled against: the page has a body. *)
Record document := Document {
nodes : gmap node_id node;
body : node_id
}.

(** A node no reference leads to: what a lookup outside the heap reads. *)
Definition no_node : node :=
Node COMMENT_NODE "" "" (ClassString "") "" ∅ "" None [].

Definition node_of (d : document) (n : node_id) : node :=
default no_node (nodes d !! n).

Definition is_element (d : document) (n : node_id) : bool :=
bool_decide (nodeType (node_of d n) = ELEMENT_NODE).

Definition is_text (d : document) (n : node_id) : bool :=
bool_decide (nodeType (node_of d n) = TEXT_NODE).

(** [parent.children]: the element children. *)
Definition children (d : document) (p : node_id) : list node_id :=
filter (λ c, is_element d c = true) (childNodes (node_of d p)).

Definition set_node (d : document) (n : node_id) (nd : node) : document :=
Document (<[n := nd]> (nodes d)) (body d).

(** ** What the browser provides *)

Inductive query_result :=
| QSyntaxError
| QNoMatch
| QFound (e : node_id).

Record DOMRect := { rect_top : Q; rect_left : Q; rect_width : Q; rect_height : Q }.

Class Browser := {
(** [CSS.escape] *)
CSS_escape : string → string;
(** [document.querySelector]: a syntax error, no match, or the first
    matching element in document order *)
querySelector : document → string → query_result;
getBoundingClientRect : document → node_id → DOMRect;
(** [window.getComputedStyle(el)[name]] *)
getComputedStyle : document → node_id → string → string;
(** [n + 'px'] prints the number [n] *)
number_to_string : Q → string;
scrollX : Q;
scrollY : Q;
(** [a + b] on two doubles: the sum, rounded as IEEE 754 rounds it *)
double_add : Q → Q → Q;
(** [el.style[name] = value] on the declarations [st] of an element:
    [None] when the assignment throws (strict code writing a read-only
    name such as [length]), otherwise the declarations the element has
    afterwards, which are [st] itself when the style object ignores the
    name or the value *)
style_assign : gmap string string → string → string → option (gmap string string);
(** the [src] property of an image is its attribute resolved to a URL *)
resolve_url : string → string;
(** [typeof window !== 'undefined'] *)
window_defined : bool
}.

(** ** Identity resolver *)

Section Identity.
Context {B : Browser}.

(** The [for] loop of [getXPath] over the siblings: [Some ix] when the
    loop meets [element] having counted [ix] earlier element siblings of
    the same tag, [None] when it runs to the end. *)
Fixpoint xpath_index (d : document) (element : node_id)
    (siblings : list node_id) (ix : nat) : option nat :=
  match siblings with
  | [] => None
  | sibling :: rest =>
      if bool_decide (sibling = element) then Some ix
      else if is_element d sibling
              && bool_decide (tagName (node_of d sibling) = tagName (node_of d element))
           then xpath_index d element rest (S ix)
           else xpath_index d element rest ix
  end.

Fixpoint getXPath (fuel : nat) (d : document) (element : option node_id)
  : option string :=
  match element with
  | None => Some ""
  | Some e =>
      let el := node_of d e in
      if truthy (elem_id el) then
        Some ("//*[@id=" +:+ dquote +:+ elem_id el +:+ dquote +:+ "]")
      else if bool_decide (e = body d) then Some "/html/body"
      else
        let siblings :=
          match parentNode el with
          | Some p => childNodes (node_of d p)
          | None => []
          end in
        match xpath_index d e siblings 0 with
        | None => Some ""
        | Some ix =>
            match fuel with
            | O => None
            | S fuel' =>
                match getXPath fuel' d (parentNode el) with
                | None => None
                | Some parentPath =>
                    Some (parentPath +:+ "/" +:+ toLowerCase (tagName el)
                          +:+ "[" +:+ pretty (ix + 1)%nat +:+ "]")
                end
            end
        end
  end.

(** [arr.indexOf(x) + 1]: [0] when [x] is not in [arr]. *)
Fixpoint indexOf_succ (x : node_id) (arr : list node_id) : nat :=
  match arr with
  | [] => 0
  | y :: rest =>
      if bool_decide (y = x) then 1
      else match indexOf_succ x rest with
           | O => 0
           | S k => S (S k)
           end
  end.

(** The class part of one selector segment:
    [current.className && typeof current.className === 'string'] lets
    a non-empty string through and nothing else. *)
Definition class_suffix (cls : class_value) : string :=
  match cls with
  | ClassString s =>
      if truthy s then
        let classes :=
          filter (λ c, truthy c && negb (includes_char ":" c) = true)
                 (split_ws (trim s)) in
        if (0 <? length classes)%nat
        then "." +:+ join "." (map CSS_escape (take 2 classes))
        else ""
      else ""
  | ClassAnimated _ => ""
  end.

(** The [:nth-of-type] part of one selector segment. *)
Definition nth_suffix (d : document) (current : node_id) : string :=
  match parentNode (node_of d current) with
  | Some parent =>
      let siblings :=
        filter (λ el, tagName (node_of d el) = tagName (node_of d current))
               (children d parent) in
      if (1 <? length siblings)%nat
      then ":nth-of-type(" +:+ pretty (indexOf_succ current siblings) +:+ ")"
      else ""
  | None => ""
  end.

(** The [while] loop of [getSelector]; [path] is root first. *)
Fixpoint selector_walk (fuel : nat) (d : document)
    (current : option node_id) (path : list string) : option (list string) :=
  match current with
  | None => Some path
  | Some c =>
      let cur := node_of d c in
      if negb (is_element d c) then Some path
      else if truthy (elem_id cur) then
        Some (("#" +:+ CSS_escape (elem_id cur)) :: path)
      else
        let selector :=
          toLowerCase (tagName cur) +:+ class_suffix (className cur)
          +:+ nth_suffix d c in
        let path := selector :: path in
        let current := parentNode cur in
        if bool_decide (current = Some (body d)) then Some ("body" :: path)
        else match fuel with
             | O => None
             | S fuel' => selector_walk fuel' d current path
             end
  end.

Definition getSelector (fuel : nat) (d : document) (element : option node_id)
  : option string :=
  match element with
  | None => Some ""
  | Some e =>
      if truthy (elem_id (node_of d e)) then
        Some ("#" +:+ CSS_escape (elem_id (node_of d e)))
      else
        path ← selector_walk fuel d (Some e) [];
        Some (join " > " path)
  end.

End Identity.

(** ** Inspector *)

Record ElementBoundingRect := {
  top : Q;
  left : Q;
  width : Q;
  height : Q;
  viewportTop : Q;
  viewportLeft : Q
}.

Record ElementComputedStyles := {
  color : string;
  backgroundColor : string;
  fontSize : string;
  fontWeight : string;
  padding : string;
  margin : string;
  fontFamily : string;
  lineHeight : string;
  borderRadius : string
}.

(** The descriptor sent to the builder.  [None] is [null] for
    [info_textContent] and [undefined] for [imageSrc]. *)
Record ElementInfo := {
  info_tagName : string;
  info_textContent : option string;
  info_className : class_value;
  info_id : string;
  xpath : string;
  selector : string;
  computedStyles : ElementComputedStyles;
  boundingRect : ElementBoundingRect;
  isTextElement : bool;
  isImageElement : bool;
  imageSrc : option string
}.

Definition textTags : list string :=
  ["p"; "h1"; "h2"; "h3"; "h4"; "h5"; "h6"; "span"; "a"; "button"; "label";
   "li"; "td"; "th"; "div"].

(** [arr.includes(s)] *)
Definition includes (s : string) (arr : list string) : bool :=
  bool_decide (s ∈ arr).

Definition concat_strings (parts : list string) : string :=
  foldr String.append "" parts.

(** What node [n] adds to the text content of an element above it: the
    data of a text node, the text of an element's descendants, nothing for
    the other kinds. *)
Fixpoint descendant_text (fuel : nat) (d : document) (n : node_id)
  : option string :=
  match nodeType (node_of d n) with
  | TEXT_NODE => Some (data (node_of d n))
  | ELEMENT_NODE =>
      match fuel with
      | O => None
      | S fuel' =>
          parts ← mapM (descendant_text fuel' d) (childNodes (node_of d n));
          Some (concat_strings parts)
      end
  | COMMENT_NODE | DOCUMENT_NODE => Some ""
  end.

(** The [textContent] getter; the inner [None] is [null]. *)
Definition textContent (fuel : nat) (d : document) (n : node_id)
  : option (option string) :=
  match nodeType (node_of d n) with
  | ELEMENT_NODE => Some <$> descendant_text fuel d n
  | TEXT_NODE | COMMENT_NODE => Some (Some (data (node_of d n)))
  | DOCUMENT_NODE => Some None
  end.

(** The callback of [some] in [getElementInfo]. *)
Definition inked_text_node (d : document) (n : node_id) : bool :=
  is_text d n && truthy (trim (data (node_of d n))).

Section Inspector.
Context {B : Browser}.

Definition computed_styles_of (d : document) (e : node_id) : ElementComputedStyles :=
  {| color := getComputedStyle d e "color";
     backgroundColor := getComputedStyle d e "background-color";
     fontSize := getComputedStyle d e "font-size";
     fontWeight := getComputedStyle d e "font-weight";
     padding := getComputedStyle d e "padding";
     margin := getComputedStyle d e "margin";
     fontFamily := getComputedStyle d e "font-family";
     lineHeight := getComputedStyle d e "line-height";
     borderRadius := getComputedStyle d e "border-radius" |}.

Definition bounding_rect_of (d : document) (e : node_id) : ElementBoundingRect :=
  let rect := getBoundingClientRect d e in
  {| top := double_add (rect_top rect) scrollY;
     left := double_add (rect_left rect) scrollX;
     width := rect_width rect;
     height := rect_height rect;
     viewportTop := rect_top rect;
     viewportLeft := rect_left rect |}.

Definition is_text_element (d : document) (e : node_id) : bool :=
  includes (toLowerCase (tagName (node_of d e))) textTags
  && (0 <? length (childNodes (node_of d e)))%nat
  && existsb (inked_text_node d) (childNodes (node_of d e)).

Definition is_image_element (d : document) (e : node_id) : bool :=
  let tag := toLowerCase (tagName (node_of d e)) in
  bool_decide (tag = "img")
  || (bool_decide (tag = "div")
      && truthy (getComputedStyle d e "background-image")
      && negb (bool_decide (getComputedStyle d e "background-image" = "none"))).

(** [isTextElement ? element.textContent?.trim().slice(0, 200) || null : null] *)
Definition descriptor_text (fuel : nat) (d : document) (e : node_id)
  : option (option string) :=
  if is_text_element d e then
    tc ← textContent fuel d e;
    Some (match tc with
          | None => None
          | Some t =>
              let v := slice0 200 (trim t) in
              if truthy v then Some v else None
          end)
  else Some None.

(** [element.className || '']: an object is truthy and stays. *)
Definition className_or_empty (c : class_value) : class_value :=
  match c with
  | ClassString s => if truthy s then ClassString s else ClassString ""
  | ClassAnimated b => ClassAnimated b
  end.

(** The outer [None] is fuel running out, the inner one is [null]. *)
Definition getElementInfo (fuel : nat) (d : document) (element : option node_id)
  : option (option ElementInfo) :=
  match element with
  | None => Some None
  | Some e =>
      let el := node_of d e in
      let tag := toLowerCase (tagName el) in
      text ← descriptor_text fuel d e;
      xp ← getXPath fuel d (Some e);
      sel ← getSelector fuel d (Some e);
      Some (Some
        {| info_tagName := tag;
           info_textContent := text;
           info_className := className_or_empty (className el);
           info_id := elem_id el;
           xpath := xp;
           selector := sel;
           computedStyles := computed_styles_of d e;
           boundingRect := bounding_rect_of d e;
           isTextElement := is_text_element d e;
           isImageElement := is_image_element d e;
           imageSrc := if bool_decide (tag = "img")
                       then Some (resolve_url (src el)) else None |})
  end.

End Inspector.

(** ** Engine state *)

Definition timer_id := nat.

(** The five functions the engine registers as event listeners. *)
Inductive listener :=
| OnMessage
| OnAckMessage
| OnMouseMove
| OnClick
| OnMouseLeave.

#[global] Instance listener_eq_dec : EqDecision listener.
Proof. solve_decision. Defined.

(** One entry of an event target's listener list.  [addEventListener]
    identifies an entry by type, callback and capture flag. *)
Record registration := Registration {
  reg_type : string;
  reg_callback : listener;
  reg_capture : bool
}.

#[global] Instance registration_eq_dec : EqDecision registration.
Proof. solve_decision. Defined.

(** The two callbacks [initEditMode] hands to the timer API: the one of
    [setInterval] and the one of [setTimeout]. *)
Inductive timer := ReadyRetry | ReadyDeadline.

(** The function values [initEditMode] can return: [() => {}] and the
    closure it stores in [cleanupFn]. *)
Inductive teardown := NoopTeardown | CleanupTeardown.

(** The module variables of [edit-mode.ts], then what the engine keeps in
    the page: the document, the flag [window.__VLIBE_EDIT_MODE_INITIALIZED__]
    ([initialized]), the listener lists of [window] and [document], and the
    live timers. *)
Record engine := Engine {
  doc : document;
  isEditModeActive : bool;
  highlightOverlay : option node_id;
  selectionOverlay : option node_id;
  selectedElement : option node_id;
  lastHoveredElement : option node_id;
  lastFrameTime : Q;
  readyInterval : option timer_id;
  readyAcknowledged : bool;
  cleanupFn : option teardown;
  initialized : bool;
  windowListeners : list registration;
  documentListeners : list registration;
  timers : gmap timer_id timer;
  next_timer : timer_id
}.

Definition set_doc (v : document) (s : engine) : engine :=
  Engine v (isEditModeActive s) (highlightOverlay s) (selectionOverlay s) (selectedElement s) (lastHoveredElement s) (lastFrameTime s) (readyInterval s) (readyAcknowledged s) (cleanupFn s) (initialized s) (windowListeners s) (documentListeners s) (timers s) (next_timer s).

Definition set_isEditModeActive (v : bool) (s : engine) : engine :=
  Engine (doc s) v (highlightOverlay s) (selectionOverlay s) (selectedElement s) (lastHoveredElement s) (lastFrameTime s) (readyInterval s) (readyAcknowledged s) (cleanupFn s) (initialized s) (windowListeners s) (documentListeners s) (timers s) (next_timer s).

Definition set_highlightOverlay (v : option node_id) (s : engine) : engine :=
  Engine (doc s) (isEditModeActive s) v (selectionOverlay s) (selectedElement s) (lastHoveredElement s) (lastFrameTime s) (readyInterval s) (readyAcknowledged s) (cleanupFn s) (initialized s) (windowListeners s) (documentListeners s) (timers s) (next_timer s).

Definition set_selectionOverlay (v : option node_id) (s : engine) : engine :=
  Engine (doc s) (isEditModeActive s) (highlightOverlay s) v (selectedElement s) (lastHoveredElement s) (lastFrameTime s) (readyInterval s) (readyAcknowledged s) (cleanupFn s) (initialized s) (windowListeners s) (documentListeners s) (timers s) (next_timer s).

Definition set_selectedElement (v : option node_id) (s : engine) : engine :=
  Engine (doc s) (isEditModeActive s) (highlightOverlay s) (selectionOverlay s) v (lastHoveredElement s) (lastFrameTime s) (readyInterval s) (readyAcknowledged s) (cleanupFn s) (initialized s) (windowListeners s) (documentListeners s) (timers s) (next_timer s).

Definition set_lastHoveredElement (v : option node_id) (s : engine) : engine :=
  Engine (doc s) (isEditModeActive s) (highlightOverlay s) (selectionOverlay s) (selectedElement s) v (lastFrameTime s) (readyInterval s) (readyAcknowledged s) (cleanupFn s) (initialized s) (windowListeners s) (documentListeners s) (timers s) (next_timer s).

Definition set_lastFrameTime (v : Q) (s : engine) : engine :=
  Engine (doc s) (isEditModeActive s) (highlightOverlay s) (selectionOverlay s) (selectedElement s) (lastHoveredElement s) v (readyInterval s) (readyAcknowledged s) (cleanupFn s) (initialized s) (windowListeners s) (documentListeners s) (timers s) (next_timer s).

Definition set_readyInterval (v : option timer_id) (s : engine) : engine :=
  Engine (doc s) (isEditModeActive s) (highlightOverlay s) (selectionOverlay s) (selectedElement s) (lastHoveredElement s) (lastFrameTime s) v (readyAcknowledged s) (cleanupFn s) (initialized s) (windowListeners s) (documentListeners s) (timers s) (next_timer s).

Definition set_readyAcknowledged (v : bool) (s : engine) : engine :=
  Engine (doc s) (isEditModeActive s) (highlightOverlay s) (selectionOverlay s) (selectedElement s) (lastHoveredElement s) (lastFrameTime s) (readyInterval s) v (cleanupFn s) (initialized s) (windowListeners s) (documentListeners s) (timers s) (next_timer s).

Definition set_cleanupFn (v : option teardown) (s : engine) : engine :=
  Engine (doc s) (isEditModeActive s) (highlightOverlay s) (selectionOverlay s) (selectedElement s) (lastHoveredElement s) (lastFrameTime s) (readyInterval s) (readyAcknowledged s) v (initialized s) (windowListeners s) (documentListeners s) (timers s) (next_timer s).

Definition set_initialized (v : bool) (s : engine) : engine :=
  Engine (doc s) (isEditModeActive s) (highlightOverlay s) (selectionOverlay s) (selectedElement s) (lastHoveredElement s) (lastFrameTime s) (readyInterval s) (readyAcknowledged s) (cleanupFn s) v (windowListeners s) (documentListeners s) (timers s) (next_timer s).

Definition set_windowListeners (v : list registration) (s : engine) : engine :=
  Engine (doc s) (isEditModeActive s) (highlightOverlay s) (selectionOverlay s) (selectedElement s) (lastHoveredElement s) (lastFrameTime s) (readyInterval s) (readyAcknowledged s) (cleanupFn s) (initialized s) v (documentListeners s) (timers s) (next_timer s).

Definition set_documentListeners (v : list registration) (s : engine) : engine :=
  Engine (doc s) (isEditModeActive s) (highlightOverlay s) (selectionOverlay s) (selectedElement s) (lastHoveredElement s) (lastFrameTime s) (readyInterval s) (readyAcknowledged s) (cleanupFn s) (initialized s) (windowListeners s) v (timers s) (next_timer s).

Definition set_timers (v : gmap timer_id timer) (s : engine) : engine :=
  Engine (doc s) (isEditModeActive s) (highlightOverlay s) (selectionOverlay s) (selectedElement s) (lastHoveredElement s) (lastFrameTime s) (readyInterval s) (readyAcknowledged s) (cleanupFn s) (initialized s) (windowListeners s) (documentListeners s) v (next_timer s).

Definition set_next_timer (v : timer_id) (s : engine) : engine :=
  Engine (doc s) (isEditModeActive s) (highlightOverlay s) (selectionOverlay s) (selectedElement s) (lastHoveredElement s) (lastFrameTime s) (readyInterval s) (readyAcknowledged s) (cleanupFn s) (initialized s) (windowListeners s) (documentListeners s) (timers s) v.

(** The state at module load: every flag false, every reference null. *)
Definition initial_engine (d : document) : engine :=
  Engine d false None None None None 0 None false None false [] [] ∅ 1.

(** ** Effects *)

(** The exceptions the engine can meet: [querySelector] on a selector
    that does not parse; a write to a read-only property, or [in] on a
    value that is not an object; the structured clone of [postMessage]
    on a value it cannot copy. *)
Inductive js_error :=
| SyntaxError (selector_text : string)
| TypeError (what : string)
| DataCloneError (what : string).

(** What a run of engine code lets the outside see, in order. *)
Inductive output :=
| PostMessage (type : string) (payload : option ElementInfo)
| ConsoleLog (args : list string)
| ConsoleError (args : list string)
| PreventDefault
| StopPropagation
| Uncaught (e : js_error).

(** How a piece of code ends: it returns, it throws, or the model has
    no fuel left to follow a walk through the DOM. *)
Inductive completion (A : Type) :=
| Normal (a : A)
| Throw (e : js_error)
| OutOfFuel.
Arguments Normal {A} a.
Arguments Throw {A} e.
Arguments OutOfFuel {A}.

Record run (A : Type) := Run {
  outcome : completion A;
  final : engine;
  trace : list output
}.
Arguments Run {A} outcome final trace.
Arguments outcome {A} r.
Arguments final {A} r.
Arguments trace {A} r.

Definition M (A : Type) : Type := engine → run A.

Definition ret {A} (a : A) : M A := λ s, Run (Normal a) s [].

Definition bind {A C} (m : M A) (k : A → M C) : M C := λ s,
  match m s with
  | Run (Normal a) s1 t1 =>
      let r := k a s1 in Run (outcome r) (final r) (t1 ++ trace r)
  | Run (Throw e) s1 t1 => Run (Throw e) s1 t1
  | Run OutOfFuel s1 t1 => Run OutOfFuel s1 t1
  end.

#[global] Instance M_ret : MRet M := @ret.
#[global] Instance M_bind : MBind M := λ A C k m, bind m k.

Definition get : M engine := λ s, Run (Normal s) s [].
Definition modify (f : engine → engine) : M unit := λ s, Run (Normal tt) (f s) [].
Definition emit (o : output) : M unit := λ s, Run (Normal tt) s [o].
Definition throw {A} (e : js_error) : M A := λ s, Run (Throw e) s [].

(** A DOM walk that may run out of fuel. *)
Definition walk {A} (o : option A) : M A := λ s,
  match o with
  | Some a => Run (Normal a) s []
  | None => Run OutOfFuel s []
  end.

(** [try { body } catch (err) { handler(err) }] *)
Definition try_catch (body : M unit) (handler : js_error → M unit) : M unit := λ s,
  match body s with
  | Run (Throw e) s1 t1 =>
      let r := handler e s1 in Run (outcome r) (final r) (t1 ++ trace r)
  | r => r
  end.

Definition modify_doc (f : document → document) : M unit :=
  modify (λ s, set_doc (f (doc s)) s).

Definition when (b : bool) (m : M unit) : M unit := if b then m else mret tt.

(** ** DOM operations *)

Definition with_style (v : gmap string string) (n : node) : node :=
  Node (nodeType n) (tagName n) (elem_id n) (className n) (src n) v (data n)
       (parentNode n) (childNodes n).
Definition with_elem_id (v : string) (n : node) : node :=
  Node (nodeType n) (tagName n) v (className n) (src n) (style n) (data n)
       (parentNode n) (childNodes n).
Definition with_src (v : string) (n : node) : node :=
  Node (nodeType n) (tagName n) (elem_id n) (className n) v (style n) (data n)
       (parentNode n) (childNodes n).
Definition with_data (v : string) (n : node) : node :=
  Node (nodeType n) (tagName n) (elem_id n) (className n) (src n) (style n) v
       (parentNode n) (childNodes n).
Definition with_parentNode (v : option node_id) (n : node) : node :=
  Node (nodeType n) (tagName n) (elem_id n) (className n) (src n) (style n)
       (data n) v (childNodes n).
Definition with_childNodes (v : list node_id) (n : node) : node :=
  Node (nodeType n) (tagName n) (elem_id n) (className n) (src n) (style n)
       (data n) (parentNode n) v.

Definition update_node (f : node → node) (n : node_id) (d : document) : document :=
  set_node d n (f (node_of d n)).

(** [el.style.prop = value] for the declarations the engine writes
    itself ([display], [cursor], the box of an overlay): every browser
    takes them as written. *)
Definition set_style (n : node_id) (prop value : string) (d : document) : document :=
  update_node (λ nd, with_style (<[prop := value]> (style nd)) nd) n d.

(** [el.style.cssText = ...], given as the declarations it holds. *)
Definition set_cssText (n : node_id) (decls : list (string * string))
    (d : document) : document :=
  update_node (with_style (list_to_map decls)) n d.

Definition fresh_node (d : document) : node_id := fresh (dom (nodes d)).

Definition createElement (tag : string) (d : document) : document * node_id :=
  let n := fresh_node d in
  (set_node d n (Node ELEMENT_NODE tag "" (ClassString "") "" ∅ "" None []), n).

Definition createTextNode (text : string) (d : document) : document * node_id :=
  let n := fresh_node d in
  (set_node d n (Node TEXT_NODE "" "" (ClassString "") "" ∅ text None []), n).

(** [n.remove()]: take [n] out of its parent's children. *)
Definition remove_node (n : node_id) (d : document) : document :=
  match parentNode (node_of d n) with
  | None => d
  | Some p =>
      let d1 := update_node
        (λ nd, with_childNodes (filter (λ c, c ≠ n) (childNodes nd)) nd) p d in
      update_node (with_parentNode None) n d1
  end.

(** [parent.appendChild(child)] *)
Definition appendChild (parent child : node_id) (d : document) : document :=
  let d1 := remove_node child d in
  let d2 := update_node
    (λ nd, with_childNodes (childNodes nd ++ [child]) nd) parent d1 in
  update_node (with_parentNode (Some parent)) child d2.

(** The [textContent] setter of an element: all children go, and a new
    text node comes unless the text is empty. *)
Definition set_textContent (e : node_id) (text : string) (d : document) : document :=
  let d1 := foldr (update_node (with_parentNode None)) d (childNodes (node_of d e)) in
  let d2 := update_node (with_childNodes []) e d1 in
  if truthy text then
    let '(d3, t) := createTextNode text d2 in appendChild e t d3
  else d2.

(** [addEventListener] adds nothing when the entry is there already. *)
Definition addEventListener (r : registration) (regs : list registration)
  : list registration :=
  if bool_decide (r ∈ regs) then regs else regs ++ [r].

Definition removeEventListener (r : registration) (regs : list registration)
  : list registration :=
  filter (λ x, x ≠ r) regs.

(** [a < b] on clock readings *)
Definition Qltb (a b : Q) : bool := negb (Qle_bool b a).

(** ** The engine *)

Record payload := Payload {
  p_selector : option string;
  p_property : option string;
  p_value : option string;
  p_newText : option string;
  p_newSrc : option string
}.

(** [message.payload] when it is truthy: an object, of which [payload]
    keeps the five keys the engine asks for ([None] when the key is not
    in the object), or a primitive value such as a string or a number. *)
Inductive payload_value :=
| PayloadObject (p : payload)
| PayloadPrimitive.

(** The data of a message event; [msg_payload] is [None] when the
    payload is missing or falsy. *)
Record EditModeMessage := Message {
  msg_type : string;
  msg_payload : option payload_value
}.

Definition FRAME_DELAY : Q := 16.
Definition VLIBE_PURPLE : string := "#F4C7F2".
Definition HIGHLIGHT_ID : string := "__vlibe_edit_highlight__".
Definition SELECTION_ID : string := "__vlibe_edit_selection__".

Definition highlight_css : list (string * string) :=
  [("position", "fixed"); ("pointer-events", "none");
   ("border", "2px solid " +:+ VLIBE_PURPLE);
   ("background", "rgba(244, 199, 242, 0.1)");
   ("z-index", "999999");
   ("transition", "all 0.1s ease-out");
   ("box-shadow", "0 0 0 4px rgba(244, 199, 242, 0.2)");
   ("border-radius", "4px");
   ("display", "none")].

Definition selection_css : list (string * string) :=
  [("position", "fixed"); ("pointer-events", "none");
   ("border", "2px solid " +:+ VLIBE_PURPLE);
   ("background", "rgba(244, 199, 242, 0.15)");
   ("z-index", "999998");
   ("box-shadow",
    "0 0 0 4px rgba(244, 199, 242, 0.3), 0 0 12px rgba(244, 199, 242, 0.2)");
   ("border-radius", "4px");
   ("display", "none")].

Definition message_reg (l : listener) : registration := Registration "message" l false.
Definition mousemove_reg : registration := Registration "mousemove" OnMouseMove false.
Definition click_reg : registration := Registration "click" OnClick true.
Definition mouseleave_reg : registration := Registration "mouseleave" OnMouseLeave false.

(** What the structured clone can copy. *)
Definition cloneable (i : ElementInfo) : bool :=
  match info_className i with
  | ClassString _ => true
  | ClassAnimated _ => false
  end.

Section Engine.
Context {B : Browser} (fuel : nat).

Definition createHighlightOverlay : M node_id :=
  s ← get;
  match highlightOverlay s with
  | Some h => mret h
  | None =>
      let '(d1, h) := createElement "DIV" (doc s) in
      modify (λ s, set_highlightOverlay (Some h) (set_doc d1 s));;
      modify_doc (update_node (with_elem_id HIGHLIGHT_ID) h);;
      modify_doc (set_cssText h highlight_css);;
      modify_doc (λ d, appendChild (body d) h d);;
      mret h
  end.

Definition createSelectionOverlay : M node_id :=
  s ← get;
  match selectionOverlay s with
  | Some o => mret o
  | None =>
      let '(d1, o) := createElement "DIV" (doc s) in
      modify (λ s, set_selectionOverlay (Some o) (set_doc d1 s));;
      modify_doc (update_node (with_elem_id SELECTION_ID) o);;
      modify_doc (set_cssText o selection_css);;
      modify_doc (λ d, appendChild (body d) o d);;
      mret o
  end.

(** The four assignments that put an overlay over [element]. *)
Definition place_overlay (overlay element : node_id) : M unit :=
  s ← get;
  let rect := getBoundingClientRect (doc s) element in
  modify_doc (set_style overlay "display" "block");;
  modify_doc (set_style overlay "top" (number_to_string (rect_top rect) +:+ "px"));;
  modify_doc (set_style overlay "left" (number_to_string (rect_left rect) +:+ "px"));;
  modify_doc (set_style overlay "width" (number_to_string (rect_width rect) +:+ "px"));;
  modify_doc (set_style overlay "height" (number_to_string (rect_height rect) +:+ "px")).

Definition updateSelectionOverlay (element : option node_id) : M unit :=
  s ← get;
  when (bool_decide (selectionOverlay s = None)) (createSelectionOverlay;; mret tt);;
  s ← get;
  match element with
  | None =>
      match selectionOverlay s with
      | Some o => modify_doc (set_style o "display" "none")
      | None => mret tt
      end
  | Some e =>
      match selectionOverlay s with
      | Some o => place_overlay o e
      | None => mret tt
      end
  end.

Definition clearSelection : M unit :=
  modify (set_selectedElement None);;
  updateSelectionOverlay None.

Definition updateHighlight (element : option node_id) : M unit :=
  s ← get;
  match highlightOverlay s, element with
  | Some h, Some e => place_overlay h e
  | Some h, None => modify_doc (set_style h "display" "none")
  | None, _ => mret tt
  end.

(** [window.parent.postMessage({type, payload}, '*')].  The message is
    copied by the structured clone algorithm, which takes strings,
    numbers, booleans and plain objects and throws on a DOM object: a
    descriptor whose [className] is an [SVGAnimatedString] cannot be
    posted. *)
Definition postMessage (type : string) (payload : option ElementInfo) : M unit :=
  match payload with
  | Some i =>
      if cloneable i then emit (PostMessage type payload)
      else throw (DataCloneError type)
  | None => emit (PostMessage type None)
  end.

(** The test of [handleMouseMove] for targets that are never hovered. *)
Definition skipped_on_move (s : engine) (target : node_id) : bool :=
  bool_decide (Some target = highlightOverlay s)
  || bool_decide (elem_id (node_of (doc s) target) = HIGHLIGHT_ID)
  || bool_decide (Some target = selectionOverlay s)
  || bool_decide (elem_id (node_of (doc s) target) = SELECTION_ID)
  || bool_decide (tagName (node_of (doc s) target) = "HTML")
  || bool_decide (tagName (node_of (doc s) target) = "BODY").

(** The statements of [handleMouseMove] that follow the throttle. *)
Definition track_hover (target : node_id) : M unit :=
  s ← get;
  if skipped_on_move s target then mret tt
  else if bool_decide (Some target = lastHoveredElement s) then mret tt
  else
    modify (set_lastHoveredElement (Some target));;
    updateHighlight (Some target);;
    s ← get;
    info ← walk (getElementInfo fuel (doc s) (Some target));
    match info with
    | Some i => postMessage "ELEMENT_HOVERED" (Some i)
    | None => mret tt
    end.

Definition handleMouseMove (now : Q) (target : node_id) : M unit :=
  s ← get;
  if negb (isEditModeActive s) then mret tt
  else if Qltb (now - lastFrameTime s) FRAME_DELAY then mret tt
  else
    modify (set_lastFrameTime now);;
    track_hover target.

Definition skipped_on_click (s : engine) (target : node_id) : bool :=
  bool_decide (Some target = highlightOverlay s)
  || bool_decide (elem_id (node_of (doc s) target) = HIGHLIGHT_ID)
  || bool_decide (Some target = selectionOverlay s)
  || bool_decide (elem_id (node_of (doc s) target) = SELECTION_ID).

Definition handleClick (target : node_id) : M unit :=
  s ← get;
  if negb (isEditModeActive s) then mret tt
  else
    emit PreventDefault;;
    emit StopPropagation;;
    if skipped_on_click s target then mret tt
    else
      modify (set_selectedElement (Some target));;
      updateSelectionOverlay (Some target);;
      s ← get;
      info ← walk (getElementInfo fuel (doc s) (Some target));
      match info with
      | Some i => postMessage "ELEMENT_CLICKED" (Some i)
      | None => mret tt
      end.

Definition handleMouseLeave : M unit :=
  s ← get;
  if negb (isEditModeActive s) then mret tt
  else
    modify (set_lastHoveredElement None);;
    match highlightOverlay s with
    | Some h => modify_doc (set_style h "display" "none")
    | None => mret tt
    end;;
    postMessage "ELEMENT_UNHOVERED" None.

(** [document.querySelector(selector)], which throws on a selector it
    cannot parse and gives [null] when nothing matches. *)
Definition query (selector : string) : M (option node_id) :=
  s ← get;
  match querySelector (doc s) selector with
  | QSyntaxError => throw (SyntaxError selector)
  | QNoMatch => mret None
  | QFound e => mret (Some e)
  end.

Definition error_text (e : js_error) : string :=
  match e with
  | SyntaxError sel => "SyntaxError: " +:+ sel
  | TypeError what => "TypeError: " +:+ what
  | DataCloneError what => "DataCloneError: " +:+ what
  end.

(** [el.style[name] = value] for a name and a value that come from
    outside: the style object of the browser decides. *)
Definition assign_style (e : node_id) (name value : string) : M unit :=
  s ← get;
  match style_assign (style (node_of (doc s) e)) name value with
  | Some st => modify_doc (update_node (with_style st) e)
  | None => throw (TypeError name)
  end.

Definition applyStyleChange (selector property value : string) : M unit :=
  try_catch
    (element ← query selector;
     match element with
     | Some e =>
         assign_style e property value;;
         emit (ConsoleLog ["[VlibeEditMode] Applied style:"; property; "=";
                           value; "to"; selector])
     | None => mret tt
     end)
    (λ err, emit (ConsoleError ["[VlibeEditMode] Failed to apply style:";
                                error_text err])).

Definition applyTextChange (selector newText : string) : M unit :=
  try_catch
    (element ← query selector;
     match element with
     | Some e =>
         s ← get;
         match List.find (is_text (doc s)) (childNodes (node_of (doc s) e)) with
         | Some textNode => modify_doc (update_node (with_data newText) textNode)
         | None => modify_doc (set_textContent e newText)
         end;;
         emit (ConsoleLog ["[VlibeEditMode] Applied text change to"; selector])
     | None => mret tt
     end)
    (λ err, emit (ConsoleError ["[VlibeEditMode] Failed to apply text:";
                                error_text err])).

Definition applyImageChange (selector newSrc : string) : M unit :=
  try_catch
    (element ← query selector;
     match element with
     | Some e =>
         s ← get;
         (if bool_decide (toLowerCase (tagName (node_of (doc s) e)) = "img")
          then modify_doc (update_node (with_src newSrc) e)
          else assign_style e "backgroundImage" ("url(" +:+ newSrc +:+ ")"));;
         emit (ConsoleLog ["[VlibeEditMode] Applied image change to"; selector])
     | None => mret tt
     end)
    (λ err, emit (ConsoleError ["[VlibeEditMode] Failed to apply image:";
                                error_text err])).

Definition enableEditMode : M unit :=
  emit (ConsoleLog ["[VlibeEditMode] Enabling edit mode"]);;
  modify (set_isEditModeActive true);;
  createHighlightOverlay;;
  createSelectionOverlay;;
  modify_doc (λ d, set_style (body d) "cursor" "crosshair" d);;
  modify (λ s, set_documentListeners (addEventListener mousemove_reg (documentListeners s)) s);;
  modify (λ s, set_documentListeners (addEventListener click_reg (documentListeners s)) s);;
  modify (λ s, set_documentListeners (addEventListener mouseleave_reg (documentListeners s)) s).

Definition disableEditMode : M unit :=
  emit (ConsoleLog ["[VlibeEditMode] Disabling edit mode"]);;
  modify (set_isEditModeActive false);;
  modify (set_lastHoveredElement None);;
  clearSelection;;
  s ← get;
  match highlightOverlay s with
  | Some h => modify_doc (set_style h "display" "none")
  | None => mret tt
  end;;
  modify_doc (λ d, set_style (body d) "cursor" "" d);;
  modify (λ s, set_documentListeners (removeEventListener mousemove_reg (documentListeners s)) s);;
  modify (λ s, set_documentListeners (removeEventListener click_reg (documentListeners s)) s);;
  modify (λ s, set_documentListeners (removeEventListener mouseleave_reg (documentListeners s)) s).

(** [clearInterval(readyInterval); readyInterval = null] under its guard *)
Definition stop_ready_interval : M unit :=
  s ← get;
  match readyInterval s with
  | Some t =>
      modify (λ s, set_timers (delete t (timers s)) s);;
      modify (set_readyInterval None)
  | None => mret tt
  end.

(** In the three apply cases the test
    [message.payload && 'selector' in message.payload && ...] throws a
    [TypeError] when the payload is a truthy primitive: [in] wants an
    object. *)
Definition handleMessage (data : option EditModeMessage) : M unit :=
  match data with
  | None => mret tt
  | Some message =>
      if negb (truthy (msg_type message)) then mret tt
      else if bool_decide (msg_type message = "EDIT_MODE_ENABLE") then enableEditMode
      else if bool_decide (msg_type message = "EDIT_MODE_DISABLE") then disableEditMode
      else if bool_decide (msg_type message = "APPLY_STYLE_CHANGE") then
        match msg_payload message with
        | Some PayloadPrimitive => throw (TypeError "in")
        | Some (PayloadObject (Payload (Some sel) (Some property) (Some value) _ _)) =>
            applyStyleChange sel property value
        | _ => mret tt
        end
      else if bool_decide (msg_type message = "APPLY_TEXT_CHANGE") then
        match msg_payload message with
        | Some PayloadPrimitive => throw (TypeError "in")
        | Some (PayloadObject (Payload (Some sel) _ _ (Some newText) _)) =>
            applyTextChange sel newText
        | _ => mret tt
        end
      else if bool_decide (msg_type message = "APPLY_IMAGE_CHANGE") then
        match msg_payload message with
        | Some PayloadPrimitive => throw (TypeError "in")
        | Some (PayloadObject (Payload (Some sel) _ _ _ (Some newSrc))) =>
            applyImageChange sel newSrc
        | _ => mret tt
        end
      else if bool_decide (msg_type message = "CLEAR_SELECTION") then clearSelection
      else if bool_decide (msg_type message = "EDIT_MODE_READY_ACK") then
        modify (set_readyAcknowledged true);;
        stop_ready_interval
      else mret tt
  end.

(** [event.data?.type] *)
Definition type_of (data : option EditModeMessage) : string :=
  match data with
  | Some message => msg_type message
  | None => ""
  end.

Definition handleAckMessage (data : option EditModeMessage) : M unit :=
  if bool_decide (type_of data = "EDIT_MODE_ENABLE")
     || bool_decide (type_of data = "EDIT_MODE_READY_ACK")
  then
    modify (set_readyAcknowledged true);;
    stop_ready_interval
  else mret tt.

Definition sendReady : M unit :=
  s ← get;
  if negb (readyAcknowledged s) then
    emit (ConsoleLog ["[VlibeEditMode] Sending EDIT_MODE_READY to parent"]);;
    postMessage "EDIT_MODE_READY" None
  else mret tt.

(** [setInterval] and [setTimeout]: the callback is entered in the timer
    table under an identifier never used before. *)
Definition set_timer (k : timer) : M timer_id :=
  s ← get;
  let t := next_timer s in
  modify (λ s, set_next_timer (S t) (set_timers (<[t := k]> (timers s)) s));;
  mret t.

(** The closure stored in [cleanupFn]. *)
Definition cleanup : M unit :=
  modify (λ s, set_windowListeners
            (removeEventListener (message_reg OnMessage) (windowListeners s)) s);;
  modify (λ s, set_windowListeners
            (removeEventListener (message_reg OnAckMessage) (windowListeners s)) s);;
  stop_ready_interval;;
  s ← get;
  match highlightOverlay s with
  | Some h =>
      modify_doc (remove_node h);;
      modify (set_highlightOverlay None)
  | None => mret tt
  end;;
  s ← get;
  match selectionOverlay s with
  | Some o =>
      modify_doc (remove_node o);;
      modify (set_selectionOverlay None)
  | None => mret tt
  end;;
  modify (set_initialized false).

Definition call_teardown (h : teardown) : M unit :=
  match h with
  | NoopTeardown => mret tt
  | CleanupTeardown => cleanup
  end.

Definition initEditMode : M teardown :=
  if negb window_defined then mret NoopTeardown
  else
    s ← get;
    if initialized s then
      emit (ConsoleLog ["[VlibeEditMode] Already initialized, skipping"]);;
      mret (default NoopTeardown (cleanupFn s))
    else
      modify (set_initialized true);;
      modify (λ s, set_windowListeners
                (addEventListener (message_reg OnMessage) (windowListeners s)) s);;
      modify (λ s, set_windowListeners
                (addEventListener (message_reg OnAckMessage) (windowListeners s)) s);;
      sendReady;;
      emit (ConsoleLog ["[VlibeEditMode] Edit mode script initialized"]);;
      t ← set_timer ReadyRetry;
      modify (set_readyInterval (Some t));;
      set_timer ReadyDeadline;;
      modify (set_cleanupFn (Some CleanupTeardown));;
      mret CleanupTeardown.

Definition isEditModeEnabled : M bool :=
  s ← get; mret (isEditModeActive s).

Definition getSelectedElementInfo : M (option ElementInfo) :=
  s ← get;
  match selectedElement s with
  | Some e => walk (getElementInfo fuel (doc s) (Some e))
  | None => mret None
  end.

End Engine.

(** ** Events *)

(** What the page and the host do to the engine: an event reaches a
    listener list, a live timer fires, or the embedding code calls
    [initEditMode] or a teardown function it was given.  [now] is the
    reading of [performance.now()] the move handler takes. *)
Inductive event :=
| MessageEvent (data : option EditModeMessage)
| MouseMoveEvent (now : Q) (target : node_id)
| ClickEvent (target : node_id)
| MouseLeaveEvent
| TimerFires (t : timer_id)
| CallInitEditMode
| CallTeardown (h : teardown).

Definition event_type (ev : event) : string :=
  match ev with
  | MessageEvent _ => "message"
  | MouseMoveEvent _ _ => "mousemove"
  | ClickEvent _ => "click"
  | MouseLeaveEvent => "mouseleave"
  | _ => ""
  end.

(** An exception that leaves a listener is reported and goes no further. *)
Definition guarded (m : M unit) : M unit :=
  try_catch m (λ e, emit (Uncaught e)).

Section Events.
Context {B : Browser} (fuel : nat).

Definition call_listener (ev : event) (l : listener) : M unit :=
  match l, ev with
  | OnMessage, MessageEvent data => handleMessage data
  | OnAckMessage, MessageEvent data => handleAckMessage data
  | OnMouseMove, MouseMoveEvent now target => handleMouseMove fuel now target
  | OnClick, ClickEvent target => handleClick fuel target
  | OnMouseLeave, MouseLeaveEvent => handleMouseLeave
  | _, _ => mret tt
  end.

(** The listeners of one target, called in the order they were added. *)
Fixpoint dispatch (ev : event) (regs : list registration) : M unit :=
  match regs with
  | [] => mret tt
  | r :: rest =>
      when (bool_decide (reg_type r = event_type ev))
           (guarded (call_listener ev (reg_callback r)));;
      dispatch ev rest
  end.

Definition fire_timer (t : timer_id) : M unit :=
  s ← get;
  match timers s !! t with
  | Some ReadyRetry => sendReady
  | Some ReadyDeadline =>
      modify (λ s, set_timers (delete t (timers s)) s);;
      stop_ready_interval
  | None => mret tt
  end.

Definition step (ev : event) : M unit :=
  match ev with
  | MessageEvent _ => s ← get; dispatch ev (windowListeners s)
  | MouseMoveEvent _ _ | ClickEvent _ | MouseLeaveEvent =>
      s ← get; dispatch ev (documentListeners s)
  | TimerFires t => fire_timer t
  | CallInitEditMode => initEditMode;; mret tt
  | CallTeardown h => call_teardown h
  end.

Fixpoint run_events (evs : list event) : M unit :=
  match evs with
  | [] => mret tt
  | ev :: rest => step ev;; run_events rest
  end.

End Events.

(** ** Enough fuel *)

(** The chain of parents above [n] ends within [fuel] steps. *)
Fixpoint ancestors_fit (fuel : nat) (d : document) (n : node_id) : bool :=
  match fuel with
  | O => false
  | S fuel' =>
      match parentNode (node_of d n) with
      | None => true
      | Some p => ancestors_fit fuel' d p
      end
  end.

(** The tree below [n] is at most [fuel] levels deep. *)
Fixpoint subtree_fits (fuel : nat) (d : document) (n : node_id) : bool :=
  match fuel with
  | O => false
  | S fuel' => forallb (subtree_fits fuel' d) (childNodes (node_of d n))
  end.

(** ** A small page for examples

    html(1) > body(2) > [ h1#title(3) > "Hello"(4) ; p.lead(5) > [ "  Hi "(6) ; span(7) ] ; img(8) ] *)

Definition page_nodes : gmap node_id node :=
  list_to_map
    [(0, Node DOCUMENT_NODE "" "" (ClassString "") "" ∅ "" None [1]);
     (1, Node ELEMENT_NODE "HTML" "" (ClassString "") "" ∅ "" (Some 0) [2]);
     (2, Node ELEMENT_NODE "BODY" "" (ClassString "") "" ∅ "" (Some 1) [3; 5; 8]);
     (3, Node ELEMENT_NODE "H1" "title" (ClassString "") "" ∅ "" (Some 2) [4]);
     (4, Node TEXT_NODE "" "" (ClassString "") "" ∅ "Hello" (Some 3) []);
     (5, Node ELEMENT_NODE "P" "" (ClassString "lead hover:bold big wide") "" ∅ ""
           (Some 2) [6; 7]);
     (6, Node TEXT_NODE "" "" (ClassString "") "" ∅ "  Hi " (Some 5) []);
     (7, Node ELEMENT_NODE "SPAN" "" (ClassString "") "" ∅ "" (Some 5) []);
     (8, Node ELEMENT_NODE "IMG" "" (ClassString "") "/a.png" ∅ "" (Some 2) [])].

Definition page : document := Document page_nodes 2.

(** A browser for the page: it knows the three selectors the examples
    use, lays every box out at the origin with no size, and leaves
    identifiers as they are.  Its style objects throw on the read-only
    name [length], ignore the value [notacolor] and a [url()] that holds
    a blank, and store every other declaration as written. *)
Definition page_browser : Browser :=
  {| CSS_escape := λ s, s;
     querySelector := λ d sel,
       if bool_decide (sel = "#title") then QFound 3
       else if bool_decide (sel = "body > p") then QFound 5
       else if bool_decide (sel = "body > img") then QFound 8
       else if bool_decide (sel = "p >") then QSyntaxError
       else QNoMatch;
     getBoundingClientRect := λ _ _, Build_DOMRect 0 0 0 0;
     getComputedStyle := λ _ _ _, "";
     number_to_string := λ _, "0";
     scrollX := 0;
     scrollY := 0;
     double_add := Qplus;
     style_assign := λ st name value,
       if bool_decide (name = "length") then None
       else if bool_decide (value = "notacolor") then Some st
       else if bool_decide (value = "url(my pic.png)") then Some st
       else Some (<[name := value]> st);
     resolve_url := λ u, u;
     window_defined := true |}.

(** A page with an inline drawing: the body holds an [svg] element with
    two classes, and in it a [path].  SVG elements keep the case of their
    tag and read their class name as an object. *)
Definition svg_page : document :=
  Document
    (list_to_map
       [(0, Node DOCUMENT_NODE "" "" (ClassString "") "" ∅ "" None [1]);
        (1, Node ELEMENT_NODE "HTML" "" (ClassString "") "" ∅ "" (Some 0) [2]);
        (2, Node ELEMENT_NODE "BODY" "" (ClassString "") "" ∅ "" (Some 1) [3]);
        (3, Node ELEMENT_NODE "svg" "" (ClassAnimated "icon big") "" ∅ ""
              (Some 2) [4]);
        (4, Node ELEMENT_NODE "path" "" (ClassAnimated "") "" ∅ "" (Some 3) [])])
    2.

(** ** Vocabulary of the properties *)

(** *** A unary logic for engine code *)

(** [keeps_at I T m s]: run from [s], [m] stops in a state where [I]
    holds, however it completes, and emits only outputs that satisfy [T]. *)
Definition keeps_at {A} (I : engine → Prop) (T : output → Prop) (m : M A)
    (s : engine) : Prop :=
  I (final (m s)) ∧ Forall T (trace (m s)).

(** [keeps I T m]: the same from every state where [I] holds. *)
Definition keeps {A} (I : engine → Prop) (T : output → Prop) (m : M A) : Prop :=
  ∀ s, I s → keeps_at I T m s.

(** [normal m]: [m] always returns; it neither throws nor runs out of fuel. *)
Definition normal {A} (m : M A) : Prop :=
  ∀ s, ∃ a, outcome (m s) = Normal a.

(** [fuelled m]: [m] never runs out of fuel. *)
Definition fuelled {A} (m : M A) : Prop :=
  ∀ s, outcome (m s) ≠ OutOfFuel.

(** [ends Q m]: wherever [m] starts, it stops in a state where [Q] holds. *)
Definition ends {A} (Q : engine → Prop) (m : M A) : Prop :=
  ∀ s, Q (final (m s)).

(** *** Handshake *)

(** The part of the state the handshake, the initialisation guard and
    the throttle decide on. *)
Definition core (s : engine)
  : bool * bool * option teardown * option timer_id * gmap timer_id timer * Q :=
  (readyAcknowledged s, initialized s, cleanupFn s, readyInterval s, timers s,
   lastFrameTime s).

(** The two statements under [case 'EDIT_MODE_READY_ACK'] and in
    [handleAckMessage], as a function on states. *)
Definition acknowledge (s : engine) : engine :=
  match readyInterval s with
  | Some t =>
      set_readyInterval None
        (set_timers (delete t (timers (set_readyAcknowledged true s)))
           (set_readyAcknowledged true s))
  | None => set_readyAcknowledged true s
  end.

(** An output other than the ready announcement. *)
Definition not_ready (o : output) : Prop :=
  ∀ p, o ≠ PostMessage "EDIT_MODE_READY" p.

(** The listeners that acknowledge on a message: [handleAckMessage] on
    the enable command and on the acknowledgment, [handleMessage] on the
    acknowledgment. *)
Definition acks_on (data : option EditModeMessage) (l : listener) : bool :=
  match l with
  | OnAckMessage =>
      bool_decide (type_of data = "EDIT_MODE_ENABLE")
      || bool_decide (type_of data = "EDIT_MODE_READY_ACK")
  | OnMessage => bool_decide (type_of data = "EDIT_MODE_READY_ACK")
  | _ => false
  end.

Definition acks_in (data : option EditModeMessage) (regs : list registration) : bool :=
  existsb (λ r, bool_decide (reg_type r = "message") && acks_on data (reg_callback r))
          regs.

(** The states in which the acknowledgment has been seen. *)
Definition acknowledged (s : engine) : Prop := readyAcknowledged s = true.

(** The initialised flag is only up while a teardown closure is stored. *)
Definition guard_sound (s : engine) : Prop :=
  initialized s = true → cleanupFn s = Some CleanupTeardown.

Definition ALREADY : output :=
  ConsoleLog ["[VlibeEditMode] Already initialized, skipping"].

(** *** Hover *)

Definition is_hover (o : output) : bool :=
  match o with
  | PostMessage ty _ => bool_decide (ty = "ELEMENT_HOVERED")
  | _ => false
  end.

(** The number of hover updates among the outputs. *)
Definition hover_updates (t : list output) : nat :=
  length (filter (λ o, is_hover o = true) t).

(** [quiet_hover n m]: a run of [m] posts at most [n] hover updates. *)
Definition quiet_hover {A} (n : nat) (m : M A) : Prop :=
  ∀ s, (hover_updates (trace (m s)) ≤ n)%nat.

(** *** Teardown *)

Definition remove_overlay (o : option node_id) (d : document) : document :=
  match o with
  | Some n => remove_node n d
  | None => d
  end.

(** The state the closure in [cleanupFn] leaves, field by field. *)
Definition torn_down (s : engine) : engine :=
  Engine
    (remove_overlay (selectionOverlay s) (remove_overlay (highlightOverlay s) (doc s)))
    (isEditModeActive s) None None (selectedElement s) (lastHoveredElement s)
    (lastFrameTime s) None (readyAcknowledged s) (cleanupFn s) false
    (removeEventListener (message_reg OnAckMessage)
       (removeEventListener (message_reg OnMessage) (windowListeners s)))
    (documentListeners s)
    (match readyInterval s with
     | Some t => delete t (timers s)
     | None => timers s
     end)
    (next_timer s).

(** *** States of the example page *)

(** The page just after [initEditMode()]: both message listeners are
    registered and the retry interval runs. *)
Definition listening_engine : engine :=
  final (run_events (B := page_browser) 4 [CallInitEditMode] (initial_engine page)).

(** The page after init, enable and a hover over the paragraph at 20 ms. *)
Definition hovering_engine : engine :=
  final (run_events (B := page_browser) 4
           [CallInitEditMode;
            MessageEvent (Some (Message "EDIT_MODE_ENABLE" None));
            MouseMoveEvent 20 5]
           (initial_engine page)).

(** The page after init, enable, a hover and a click on the paragraph. *)
Definition selecting_engine : engine :=
  final (run_events (B := page_browser) 4
           [CallInitEditMode;
            MessageEvent (Some (Message "EDIT_MODE_ENABLE" None));
            MouseMoveEvent 20 5;
            ClickEvent 5]
           (initial_engine page)).

(** The same page after the teardown handle has been called. *)
Definition torn_engine : engine :=
  final (call_teardown CleanupTeardown selecting_engine).

(** *** Commands *)

(** The message types [handleMessage] has a case for. *)
Definition command_types : list string :=
  ["EDIT_MODE_ENABLE"; "EDIT_MODE_DISABLE"; "APPLY_STYLE_CHANGE";
   "APPLY_TEXT_CHANGE"; "APPLY_IMAGE_CHANGE"; "CLEAR_SELECTION";
   "EDIT_MODE_READY_ACK"].

(** The three commands that carry a change to apply. *)
Definition apply_types : list string :=
  ["APPLY_STYLE_CHANGE"; "APPLY_TEXT_CHANGE"; "APPLY_IMAGE_CHANGE"].

(** The events the document listeners are registered for. *)
Definition is_pointer_event (ev : event) : bool :=
  match ev with
  | MouseMoveEvent _ _ | ClickEvent _ | MouseLeaveEvent => true
  | _ => false
  end.

(** The example browser where the script runs with no [window], as in
    server-side rendering. *)
Definition server_browser : Browser :=
  {| CSS_escape := λ s, s;
     querySelector := λ _ _, QNoMatch;
     getBoundingClientRect := λ _ _, Build_DOMRect 0 0 0 0;
     getComputedStyle := λ _ _ _, "";
     number_to_string := λ _, "0";
     scrollX := 0;
     scrollY := 0;
     double_add := Qplus;
     style_assign := λ st name value, Some (<[name := value]> st);
     resolve_url := λ u, u;
     window_defined := false |}.

(** The two lines the mode switches log. *)
Definition ENABLING : output := ConsoleLog ["[VlibeEditMode] Enabling edit mode"].
Definition DISABLING : output := ConsoleLog ["[VlibeEditMode] Disabling edit mode"].

(** ** The React provider *)

(** [EditModeProvider] of [react.tsx] keeps three [useState] cells and,
    once mounted, listens to the same message events as the engine.  The
    record is the value of the cells after the updates of a handler have
    been applied; [selectedElement] holds whatever payload the message
    carried. *)
Module React.

Record provider := Provider {
  isInitialized : bool;
  isActive : bool;
  selectedElement : option payload_value
}.

Definition initial : provider := Provider false false None.

Definition setIsInitialized (b : bool) (p : provider) : provider :=
  Provider b (isActive p) (selectedElement p).

Definition setIsActive (b : bool) (p : provider) : provider :=
  Provider (isInitialized p) b (selectedElement p).

Definition setSelectedElement (v : option payload_value) (p : provider) : provider :=
  Provider (isInitialized p) (isActive p) v.

(** The [handleMessage] closure of the effect. *)
Definition handleMessage (data : option EditModeMessage) (p : provider) : provider :=
  match data with
  | None => p
  | Some message =>
      if negb (truthy (msg_type message)) then p
      else if bool_decide (msg_type message = "EDIT_MODE_ENABLE") then
        setIsActive true p
      else if bool_decide (msg_type message = "EDIT_MODE_DISABLE") then
        setSelectedElement None (setIsActive false p)
      else if bool_decide (msg_type message = "ELEMENT_CLICKED") then
        match msg_payload message with
        | Some pl => setSelectedElement (Some pl) p
        | None => p
        end
      else if bool_decide (msg_type message = "CLEAR_SELECTION") then
        setSelectedElement None p
      else p
  end.

(** The provider after a run of message events. *)
Definition handleMessages (msgs : list (option EditModeMessage)) (p : provider)
  : provider :=
  foldl (λ p data, handleMessage data p) p msgs.

End React.

(** The mode a message leaves, given the mode before it. *)
Definition mode_after (data : option EditModeMessage) (b : bool) : bool :=
  if bool_decide (type_of data = "EDIT_MODE_ENABLE") then true
  else if bool_decide (type_of data = "EDIT_MODE_DISABLE") then false
  else b.

(** The commands that drop the selection. *)
Definition clears (data : option EditModeMessage) : bool :=
  bool_decide (type_of data = "EDIT_MODE_DISABLE")
  || bool_decide (type_of data = "CLEAR_SELECTION").

Definition is_message_handler (r : registration) : bool :=
  bool_decide (reg_type r = "message")
  && bool_decide (reg_callback r = OnMessage).

(** The engine state as the specification lists it: the mode, the
    selected element, the hover target, the time stamp of the throttle and
    the acknowledged flag.  The overlays are not in it: the specification
    has them made on first use. *)
Definition EngineState (s : engine) : bool * option node_id * option node_id * Q * bool :=
  (isEditModeActive s, selectedElement s, lastHoveredElement s, lastFrameTime s,
   readyAcknowledged s).

(** The mode and the listeners on the window are [b] and [L]. *)
Definition mode_kept (b : bool) (L : list registration) (s : engine) : Prop :=
  isEditModeActive s = b ∧ windowListeners s = L.

(** An output other than the report of an uncaught exception. *)
Definition no_uncaught (o : output) : Prop := ∀ e, o ≠ Uncaught e.

(** The messages on which [handleMessage] throws: an apply command whose
    payload is truthy and not an object. *)
Definition ill_typed (data : option EditModeMessage) : bool :=
  match data with
  | Some (Message ty (Some PayloadPrimitive)) => bool_decide (ty ∈ apply_types)
  | _ => false
  end.

(** The element siblings that carry the tag of [e], in document order. *)
Definition same_tag_elements (d : document) (e : node_id)
    (siblings : list node_id) : list node_id :=
  filter (λ el, tagName (node_of d el) = tagName (node_of d e))
         (filter (λ c, is_element d c = true) siblings).

(** In [d'] the overlay [o] lies over the box that [e] has in [d]: it is
    shown, its four lengths are those of the box in the viewport, and
    nothing else differs from [d]. *)
Definition placed_over {B : Browser} (d d' : document) (o e : node_id) : Prop :=
  let rect := getBoundingClientRect d e in
  style (node_of d' o) !! "display" = Some "block"
  ∧ style (node_of d' o) !! "top" = Some (number_to_string (rect_top rect) +:+ "px")
  ∧ style (node_of d' o) !! "left" = Some (number_to_string (rect_left rect) +:+ "px")
  ∧ style (node_of d' o) !! "width" = Some (number_to_string (rect_width rect) +:+ "px")
  ∧ style (node_of d' o) !! "height" = Some (number_to_string (rect_height rect) +:+ "px")
  ∧ (∀ q, q ∉ ["display"; "top"; "left"; "width"; "height"] →
       style (node_of d' o) !! q = style (node_of d o) !! q)
  ∧ (∀ n, n ≠ o → nodes d' !! n = nodes d !! n)
  ∧ body d' = body d.

(** No code unit of [s] is white space. *)
Fixpoint ws_free (s : string) : bool :=
  match s with
  | EmptyString => true
  | String c r => negb (is_ws c) && ws_free r
  end.

(** A class name as it stands in a class attribute: not empty, and
    without white space. *)
Definition class_token (c : string) : bool := truthy c && ws_free c.

(** *** Selectors along a chain of ancestors *)

(** One segment of the path of [getSelector]: tag, classes, position. *)
Definition segment {B : Browser} (d : document) (c : node_id) : string :=
  toLowerCase (tagName (node_of d c)) +:+ class_suffix (className (node_of d c))
  +:+ nth_suffix d c.

(** An element without an id. *)
Definition plain (d : document) (c : node_id) : bool :=
  is_element d c && negb (truthy (elem_id (node_of d c))).

(** [cs] lists plain elements, innermost first, each the child of the
    next and the last a child of [top]; none but the last has the body
    as its parent. *)
Fixpoint chain_to (d : document) (top : node_id) (cs : list node_id) : bool :=
  match cs with
  | [] => false
  | c :: rest =>
      plain d c
      && match rest with
         | [] => bool_decide (parentNode (node_of d c) = Some top)
         | c' :: _ =>
             bool_decide (parentNode (node_of d c) = Some c')
             && negb (bool_decide (c' = body d))
             && chain_to d top rest
         end
  end.

(** Where the walk of [getSelector] stops: at the body, or at an element
    with an id. *)
Definition anchors (d : document) (top : node_id) : bool :=
  bool_decide (top = body d)
  || (is_element d top && truthy (elem_id (node_of d top))).

Definition anchor {B : Browser} (d : document) (top : node_id) : string :=
  if bool_decide (top = body d) then "body"
  else "#" +:+ CSS_escape (elem_id (node_of d top)).

(** * Properties *)

(** ** The model on the example page *)

Example trim_both_ends : trim "  a b  " = "a b".
Proof. reflexivity. Qed.

Example split_keeps_empty_ends : split_ws " a  b " = [""; "a"; "b"; ""].
Proof. reflexivity. Qed.

Example xpath_of_span : getXPath 4 page (Some 7) = Some "/html/body/p[1]/span[1]".
Proof. reflexivity. Qed.

Example selector_of_span :
  getSelector (B := page_browser) 4 page (Some 7) = Some "body > p.lead.big > span".
Proof. reflexivity. Qed.

Example describe_image :
  (λ i, (info_tagName i, isImageElement i, isTextElement i, imageSrc i,
         info_textContent i))
    <$> mjoin (getElementInfo (B := page_browser) 4 page (Some 8))
  = Some ("img", true, false, Some "/a.png", None).
Proof. reflexivity. Qed.

Example describe_paragraph :
  (λ i, (info_tagName i, isTextElement i, info_textContent i, xpath i, selector i))
    <$> mjoin (getElementInfo (B := page_browser) 4 page (Some 5))
  = Some ("p", true, Some "Hi", "/html/body/p[1]", "body > p.lead.big").
Proof. reflexivity. Qed.

(** What the builder receives over a short session: the ready
    announcement, one hover (the second move comes 5 ms after the first
    and is dropped) and one click. *)
Example session_posts :
  omap (λ o, match o with PostMessage ty _ => Some ty | _ => None end)
    (trace (run_events (B := page_browser) 4
              [CallInitEditMode;
               MessageEvent (Some (Message "EDIT_MODE_ENABLE" None));
               MouseMoveEvent 20 5;
               MouseMoveEvent 25 3;
               ClickEvent 5]
              (initial_engine page)))
  = ["EDIT_MODE_READY"; "ELEMENT_HOVERED"; "ELEMENT_CLICKED"].
Proof. vm_compute. reflexivity. Qed.

(** On an SVG element the class name is no string: the selector has no
    class part. *)
Example selector_of_path :
  getSelector (B := page_browser) 4 svg_page (Some 4) = Some "body > svg > path".
Proof. reflexivity. Qed.

(** A hover and a click on the drawing record the element and then fail
    in [postMessage]: the builder hears of neither. *)
Example svg_session :
  let r := run_events (B := page_browser) 4
             [CallInitEditMode;
              MessageEvent (Some (Message "EDIT_MODE_ENABLE" None));
              MouseMoveEvent 20 3;
              ClickEvent 3]
             (initial_engine svg_page) in
  omap (λ o, match o with
             | PostMessage ty _ => Some ty
             | Uncaught e => Some (error_text e)
             | _ => None
             end) (trace r)
  = ["EDIT_MODE_READY"; "DataCloneError: ELEMENT_HOVERED";
     "DataCloneError: ELEMENT_CLICKED"]
  ∧ lastHoveredElement (final r) = Some 3
  ∧ selectedElement (final r) = Some 3.
Proof. vm_compute. done. Qed.

(** A value the style object does not take leaves the style as it was,
    and the change is logged as applied all the same. *)
Example style_value_ignored :
  let r := applyStyleChange (B := page_browser) "#title" "color" "notacolor"
             (initial_engine page) in
  final r = initial_engine page
  ∧ trace r = [ConsoleLog ["[VlibeEditMode] Applied style:"; "color"; "=";
                           "notacolor"; "to"; "#title"]].
Proof. vm_compute. done. Qed.

(** A read-only name makes the assignment throw into the [catch]. *)
Example style_name_read_only :
  let r := applyStyleChange (B := page_browser) "#title" "length" "5"
             (initial_engine page) in
  final r = initial_engine page
  ∧ trace r = [ConsoleError ["[VlibeEditMode] Failed to apply style:";
                             "TypeError: length"]].
Proof. vm_compute. done. Qed.

(** A source the style object cannot parse inside [url()] leaves the
    background as it was. *)
Example image_source_ignored :
  let r := applyImageChange (B := page_browser) "#title" "my pic.png"
             (initial_engine page) in
  final r = initial_engine page
  ∧ trace r = [ConsoleLog ["[VlibeEditMode] Applied image change to"; "#title"]].
Proof. vm_compute. done. Qed.

(** An apply command with a string for a payload: [in] throws, and
    nothing catches it inside the engine. *)
Example primitive_payload_throws :
  trace (step (B := page_browser) 4
           (MessageEvent (Some (Message "APPLY_STYLE_CHANGE" (Some PayloadPrimitive))))
           listening_engine)
  = [Uncaught (TypeError "in")].
Proof. vm_compute. reflexivity. Qed.

(** ** Strings *)

Lemma truthy_trimStart (s : string) : truthy (trimStart s) = has_ink s.
Proof.
  induction s as [|c r IH]; simpl; [done|].
  destruct (is_ws c); simpl; [exact IH | done].
Qed.

Lemma has_ink_trimStart (s : string) : has_ink (trimStart s) = has_ink s.
Proof.
  induction s as [|c r IH]; simpl; [done|].
  destruct (is_ws c) eqn:E; simpl; [exact IH | by rewrite E].
Qed.

Lemma truthy_trimEnd (s : string) : truthy (trimEnd s) = has_ink s.
Proof.
  induction s as [|c r IH]; simpl; [done|].
  rewrite <- IH.
  destruct (is_ws c), (truthy (trimEnd r)); done.
Qed.

Lemma truthy_trim (s : string) : truthy (trim s) = has_ink s.
Proof. unfold trim. by rewrite truthy_trimEnd, has_ink_trimStart. Qed.

Lemma has_ink_app (a b : string) : has_ink (a +:+ b) = has_ink a || has_ink b.
Proof.
  induction a as [|c r IH]; simpl; [done|].
  rewrite IH. by rewrite orb_assoc.
Qed.

Lemma has_ink_concat (parts : list string) (p : string) :
  p ∈ parts → has_ink p = true → has_ink (concat_strings parts) = true.
Proof.
  intros Hin Hp. induction parts as [|q parts' IH]; [by apply elem_of_nil in Hin|].
  simpl. rewrite has_ink_app.
  apply elem_of_cons in Hin as [->|Hin].
  - by rewrite Hp.
  - rewrite (IH Hin). apply orb_true_r.
Qed.

Lemma truthy_slice0 (n : nat) (s : string) :
  truthy (slice0 (S n) s) = truthy s.
Proof. by destruct s. Qed.

Lemma length_slice0 (n : nat) (s : string) : (String.length (slice0 n s) ≤ n)%nat.
Proof.
  revert s. induction n as [|n IH]; intros [|c r]; simpl; try lia.
  specialize (IH r). lia.
Qed.

Lemma append_empty_r (s : string) : s +:+ "" = s.
Proof. induction s as [|c r IH]; [done | by rewrite <- IH at 2]. Qed.

(** ** The heap *)

Lemma node_of_update (f : node → node) (n m : node_id) (d : document) :
  node_of (update_node f n d) m = if decide (n = m) then f (node_of d n) else node_of d m.
Proof.
  unfold update_node, set_node, node_of. simpl.
  destruct (decide (n = m)) as [->|Hne].
  - by rewrite lookup_insert_eq.
  - by rewrite lookup_insert_ne.
Qed.

Lemma node_of_update_eq (f : node → node) (n : node_id) (d : document) :
  node_of (update_node f n d) n = f (node_of d n).
Proof. rewrite node_of_update. by destruct (decide (n = n)). Qed.

Lemma node_of_update_ne (f : node → node) (n m : node_id) (d : document) :
  n ≠ m → node_of (update_node f n d) m = node_of d m.
Proof. intros. rewrite node_of_update. by destruct (decide (n = m)). Qed.

Lemma nodes_update_ne (f : node → node) (n m : node_id) (d : document) :
  n ≠ m → nodes (update_node f n d) !! m = nodes d !! m.
Proof. intros. unfold update_node, set_node. simpl. by rewrite lookup_insert_ne. Qed.

Lemma fresh_node_not_in (d : document) : nodes d !! fresh_node d = None.
Proof.
  apply not_elem_of_dom. unfold fresh_node. apply is_fresh.
Qed.

Lemma node_eta (nd : node) (v : gmap string string) :
  style nd = v → with_style v nd = nd.
Proof. intros <-. by destruct nd. Qed.

Lemma set_doc_same (s : engine) : set_doc (doc s) s = s.
Proof. by destruct s. Qed.

(** ** Identity resolver *)

Section IdentityFacts.
Context {B : Browser}.

(** C1. A null input gives the empty string for both the selector and
    the XPath, in every document.  An element with a non-empty id gets the
    selector [#] followed by the escaped id, and the XPath made of
    [//*[@id=], a double quote (code unit 34), the id, a double quote and
    a closing bracket; the answer is there with no fuel at all, so no
    parent is visited, and it is the same in any document that holds the
    same node under that reference. *)
Theorem id_short_circuit (fuel : nat) (d : document) :
  (getSelector fuel d None = Some "" ∧ getXPath fuel d None = Some "")
  ∧ ∀ e, truthy (elem_id (node_of d e)) = true →
      getSelector fuel d (Some e) = Some ("#" +:+ CSS_escape (elem_id (node_of d e)))
      ∧ getXPath fuel d (Some e)
        = Some ("//*[@id=" +:+ String "034"%char
                  (elem_id (node_of d e) +:+ String "034"%char "]"))
      ∧ getSelector 0 d (Some e) = getSelector fuel d (Some e)
      ∧ getXPath 0 d (Some e) = getXPath fuel d (Some e)
      ∧ (∀ d', node_of d' e = node_of d e →
           getSelector fuel d' (Some e) = getSelector fuel d (Some e)
           ∧ getXPath fuel d' (Some e) = getXPath fuel d (Some e)).
Proof.
  split; [split; [done | by destruct fuel]|].
  intros e Hid.
  assert (Hsel : ∀ f d', node_of d' e = node_of d e →
    getSelector f d' (Some e) = Some ("#" +:+ CSS_escape (elem_id (node_of d e)))).
  { intros f d' Hd'. unfold getSelector. by rewrite Hd', Hid. }
  assert (Hxp : ∀ f d', node_of d' e = node_of d e →
    getXPath f d' (Some e)
    = Some ("//*[@id=" +:+ String "034"%char
              (elem_id (node_of d e) +:+ String "034"%char "]"))).
  { intros f d' Hd'. destruct f; simpl; by rewrite Hd', Hid. }
  repeat split.
  - by apply Hsel.
  - by apply Hxp.
  - by rewrite !Hsel.
  - by rewrite !Hxp.
  - rewrite !Hsel; done.
  - rewrite !Hxp; done.
Qed.

(** With the chain of parents within the fuel, both walks end. *)
Lemma getXPath_total (fuel : nat) (d : document) (e : node_id) :
  ancestors_fit fuel d e = true → is_Some (getXPath fuel d (Some e)).
Proof.
  revert e. induction fuel as [|fuel IH]; intros e Hfit; [done|].
  simpl in Hfit. simpl.
  destruct (truthy (elem_id (node_of d e))); [by eexists|].
  destruct (bool_decide (e = body d)); [by eexists|].
  destruct (parentNode (node_of d e)) as [p|]; [|by eexists].
  destruct (xpath_index d e (childNodes (node_of d p)) 0); [|by eexists].
  assert (Hp : is_Some (getXPath fuel d (Some p))).
  { destruct fuel as [|fuel']; [done|]. by apply IH. }
  destruct Hp as [pp Hpp]. rewrite Hpp. by eexists.
Qed.

Lemma selector_walk_total (fuel : nat) (d : document) (c : node_id) (path : list string) :
  ancestors_fit fuel d c = true → is_Some (selector_walk fuel d (Some c) path).
Proof.
  revert c path. induction fuel as [|fuel IH]; intros c path Hfit; [done|].
  simpl in Hfit. simpl.
  destruct (negb (is_element d c)); [by eexists|].
  destruct (truthy (elem_id (node_of d c))); [by eexists|].
  destruct (bool_decide (parentNode (node_of d c) = Some (body d))); [by eexists|].
  destruct (parentNode (node_of d c)) as [p|].
  - by apply IH.
  - destruct fuel; by eexists.
Qed.

Lemma getSelector_total (fuel : nat) (d : document) (e : node_id) :
  ancestors_fit fuel d e = true → is_Some (getSelector fuel d (Some e)).
Proof.
  intros Hfit. unfold getSelector.
  destruct (truthy (elem_id (node_of d e))); [by eexists|].
  destruct (selector_walk_total fuel d e [] Hfit) as [path Hpath].
  rewrite Hpath. by eexists.
Qed.

End IdentityFacts.

Lemma id_short_circuit_witness :
  getSelector (B := page_browser) 3 page (Some 3) = Some "#title"
  ∧ getXPath 3 page (Some 3)
    = Some ("//*[@id=" +:+ String "034"%char ("title" +:+ String "034"%char "]")).
Proof.
  assert (Hid : truthy (elem_id (node_of page 3)) = true) by (vm_compute; reflexivity).
  destruct (proj2 (id_short_circuit (B := page_browser) 3 page) 3 Hid)
    as (H1 & H2 & _).
  split; [exact H1 | exact H2].
Defined.

(** ** Inspector *)

Lemma descendant_text_of_text (fuel : nat) (d : document) (n : node_id) :
  is_text d n = true → descendant_text fuel d n = Some (data (node_of d n)).
Proof.
  unfold is_text. intros Ht%bool_decide_eq_true.
  destruct fuel; simpl; by rewrite Ht.
Qed.

Lemma descendant_text_total (fuel : nat) (d : document) (n : node_id) :
  subtree_fits fuel d n = true → is_Some (descendant_text fuel d n).
Proof.
  revert n. induction fuel as [|fuel IH]; intros n Hfit; [done|].
  simpl in Hfit. simpl.
  destruct (nodeType (node_of d n)); try by eexists.
  assert (Hall : is_Some (mapM (descendant_text fuel d) (childNodes (node_of d n)))).
  { apply mapM_is_Some. apply Forall_forall. intros c Hc.
    apply IH. rewrite forallb_forall in Hfit. apply Hfit.
    by apply list_elem_of_In. }
  destruct Hall as [parts Hparts]. rewrite Hparts. by eexists.
Qed.

(** The text of an element holds the text of each of its text children. *)
Lemma descendant_text_inked (fuel : nat) (d : document) (e : node_id) (t : string) :
  is_element d e = true →
  existsb (inked_text_node d) (childNodes (node_of d e)) = true →
  descendant_text fuel d e = Some t →
  has_ink t = true.
Proof.
  unfold is_element. intros He%bool_decide_eq_true Hex Ht.
  destruct fuel as [|fuel]; simpl in Ht; rewrite He in Ht; [done|].
  destruct (mapM (descendant_text fuel d) (childNodes (node_of d e)))
    as [parts|] eqn:Hparts; [|done].
  simpl in Ht. injection Ht as <-.
  apply existsb_exists in Hex as (c & Hc & Hink).
  unfold inked_text_node in Hink. apply andb_true_iff in Hink as [Hct Hcink].
  rewrite truthy_trim in Hcink.
  apply mapM_Some in Hparts.
  apply list_elem_of_In, list_elem_of_lookup in Hc as [i Hi].
  destruct (Forall2_lookup_l _ _ _ _ _ Hparts Hi) as (p & Hp & Hcp).
  rewrite (descendant_text_of_text _ _ _ Hct) in Hcp. injection Hcp as <-.
  eapply has_ink_concat; [|exact Hcink].
  apply list_elem_of_lookup. by exists i.
Qed.

Section InspectorFacts.
Context {B : Browser}.

Lemma is_text_element_spec (d : document) (e : node_id) :
  is_text_element d e = true ↔
  toLowerCase (tagName (node_of d e)) ∈ textTags
  ∧ ∃ c, c ∈ childNodes (node_of d e)
         ∧ nodeType (node_of d c) = TEXT_NODE
         ∧ has_ink (data (node_of d c)) = true.
Proof.
  unfold is_text_element, includes.
  rewrite !andb_true_iff, bool_decide_eq_true, existsb_exists.
  split.
  - intros [[Htag _] (c & Hc & Hink)]. split; [done|].
    exists c. unfold inked_text_node, is_text in Hink.
    apply andb_true_iff in Hink as [Ht%bool_decide_eq_true Hi].
    rewrite truthy_trim in Hi. by rewrite list_elem_of_In.
  - intros [Htag (c & Hc & Ht & Hi)]. repeat split; [done| |].
    + destruct (childNodes (node_of d e)); [by apply elem_of_nil in Hc | done].
    + exists c. rewrite <- list_elem_of_In. split; [done|].
      unfold inked_text_node, is_text.
      by rewrite truthy_trim, Hi, bool_decide_eq_true_2.
Qed.

(** A descriptor can be cloned exactly when the class name it was read
    from is a string. *)
Lemma cloneable_className (fuel : nat) (d : document) (e : node_id)
    (i : ElementInfo) :
  getElementInfo fuel d (Some e) = Some (Some i) →
  cloneable i = match className (node_of d e) with
                | ClassString _ => true
                | ClassAnimated _ => false
                end.
Proof.
  unfold getElementInfo. cbv zeta.
  destruct (descriptor_text fuel d e) as [text|]; [|done].
  destruct (getXPath fuel d (Some e)) as [xp|]; [|done].
  destruct (getSelector fuel d (Some e)) as [sel|]; [|done].
  cbn [mbind option_bind]. intros [= <-]. unfold cloneable.
  cbn [info_className]. destruct (className (node_of d e)) as [c|b]; [|done].
  cbn [className_or_empty]. by destruct (truthy c).
Qed.

(** C6. A null node is described by null, in every document.  For an
    element whose surroundings fit the fuel, [getElementInfo] returns a
    descriptor.  Its [isTextElement] field is true exactly when the
    lower-cased tag is one of [p], [h1] to [h6], [span], [a], [button],
    [label], [li], [td], [th] and [div], and some direct child is a text
    node holding a code unit that is not white space.  Its [textContent]
    field is non-null exactly when [isTextElement] is true, and is then
    the element's text content trimmed and cut to its first 200 code
    units. *)
Theorem descriptor_text_content (fuel : nat) (d : document) :
  getElementInfo fuel d None = Some None
  ∧ ∀ e,
      is_element d e = true →
      ancestors_fit fuel d e = true →
      subtree_fits fuel d e = true →
      ∃ info, getElementInfo fuel d (Some e) = Some (Some info)
        ∧ (isTextElement info = true ↔
           toLowerCase (tagName (node_of d e))
             ∈ ["p"; "h1"; "h2"; "h3"; "h4"; "h5"; "h6"; "span"; "a"; "button";
                "label"; "li"; "td"; "th"; "div"]
           ∧ ∃ c, c ∈ childNodes (node_of d e)
                  ∧ nodeType (node_of d c) = TEXT_NODE
                  ∧ has_ink (data (node_of d c)) = true)
        ∧ (info_textContent info ≠ None ↔ isTextElement info = true)
        ∧ (∀ t, info_textContent info = Some t →
             ∃ full, textContent fuel d e = Some (Some full)
                     ∧ t = slice0 200 (trim full)
                     ∧ (String.length t ≤ 200)%nat).
Proof.
  split; [done|]. intros e He Hup Hdown.
  change ["p"; "h1"; "h2"; "h3"; "h4"; "h5"; "h6"; "span"; "a"; "button";
          "label"; "li"; "td"; "th"; "div"] with textTags.
  destruct (getXPath_total fuel d e Hup) as [xp Hxp].
  destruct (getSelector_total fuel d e Hup) as [sel Hsel].
  destruct (descendant_text_total fuel d e Hdown) as [full Hfull].
  assert (Htc : textContent fuel d e = Some (Some full)).
  { unfold textContent. unfold is_element in He.
    apply bool_decide_eq_true in He. by rewrite He, Hfull. }
  assert (Hdt : descriptor_text fuel d e
                = Some (if is_text_element d e
                        then if truthy (slice0 200 (trim full))
                             then Some (slice0 200 (trim full)) else None
                        else None)).
  { unfold descriptor_text. rewrite Htc. by destruct (is_text_element d e). }
  unfold getElementInfo. rewrite Hdt, Hxp, Hsel.
  destruct (is_text_element d e) eqn:Hte.
  - assert (Hink : truthy (slice0 200 (trim full)) = true).
    { rewrite truthy_slice0, truthy_trim.
      apply (descendant_text_inked fuel d e full He); [|done].
      unfold is_text_element in Hte. by apply andb_true_iff in Hte as [_ ?]. }
    rewrite Hink. eexists. split; [reflexivity|]. cbn [isTextElement info_textContent].
    rewrite <- is_text_element_spec, Hte.
    repeat split; try done.
    intros t Ht. exists full. split; [exact Htc|].
    assert (t = slice0 200 (trim full)) as -> by congruence.
    split; [reflexivity | apply length_slice0].
  - eexists. split; [reflexivity|]. cbn [isTextElement info_textContent].
    rewrite <- is_text_element_spec, Hte.
    repeat split; try done.
Qed.

End InspectorFacts.

Lemma descriptor_text_content_witness :
  ∃ info, getElementInfo (B := page_browser) 4 page (Some 5) = Some (Some info)
          ∧ (info_textContent info ≠ None ↔ isTextElement info = true).
Proof.
  assert (He : is_element page 5 = true) by (vm_compute; reflexivity).
  assert (Hup : ancestors_fit 4 page 5 = true) by (vm_compute; reflexivity).
  assert (Hdown : subtree_fits 4 page 5 = true) by (vm_compute; reflexivity).
  destruct (proj2 (descriptor_text_content (B := page_browser) 4 page) 5 He Hup Hdown)
    as (info & H1 & _ & H2 & _).
  exists info. split; [exact H1 | exact H2].
Defined.

(** ** Rules of the unary logic *)

Section Logic.
Context {A C : Type} (I : engine → Prop) (T : output → Prop).

Lemma keeps_at_of (m : M A) (s : engine) : keeps I T m → I s → keeps_at I T m s.
Proof. intros H Hs. by apply H. Qed.

Lemma keeps_ret (a : A) : keeps I T (ret a).
Proof. intros s Hs. split; [done | constructor]. Qed.

Lemma keeps_throw (e : js_error) : keeps I T (throw (A := A) e).
Proof. intros s Hs. split; [done | constructor]. Qed.

Lemma keeps_walk (o : option A) : keeps I T (walk o).
Proof. intros s Hs. destruct o; (split; [done | constructor]). Qed.

Lemma keeps_bind (m : M A) (k : A → M C) :
  keeps I T m → (∀ a, keeps I T (k a)) → keeps I T (bind m k).
Proof.
  intros Hm Hk s Hs. destruct (Hm s Hs) as [H1 H2].
  unfold keeps_at, bind. destruct (m s) as [[a|e|] s1 t1]; simpl in *; try done.
  destruct (Hk a s1 H1) as [H3 H4]. split; [done|].
  by apply Forall_app.
Qed.

Lemma keeps_get_bind (k : engine → M C) :
  (∀ s, I s → keeps_at I T (k s) s) → keeps I T (bind get k).
Proof.
  intros Hk s Hs. destruct (Hk s Hs) as [H1 H2].
  unfold keeps_at, bind, get. simpl. done.
Qed.

End Logic.

Section LogicUnit.
Context (I : engine → Prop) (T : output → Prop).

Lemma keeps_modify (f : engine → engine) :
  (∀ s, I s → I (f s)) → keeps I T (modify f).
Proof. intros Hf s Hs. split; [by apply Hf | constructor]. Qed.

Lemma keeps_emit (o : output) : T o → keeps I T (emit o).
Proof. intros Ho s Hs. split; [done | by repeat constructor]. Qed.

Lemma keeps_try_catch (body : M unit) (handler : js_error → M unit) :
  keeps I T body → (∀ e, keeps I T (handler e)) → keeps I T (try_catch body handler).
Proof.
  intros Hb Hh s Hs. destruct (Hb s Hs) as [H1 H2].
  unfold keeps_at, try_catch. destruct (body s) as [[a|e|] s1 t1]; simpl in *; try done.
  destruct (Hh e s1 H1) as [H3 H4]. split; [done|].
  by apply Forall_app.
Qed.

End LogicUnit.

Section Termination.
Context {A C : Type}.

Lemma normal_ret (a : A) : normal (ret a).
Proof. intros s. by exists a. Qed.

Lemma normal_bind (m : M A) (k : A → M C) :
  normal m → (∀ a, normal (k a)) → normal (bind m k).
Proof.
  intros Hm Hk s. destruct (Hm s) as [a Ha].
  unfold bind. destruct (m s) as [o s1 t1]. simpl in Ha. subst o.
  destruct (Hk a s1) as [c Hc]. exists c. done.
Qed.

Lemma fuelled_of_normal (m : M A) : normal m → fuelled m.
Proof. intros Hm s. destruct (Hm s) as [a Ha]. by rewrite Ha. Qed.

Lemma fuelled_throw (e : js_error) : fuelled (throw (A := A) e).
Proof. intros s. done. Qed.

Lemma fuelled_bind (m : M A) (k : A → M C) :
  fuelled m → (∀ a, fuelled (k a)) → fuelled (bind m k).
Proof.
  intros Hm Hk s. specialize (Hm s).
  unfold bind. destruct (m s) as [[a|e|] s1 t1]; simpl in *; try done.
  apply Hk.
Qed.

End Termination.

Lemma normal_modify (f : engine → engine) : normal (modify f).
Proof. intros s. by exists tt. Qed.

Lemma normal_emit (o : output) : normal (emit o).
Proof. intros s. by exists tt. Qed.

Lemma normal_get : normal get.
Proof. intros s. by exists s. Qed.

Lemma normal_try_catch (body : M unit) (handler : js_error → M unit) :
  fuelled body → (∀ e, normal (handler e)) → normal (try_catch body handler).
Proof.
  intros Hb Hh s. specialize (Hb s).
  unfold try_catch. destruct (body s) as [[[]|e|] s1 t1]; simpl in *; try done.
  - by exists tt.
  - destruct (Hh e s1) as [[] Hc]. by exists tt.
Qed.

Lemma normal_guarded (m : M unit) : fuelled m → normal (guarded m).
Proof. intros Hm. apply normal_try_catch; [done|]. intros e. apply normal_emit. Qed.

Lemma ends_bind {A C} (Q : engine → Prop) (m : M A) (k : A → M C) :
  normal m → (∀ a, ends Q (k a)) → ends Q (bind m k).
Proof.
  intros Hm Hk s. destruct (Hm s) as [a Ha].
  unfold bind. destruct (m s) as [o s1 t1]. simpl in Ha. subst o.
  apply Hk.
Qed.

Lemma ends_modify (Q : engine → Prop) (f : engine → engine) :
  (∀ s, Q (f s)) → ends Q (modify f).
Proof. intros Hf s. apply Hf. Qed.

Lemma ends_then_ret {A C} (Q : engine → Prop) (m : M A) (c : C) :
  ends Q m → ends Q (bind m (λ _, ret c)).
Proof.
  intros Hm s. specialize (Hm s). unfold bind.
  by destruct (m s) as [[a|e|] s1 t1].
Qed.

Lemma final_bind_get {C} (k : engine → M C) (s : engine) :
  final (bind get k s) = final (k s s).
Proof. done. Qed.

(** The monad laws at a state, for running straight-line code. *)
Lemma bind_get_run {C} (k : engine → M C) (s : engine) : bind get k s = k s s.
Proof. unfold bind, get. by destruct (k s s). Qed.

Lemma bind_modify_run {C} (f : engine → engine) (k : unit → M C) (s : engine) :
  bind (modify f) k s = k tt (f s).
Proof. unfold bind, modify. by destruct (k tt (f s)). Qed.

Lemma bind_ret_run {A C} (a : A) (k : A → M C) (s : engine) :
  bind (ret a) k s = k a s.
Proof. unfold bind, ret. by destruct (k a s). Qed.

Lemma bind_assoc_run {A C D} (m : M A) (k : A → M C) (h : C → M D) (s : engine) :
  bind (bind m k) h s = bind m (λ a, bind (k a) h) s.
Proof.
  unfold bind. destruct (m s) as [[a|e|] s1 t1]; try done.
  destruct (k a s1) as [[c|e|] s2 t2]; simpl; try done.
  destruct (h c s2) as [o s3 t3]. simpl. by rewrite app_assoc.
Qed.

Lemma bind_silent_run {A C} (m : M A) (k : A → M C) (s s1 : engine) (a : A) :
  m s = Run (Normal a) s1 [] → bind m k s = k a s1.
Proof. intros Hm. unfold bind. rewrite Hm. by destruct (k a s1). Qed.

Lemma bind_throw_run {A C} (m : M A) (k : A → M C) (s s1 : engine)
    (e : js_error) (t1 : list output) :
  m s = Run (Throw e) s1 t1 → bind m k s = Run (Throw e) s1 t1.
Proof. intros Hm. unfold bind. by rewrite Hm. Qed.

Ltac run_monad :=
  repeat first [ rewrite bind_get_run | rewrite bind_modify_run
               | rewrite bind_ret_run | rewrite bind_assoc_run ];
  cbv beta.

(** Reads of fields through the setters, and nothing else. *)
Ltac engine_simpl :=
  cbn [doc isEditModeActive highlightOverlay selectionOverlay selectedElement lastHoveredElement lastFrameTime
       readyInterval readyAcknowledged cleanupFn initialized windowListeners documentListeners timers next_timer
       set_doc set_isEditModeActive set_highlightOverlay set_selectionOverlay set_selectedElement set_lastHoveredElement set_lastFrameTime
       set_readyInterval set_readyAcknowledged set_cleanupFn set_initialized set_windowListeners
       set_documentListeners set_timers set_next_timer
       outcome final trace].

Ltac unfold_monad :=
  cbv beta delta [mbind M_bind mret M_ret modify_doc when postMessage] in *.

(** One step of a proof of [keeps] or [normal]: peel the head of the
    program, or split on what it branches on. *)
Ltac keeps_step :=
  lazymatch goal with
  | |- keeps _ _ (ret _) => apply keeps_ret
  | |- keeps _ _ (throw _) => apply keeps_throw
  | |- keeps _ _ (walk _) => apply keeps_walk
  | |- keeps _ _ (bind get _) => apply keeps_get_bind; intros ? ?
  | |- keeps _ _ (bind _ _) => apply keeps_bind; [|intros ?]
  | |- keeps _ _ (try_catch _ _) => apply keeps_try_catch; [|intros ?]
  | |- keeps _ _ (modify _) => apply keeps_modify
  | |- keeps _ _ (emit _) => apply keeps_emit
  | |- keeps _ _ (match ?x with _ => _ end) => destruct x eqn:?
  | |- keeps_at _ _ (match ?x with _ => _ end) _ => destruct x eqn:?
  | |- keeps_at _ _ _ _ => apply keeps_at_of; [|assumption]
  end.

Ltac normal_step :=
  lazymatch goal with
  | |- normal (ret _) => apply normal_ret
  | |- normal get => apply normal_get
  | |- normal (bind _ _) => apply normal_bind; [|intros ?]
  | |- normal (try_catch _ _) => apply normal_try_catch; [|intros ?]
  | |- normal (modify _) => apply normal_modify
  | |- normal (emit _) => apply normal_emit
  | |- normal (match ?x with _ => _ end) => destruct x eqn:?
  | |- fuelled (throw _) => apply fuelled_throw
  | |- fuelled (bind _ _) => apply fuelled_bind; [|intros ?]
  | |- fuelled (match ?x with _ => _ end) => destruct x eqn:?
  | |- fuelled _ => apply fuelled_of_normal
  end.

(** ** Which code touches the handshake state *)

Create HintDb keeps_db.

Section Frame.
Context {B : Browser} (fuel : nat).
Context (I : engine → Prop) (T : output → Prop).

(** [I] looks at the core only, and stays true when the acknowledged
    flag is raised, the initialised flag is lowered, the interval
    reference is cleared, a timer is cancelled or a move is stamped; [T]
    lets through
    everything but a ready announcement, and that too where [I] holds
    without acknowledgment. *)
Hypothesis frame : ∀ s s', core s' = core s → I s → I s'.
Hypothesis ack_ok : ∀ s, I s → I (set_readyAcknowledged true s).
Hypothesis reset_ok : ∀ s, I s → I (set_initialized false s).
Hypothesis clear_ok : ∀ s, I s → I (set_readyInterval None s).
Hypothesis cancel_ok : ∀ t s, I s → I (set_timers (delete t (timers s)) s).
Hypothesis stamp_ok : ∀ now s, I s → I (set_lastFrameTime now s).
Hypothesis T_log : ∀ a, T (ConsoleLog a).
Hypothesis T_error : ∀ a, T (ConsoleError a).
Hypothesis T_prevent : T PreventDefault.
Hypothesis T_stop : T StopPropagation.
Hypothesis T_uncaught : ∀ e, T (Uncaught e).
Hypothesis T_post : ∀ ty p, ty ≠ "EDIT_MODE_READY" → T (PostMessage ty p).
Hypothesis ready_ok :
  ∀ s, I s → readyAcknowledged s = false → T (PostMessage "EDIT_MODE_READY" None).
Hypothesis init_ok : keeps I T initEditMode.

Ltac side :=
  try solve
    [ apply T_log | apply T_error | apply T_prevent | apply T_stop
    | apply T_uncaught | apply T_post; discriminate
    | let s := fresh "s" in let Hs := fresh "Hs" in
      intros s Hs;
      first [ eapply frame; [|exact Hs]; reflexivity
            | apply ack_ok; exact Hs
            | apply reset_ok; exact Hs
            | apply clear_ok; exact Hs
            | apply cancel_ok; exact Hs
            | apply stamp_ok; exact Hs ] ].

Ltac frame_tac :=
  unfold_monad;
  repeat first [ solve [eauto with keeps_db] | keeps_step ];
  side.

Lemma keeps_createHighlightOverlay : keeps I T createHighlightOverlay.
Proof. unfold createHighlightOverlay. frame_tac. Qed.
Hint Resolve keeps_createHighlightOverlay : keeps_db.

Lemma keeps_createSelectionOverlay : keeps I T createSelectionOverlay.
Proof. unfold createSelectionOverlay. frame_tac. Qed.
Hint Resolve keeps_createSelectionOverlay : keeps_db.

Lemma keeps_place_overlay (o e : node_id) : keeps I T (place_overlay o e).
Proof. unfold place_overlay. frame_tac. Qed.
Hint Resolve keeps_place_overlay : keeps_db.

Lemma keeps_updateSelectionOverlay (el : option node_id) :
  keeps I T (updateSelectionOverlay el).
Proof. unfold updateSelectionOverlay. frame_tac. Qed.
Hint Resolve keeps_updateSelectionOverlay : keeps_db.

Lemma keeps_clearSelection : keeps I T clearSelection.
Proof. unfold clearSelection. frame_tac. Qed.
Hint Resolve keeps_clearSelection : keeps_db.

Lemma keeps_updateHighlight (el : option node_id) : keeps I T (updateHighlight el).
Proof. unfold updateHighlight. frame_tac. Qed.
Hint Resolve keeps_updateHighlight : keeps_db.

Lemma keeps_track_hover (target : node_id) : keeps I T (track_hover fuel target).
Proof. unfold track_hover. frame_tac. Qed.
Hint Resolve keeps_track_hover : keeps_db.

Lemma keeps_handleMouseMove (now : Q) (target : node_id) :
  keeps I T (handleMouseMove fuel now target).
Proof. unfold handleMouseMove. frame_tac. Qed.

Lemma keeps_handleClick (target : node_id) : keeps I T (handleClick fuel target).
Proof. unfold handleClick. frame_tac. Qed.

Lemma keeps_handleMouseLeave : keeps I T handleMouseLeave.
Proof. unfold handleMouseLeave. frame_tac. Qed.

Lemma keeps_query (sel : string) : keeps I T (query sel).
Proof. unfold query. frame_tac. Qed.
Hint Resolve keeps_query : keeps_db.

Lemma keeps_assign_style (e : node_id) (name value : string) :
  keeps I T (assign_style e name value).
Proof. unfold assign_style. frame_tac. Qed.
Hint Resolve keeps_assign_style : keeps_db.

Lemma keeps_applyStyleChange (sel property value : string) :
  keeps I T (applyStyleChange sel property value).
Proof. unfold applyStyleChange. frame_tac. Qed.

Lemma keeps_applyTextChange (sel newText : string) :
  keeps I T (applyTextChange sel newText).
Proof. unfold applyTextChange. frame_tac. Qed.

Lemma keeps_applyImageChange (sel newSrc : string) :
  keeps I T (applyImageChange sel newSrc).
Proof. unfold applyImageChange. frame_tac. Qed.

Lemma keeps_enableEditMode : keeps I T enableEditMode.
Proof. unfold enableEditMode. frame_tac. Qed.

Lemma keeps_disableEditMode : keeps I T disableEditMode.
Proof. unfold disableEditMode. frame_tac. Qed.

Lemma keeps_stop_ready_interval : keeps I T stop_ready_interval.
Proof. unfold stop_ready_interval. frame_tac. Qed.
Hint Resolve keeps_stop_ready_interval keeps_enableEditMode keeps_disableEditMode
  keeps_applyStyleChange keeps_applyTextChange keeps_applyImageChange : keeps_db.

Lemma keeps_handleMessage (data : option EditModeMessage) :
  keeps I T (handleMessage data).
Proof. unfold handleMessage. frame_tac. Qed.

Lemma keeps_handleAckMessage (data : option EditModeMessage) :
  keeps I T (handleAckMessage data).
Proof. unfold handleAckMessage. frame_tac. Qed.

Lemma keeps_sendReady : keeps I T sendReady.
Proof.
  unfold sendReady. unfold_monad.
  apply keeps_get_bind. intros s Hs.
  destruct (readyAcknowledged s) eqn:Hack; simpl.
  - apply keeps_at_of; [apply keeps_ret | done].
  - apply keeps_at_of; [|done].
    apply keeps_bind; [|intros ?]; apply keeps_emit; [apply T_log|].
    by apply (ready_ok s).
Qed.

Lemma keeps_cleanup : keeps I T cleanup.
Proof. unfold cleanup. frame_tac. Qed.

Lemma keeps_call_teardown (h : teardown) : keeps I T (call_teardown h).
Proof. destruct h; simpl; [apply keeps_ret | apply keeps_cleanup]. Qed.

Lemma keeps_call_listener (ev : event) (l : listener) :
  keeps I T (call_listener fuel ev l).
Proof.
  destruct l, ev; simpl;
    auto using keeps_ret, keeps_handleMessage, keeps_handleAckMessage,
      keeps_handleMouseMove, keeps_handleClick, keeps_handleMouseLeave.
Qed.
Hint Resolve keeps_call_listener keeps_sendReady keeps_call_teardown : keeps_db.

Lemma keeps_dispatch (ev : event) (regs : list registration) :
  keeps I T (dispatch fuel ev regs).
Proof.
  induction regs as [|r rest IH]; simpl; [apply keeps_ret|].
  unfold guarded. frame_tac.
Qed.
Hint Resolve keeps_dispatch : keeps_db.

Lemma keeps_fire_timer (t : timer_id) : keeps I T (fire_timer t).
Proof. unfold fire_timer. frame_tac. Qed.

Lemma keeps_step_event (ev : event) : keeps I T (step fuel ev).
Proof.
  destruct ev; simpl; try apply keeps_fire_timer; try apply keeps_call_teardown;
    unfold_monad; repeat first [ solve [eauto with keeps_db] | keeps_step ].
Qed.

Lemma keeps_run_events (evs : list event) : keeps I T (run_events fuel evs).
Proof.
  induction evs as [|ev rest IH]; simpl; [apply keeps_ret|].
  apply keeps_bind; [apply keeps_step_event | intros _; exact IH].
Qed.

End Frame.

(** ** Message handling always returns *)

Create HintDb normal_db.

Section Returns.
Context {B : Browser}.

Ltac normal_tac :=
  unfold_monad;
  repeat first [ solve [eauto with normal_db] | normal_step ].

Lemma normal_createHighlightOverlay : normal createHighlightOverlay.
Proof. unfold createHighlightOverlay. normal_tac. Qed.

Lemma normal_createSelectionOverlay : normal createSelectionOverlay.
Proof. unfold createSelectionOverlay. normal_tac. Qed.
Hint Resolve normal_createHighlightOverlay normal_createSelectionOverlay : normal_db.

Lemma normal_place_overlay (o e : node_id) : normal (place_overlay o e).
Proof. unfold place_overlay. normal_tac. Qed.
Hint Resolve normal_place_overlay : normal_db.

Lemma normal_updateSelectionOverlay (el : option node_id) :
  normal (updateSelectionOverlay el).
Proof. unfold updateSelectionOverlay. normal_tac. Qed.
Hint Resolve normal_updateSelectionOverlay : normal_db.

Lemma normal_clearSelection : normal clearSelection.
Proof. unfold clearSelection. normal_tac. Qed.
Hint Resolve normal_clearSelection : normal_db.

Lemma fuelled_query (sel : string) : fuelled (query sel).
Proof. unfold query. normal_tac. Qed.
Hint Resolve fuelled_query : normal_db.

Lemma fuelled_assign_style (e : node_id) (name value : string) :
  fuelled (assign_style e name value).
Proof. unfold assign_style. normal_tac. Qed.
Hint Resolve fuelled_assign_style : normal_db.

Lemma normal_applyStyleChange (sel property value : string) :
  normal (applyStyleChange sel property value).
Proof. unfold applyStyleChange. normal_tac. Qed.

Lemma normal_applyTextChange (sel newText : string) :
  normal (applyTextChange sel newText).
Proof. unfold applyTextChange. normal_tac. Qed.

Lemma normal_applyImageChange (sel newSrc : string) :
  normal (applyImageChange sel newSrc).
Proof. unfold applyImageChange. normal_tac. Qed.

Lemma normal_enableEditMode : normal enableEditMode.
Proof. unfold enableEditMode. normal_tac. Qed.

Lemma normal_disableEditMode : normal disableEditMode.
Proof. unfold disableEditMode. normal_tac. Qed.

Lemma normal_stop_ready_interval : normal stop_ready_interval.
Proof. unfold stop_ready_interval. normal_tac. Qed.
Hint Resolve normal_applyStyleChange normal_applyTextChange normal_applyImageChange
  normal_enableEditMode normal_disableEditMode normal_stop_ready_interval : normal_db.

(** [handleMessage] is not wrapped in [try]: it returns or throws. *)
Lemma fuelled_handleMessage (data : option EditModeMessage) :
  fuelled (handleMessage data).
Proof. unfold handleMessage. normal_tac. Qed.

Lemma normal_handleMessage_object (ty : string) (pl : option payload_value) :
  pl ≠ Some PayloadPrimitive → normal (handleMessage (Some (Message ty pl))).
Proof.
  intros Hpl. unfold handleMessage. cbn [msg_type msg_payload].
  destruct pl as [[p|]|]; [|done|]; normal_tac.
Qed.

Lemma normal_handleMessage_other (ty : string) (pl : option payload_value) :
  ty ∉ ["APPLY_STYLE_CHANGE"; "APPLY_TEXT_CHANGE"; "APPLY_IMAGE_CHANGE"] →
  normal (handleMessage (Some (Message ty pl))).
Proof.
  intros Hty. unfold handleMessage. cbn [msg_type msg_payload].
  rewrite !(bool_decide_eq_false_2 (ty = "APPLY_STYLE_CHANGE")),
          !(bool_decide_eq_false_2 (ty = "APPLY_TEXT_CHANGE")),
          !(bool_decide_eq_false_2 (ty = "APPLY_IMAGE_CHANGE"))
    by (intros ->; apply Hty; rewrite !elem_of_cons; tauto).
  normal_tac.
Qed.

Lemma normal_handleAckMessage (data : option EditModeMessage) :
  normal (handleAckMessage data).
Proof. unfold handleAckMessage. normal_tac. Qed.

Lemma normal_sendReady : normal sendReady.
Proof. unfold sendReady. normal_tac. Qed.

Lemma normal_cleanup : normal cleanup.
Proof. unfold cleanup. normal_tac. Qed.

Lemma normal_message_listener (fuel : nat) (data : option EditModeMessage)
    (l : listener) :
  normal (guarded (call_listener fuel (MessageEvent data) l)).
Proof.
  apply normal_guarded.
  destruct l; simpl;
    auto using fuelled_of_normal, normal_ret, fuelled_handleMessage,
      normal_handleAckMessage.
Qed.

(** A guarded call ends in the state its body ends in. *)
Lemma final_guarded (m : M unit) (s : engine) :
  final (guarded m s) = final (m s).
Proof. unfold guarded, try_catch. by destruct (m s) as [[[]|e|] s1 t1]. Qed.

Lemma normal_message_dispatch (fuel : nat) (data : option EditModeMessage)
    (regs : list registration) :
  normal (dispatch fuel (MessageEvent data) regs).
Proof.
  induction regs as [|r rest IH]; simpl; [apply normal_ret|].
  unfold_monad. apply normal_bind; [|intros _; exact IH].
  destruct (bool_decide _); [apply normal_message_listener | apply normal_ret].
Qed.

End Returns.

(** ** The handshake *)

Ltac decide_strings :=
  repeat first [ rewrite bool_decide_eq_true_2 by done
               | rewrite bool_decide_eq_false_2 by done ].

Lemma acknowledge_idem (s : engine) : acknowledge (acknowledge s) = acknowledge s.
Proof.
  unfold acknowledge. destruct (readyInterval s) eqn:Hi; simpl; [done|].
  by rewrite Hi.
Qed.

Lemma acknowledge_facts (s : engine) :
  readyAcknowledged (acknowledge s) = true
  ∧ readyInterval (acknowledge s) = None
  ∧ (∀ t, readyInterval s = Some t → timers (acknowledge s) !! t = None).
Proof.
  unfold acknowledge. destruct (readyInterval s) as [t|] eqn:Ht; simpl.
  - repeat split. intros t' [= <-]. apply lookup_delete_eq.
  - by repeat split.
Qed.

Lemma core_fields (a b : engine) :
  core a = core b →
  readyAcknowledged a = readyAcknowledged b
  ∧ initialized a = initialized b
  ∧ cleanupFn a = cleanupFn b
  ∧ readyInterval a = readyInterval b
  ∧ timers a = timers b.
Proof. unfold core. intros [= H1 H2 H3 H4 H5 H6]. done. Qed.

Lemma core_acknowledge (s s' : engine) :
  core s' = core s → core (acknowledge s') = core (acknowledge s).
Proof.
  unfold core, acknowledge. intros [= H1 H2 H3 H4 H5 H6].
  rewrite H4. destruct (readyInterval s) eqn:Hs; simpl;
    by rewrite H2, H3, H5, H6, ?H4, ?Hs.
Qed.

Section Handshake.
Context {B : Browser} (fuel : nat).

Lemma stop_ready_interval_run (s : engine) :
  stop_ready_interval s
  = Run (Normal tt)
        (match readyInterval s with
         | Some t => set_readyInterval None (set_timers (delete t (timers s)) s)
         | None => s
         end) [].
Proof. unfold stop_ready_interval. unfold_monad. unfold bind, get. simpl.
  by destruct (readyInterval s). Qed.

Lemma handleMessage_ack (s : engine) (p : option payload_value) :
  handleMessage (Some (Message "EDIT_MODE_READY_ACK" p)) s
  = Run (Normal tt) (acknowledge s) [].
Proof.
  unfold handleMessage. cbn. decide_strings.
  unfold_monad. unfold bind, modify. rewrite stop_ready_interval_run. simpl.
  unfold acknowledge. by destruct (readyInterval s).
Qed.

Lemma handleAckMessage_acks (s : engine) (data : option EditModeMessage) :
  acks_on data OnAckMessage = true →
  handleAckMessage data s = Run (Normal tt) (acknowledge s) [].
Proof.
  intros H. unfold handleAckMessage. simpl in H. rewrite H.
  unfold_monad. unfold bind, modify. rewrite stop_ready_interval_run. simpl.
  unfold acknowledge. by destruct (readyInterval s).
Qed.

Lemma handleAckMessage_other (s : engine) (data : option EditModeMessage) :
  acks_on data OnAckMessage = false →
  handleAckMessage data s = Run (Normal tt) s [].
Proof. intros H. unfold handleAckMessage. simpl in H. by rewrite H. Qed.

(** Every command but the acknowledgment leaves the core alone. *)
Lemma handleMessage_core (s : engine) (data : option EditModeMessage) :
  acks_on data OnMessage = false →
  core (final (handleMessage data s)) = core s.
Proof.
  intros H. simpl in H.
  assert (Hk : ∀ m : M unit, keeps (λ s', core s' = core s) (λ _, True) m →
               core (final (m s)) = core s).
  { intros m Hm. by destruct (Hm s eq_refl). }
  assert (Hframe : ∀ s1 s2 : engine,
            core s2 = core s1 → core s1 = core s → core s2 = core s)
    by (intros; congruence).
  unfold handleMessage. destruct data as [[ty p]|]; [|done].
  simpl in H. cbn [msg_type msg_payload].
  destruct (negb (truthy ty)); [done|].
  destruct (bool_decide (ty = "EDIT_MODE_ENABLE")).
  { apply Hk. by apply keeps_enableEditMode. }
  destruct (bool_decide (ty = "EDIT_MODE_DISABLE")).
  { apply Hk. by apply keeps_disableEditMode. }
  destruct (bool_decide (ty = "APPLY_STYLE_CHANGE")).
  { destruct p as [[[[?|] [?|] [?|] ? ?]|]|]; try done.
    apply Hk. by apply keeps_applyStyleChange. }
  destruct (bool_decide (ty = "APPLY_TEXT_CHANGE")).
  { destruct p as [[[[?|] ? ? [?|] ?]|]|]; try done.
    apply Hk. by apply keeps_applyTextChange. }
  destruct (bool_decide (ty = "APPLY_IMAGE_CHANGE")).
  { destruct p as [[[[?|] ? ? ? [?|]]|]|]; try done.
    apply Hk. by apply keeps_applyImageChange. }
  destruct (bool_decide (ty = "CLEAR_SELECTION")).
  { apply Hk. by apply keeps_clearSelection. }
  by rewrite H.
Qed.

(** What one listener does to the core on a message event. *)
Lemma message_listener_core (data : option EditModeMessage) (l : listener) (s : engine) :
  core (final (guarded (call_listener fuel (MessageEvent data) l) s))
  = if acks_on data l then core (acknowledge s) else core s.
Proof.
  destruct l; simpl call_listener; try done.
  - destruct (acks_on data OnMessage) eqn:Hack.
    + simpl in Hack. apply bool_decide_eq_true in Hack.
      destruct data as [[ty p]|]; [|done]. simpl in Hack. subst ty.
      unfold guarded, try_catch. by rewrite handleMessage_ack.
    + rewrite final_guarded. by apply handleMessage_core.
  - destruct (acks_on data OnAckMessage) eqn:Hack; unfold guarded, try_catch.
    + by rewrite handleAckMessage_acks.
    + by rewrite handleAckMessage_other.
Qed.

Lemma message_dispatch_core (data : option EditModeMessage)
    (regs : list registration) (s : engine) :
  core (final (dispatch fuel (MessageEvent data) regs s))
  = if acks_in data regs then core (acknowledge s) else core s.
Proof.
  revert s. induction regs as [|r rest IH]; intros s; [done|].
  simpl dispatch. unfold_monad. unfold bind at 1.
  change (event_type (MessageEvent data)) with "message".
  unfold acks_in. simpl existsb. fold (acks_in data rest).
  destruct (bool_decide (reg_type r = "message")); simpl andb.
  - pose proof (message_listener_core data (reg_callback r) s) as Hl.
    destruct (normal_message_listener fuel data (reg_callback r) s) as [[] Hn].
    destruct (guarded _ s) as [o s1 t1]. simpl in Hl, Hn. subst o. simpl.
    rewrite IH.
    destruct (acks_on data (reg_callback r)); simpl orb.
    + rewrite (core_acknowledge _ _ Hl), acknowledge_idem.
      by destruct (acks_in data rest).
    + rewrite (core_acknowledge _ _ Hl), Hl. done.
  - simpl. apply IH.
Qed.

End Handshake.

Section HandshakeFacts.
Context {B : Browser} (fuel : nat).

Lemma not_ready_post (ty : string) (p : option ElementInfo) :
  ty ≠ "EDIT_MODE_READY" → not_ready (PostMessage ty p).
Proof. intros Hty q [= H _]. done. Qed.

Lemma initEditMode_acknowledged : keeps acknowledged not_ready initEditMode.
Proof.
  assert (Hready : keeps acknowledged not_ready sendReady).
  { apply keeps_sendReady; [done|].
    unfold acknowledged. intros s Hs Hn. congruence. }
  unfold initEditMode, set_timer. unfold_monad.
  repeat first [ exact Hready | keeps_step ];
    try (intros ?; done); try (intros s' Hs'; exact Hs').
Qed.

(** Once acknowledged, always acknowledged, and never again a ready
    announcement, whatever happens to the page. *)
Lemma acknowledged_stays_quiet (evs : list event) :
  keeps acknowledged not_ready (run_events fuel evs).
Proof.
  apply keeps_run_events; try done; try (by intros; intros ?).
  - unfold acknowledged. intros s s' Hc%core_fields Hs.
    destruct Hc as (H1 & _). congruence.
  - apply not_ready_post.
  - unfold acknowledged. intros s Hs Hn. congruence.
  - apply initEditMode_acknowledged.
Qed.

Lemma sendReady_acknowledged (s : engine) :
  readyAcknowledged s = true → sendReady s = Run (Normal tt) s [].
Proof. intros H. unfold sendReady. unfold_monad. unfold bind, get. simpl. by rewrite H. Qed.

Lemma step_message (data : option EditModeMessage) (s : engine) :
  (∃ t, step fuel (MessageEvent data) s
        = Run (Normal tt) (final (dispatch fuel (MessageEvent data) (windowListeners s) s)) t)
  ∧ core (final (step fuel (MessageEvent data) s))
    = if acks_in data (windowListeners s) then core (acknowledge s) else core s.
Proof.
  pose proof (message_dispatch_core fuel data (windowListeners s) s) as Hc.
  destruct (normal_message_dispatch fuel data (windowListeners s) s) as [[] Hn].
  simpl step. unfold_monad. unfold bind, get. simpl.
  destruct (dispatch _ _ _ s) as [o s1 t1]. simpl in *. subst o.
  split; [by eexists | done].
Qed.

Lemma acks_in_registered (data : option EditModeMessage) (l : listener)
    (regs : list registration) :
  message_reg l ∈ regs → acks_on data l = true → acks_in data regs = true.
Proof.
  intros Hin Hack. apply existsb_exists. exists (message_reg l).
  split; [by apply list_elem_of_In|]. simpl. by rewrite Hack.
Qed.

Lemma ack_listener_run (p : option payload_value) (l : listener) (s : engine) :
  guarded (call_listener fuel
             (MessageEvent (Some (Message "EDIT_MODE_READY_ACK" p))) l) s
  = Run (Normal tt)
        (match l with
         | OnMessage | OnAckMessage => acknowledge s
         | _ => s
         end) [].
Proof.
  destruct l; cbn [call_listener]; unfold guarded, try_catch; try done.
  - by rewrite handleMessage_ack.
  - by rewrite handleAckMessage_acks.
Qed.

Lemma ack_dispatch_trace (p : option payload_value) (regs : list registration) (s : engine) :
  trace (dispatch fuel (MessageEvent (Some (Message "EDIT_MODE_READY_ACK" p))) regs s)
  = [].
Proof.
  revert s. induction regs as [|r rest IH]; intros s; [done|].
  simpl dispatch. unfold_monad. unfold bind at 1.
  destruct (bool_decide _).
  - rewrite ack_listener_run. simpl. apply IH.
  - simpl. apply IH.
Qed.

(** The state after a message that some registered listener takes for an
    acknowledgment. *)
Lemma step_acknowledges (data : option EditModeMessage) (s : engine) :
  acks_in data (windowListeners s) = true →
  outcome (step fuel (MessageEvent data) s) = Normal tt
  ∧ readyAcknowledged (final (step fuel (MessageEvent data) s)) = true
  ∧ readyInterval (final (step fuel (MessageEvent data) s)) = None
  ∧ (∀ t, readyInterval s = Some t →
       timers (final (step fuel (MessageEvent data) s)) !! t = None)
  ∧ (∀ evs,
       Forall not_ready
         (trace (run_events fuel evs (final (step fuel (MessageEvent data) s))))
       ∧ sendReady (final (run_events fuel evs (final (step fuel (MessageEvent data) s))))
         = Run (Normal tt)
               (final (run_events fuel evs (final (step fuel (MessageEvent data) s)))) []).
Proof.
  intros Hin.
  destruct (step_message data s) as [[t Hrun] Hcore]. rewrite Hin in Hcore.
  destruct (acknowledge_facts s) as (Ha & Hi & Ht).
  apply core_fields in Hcore as (H1 & _ & _ & H4 & H5).
  assert (Hack : acknowledged (final (step fuel (MessageEvent data) s)))
    by (unfold acknowledged; congruence).
  split; [by rewrite Hrun|]. split; [exact Hack|]. split; [congruence|].
  split; [intros t' Ht'; rewrite H5; by apply Ht|].
  intros evs. destruct (acknowledged_stays_quiet evs _ Hack) as [Hq Htr].
  split; [exact Htr|]. by apply sendReady_acknowledged.
Qed.

(** C2. When the acknowledgment message reaches a window on which either
    message listener is registered, the dispatch returns, posts nothing,
    leaves [readyAcknowledged] true and [readyInterval] null with the
    retry timer cancelled; after that no sequence of events of any kind
    (messages, pointer events, timers, calls of [initEditMode] or of a
    teardown) makes the engine post [EDIT_MODE_READY], and [sendReady]
    itself posts nothing. *)
Theorem ready_stops_after_ack (s : engine) (p : option payload_value) :
  message_reg OnMessage ∈ windowListeners s
  ∨ message_reg OnAckMessage ∈ windowListeners s →
  let ack := MessageEvent (Some (Message "EDIT_MODE_READY_ACK" p)) in
  let s' := final (step fuel ack s) in
  outcome (step fuel ack s) = Normal tt
  ∧ trace (step fuel ack s) = []
  ∧ readyAcknowledged s' = true
  ∧ readyInterval s' = None
  ∧ (∀ t, readyInterval s = Some t → timers s' !! t = None)
  ∧ (∀ evs,
       Forall not_ready (trace (run_events fuel evs s'))
       ∧ sendReady (final (run_events fuel evs s'))
         = Run (Normal tt) (final (run_events fuel evs s')) []).
Proof.
  intros Hreg.
  assert (Hin : acks_in (Some (Message "EDIT_MODE_READY_ACK" p)) (windowListeners s) = true).
  { destruct Hreg as [H|H]; eapply acks_in_registered; try exact H; done. }
  destruct (step_acknowledges _ s Hin) as (H1 & H2).
  split; [exact H1|]. split; [|exact H2].
  simpl step. unfold_monad. unfold bind, get. simpl.
  apply ack_dispatch_trace.
Qed.

(** C10. The enable command is taken for an acknowledgment by
    [handleAckMessage]: the handler sets [readyAcknowledged] and cancels
    and clears the retry interval exactly as on [EDIT_MODE_READY_ACK].
    With that listener registered, an enable message therefore leaves the
    engine acknowledged with the interval cancelled, and the ready
    announcement is never posted again. *)
Theorem enable_acknowledges (s : engine) (p : option payload_value) :
  message_reg OnAckMessage ∈ windowListeners s →
  let enable := Some (Message "EDIT_MODE_ENABLE" p) in
  let s' := final (step fuel (MessageEvent enable) s) in
  handleAckMessage enable s = Run (Normal tt) (acknowledge s) []
  ∧ handleAckMessage enable s
    = handleAckMessage (Some (Message "EDIT_MODE_READY_ACK" p)) s
  ∧ readyAcknowledged (acknowledge s) = true
  ∧ readyInterval (acknowledge s) = None
  ∧ (∀ t, readyInterval s = Some t → timers (acknowledge s) !! t = None)
  ∧ outcome (step fuel (MessageEvent enable) s) = Normal tt
  ∧ readyAcknowledged s' = true
  ∧ readyInterval s' = None
  ∧ (∀ t, readyInterval s = Some t → timers s' !! t = None)
  ∧ (∀ evs,
       Forall not_ready (trace (run_events fuel evs s'))
       ∧ sendReady (final (run_events fuel evs s'))
         = Run (Normal tt) (final (run_events fuel evs s')) []).
Proof.
  intros Hreg. simpl.
  destruct (acknowledge_facts s) as (Ha & Hi & Ht).
  split; [by apply handleAckMessage_acks|].
  split; [by rewrite !handleAckMessage_acks|].
  split; [done|]. split; [done|]. split; [done|].
  apply step_acknowledges.
  eapply acks_in_registered; [exact Hreg | done].
Qed.

End HandshakeFacts.

Lemma ready_stops_after_ack_witness :
  readyAcknowledged
    (final (step (B := page_browser) 4
              (MessageEvent (Some (Message "EDIT_MODE_READY_ACK" None)))
              listening_engine)) = true.
Proof.
  assert (H : message_reg OnMessage ∈ windowListeners listening_engine
              ∨ message_reg OnAckMessage ∈ windowListeners listening_engine).
  { left. apply (bool_decide_unpack _). vm_compute. exact I. }
  exact (proj1 (proj2 (proj2
    (ready_stops_after_ack (B := page_browser) 4 listening_engine None H)))).
Defined.

Lemma enable_acknowledges_witness :
  readyAcknowledged
    (final (step (B := page_browser) 4
              (MessageEvent (Some (Message "EDIT_MODE_ENABLE" None)))
              listening_engine)) = true.
Proof.
  assert (H : message_reg OnAckMessage ∈ windowListeners listening_engine).
  { apply (bool_decide_unpack _). vm_compute. exact I. }
  exact (proj1 (proj2 (proj2 (proj2 (proj2 (proj2 (proj2
    (enable_acknowledges (B := page_browser) 4 listening_engine None H)))))))).
Defined.

(** ** Initialising twice *)

Section InitFacts.
Context {B : Browser} (fuel : nat).

Lemma initEditMode_again (s : engine) :
  window_defined = true → initialized s = true →
  initEditMode s = Run (Normal (default NoopTeardown (cleanupFn s))) s [ALREADY].
Proof.
  intros Hw Hi. unfold initEditMode. rewrite Hw. simpl.
  unfold_monad. unfold bind, get. simpl. by rewrite Hi.
Qed.

Lemma normal_set_timer (k : timer) : normal (set_timer k).
Proof.
  unfold set_timer. unfold_monad.
  apply normal_bind; [apply normal_get | intros s].
  apply normal_bind; [apply normal_modify | intros _; apply normal_ret].
Qed.

Lemma initEditMode_first (s : engine) :
  window_defined = true → initialized s = false →
  cleanupFn (final (initEditMode s)) = Some CleanupTeardown.
Proof.
  intros Hw Hi. unfold initEditMode. rewrite Hw. cbn [negb]. unfold_monad.
  rewrite final_bind_get, Hi.
  match goal with
  | |- cleanupFn (final (?m s)) = _ =>
      enough (ends (λ s', cleanupFn s' = Some CleanupTeardown) m) as H by apply H
  end.
  repeat first
    [ apply ends_then_ret, ends_modify; done
    | apply ends_bind;
      [ first [ apply normal_modify | apply normal_emit | apply normal_sendReady
              | apply normal_set_timer ]
      | intros ? ] ].
Qed.

Lemma initEditMode_guard : keeps guard_sound (λ _, True) initEditMode.
Proof.
  intros s Hs. split; [|apply Forall_forall; done].
  destruct window_defined eqn:Hw.
  - destruct (initialized s) eqn:Hi.
    + by rewrite initEditMode_again.
    + intros _. by apply initEditMode_first.
  - unfold initEditMode. by rewrite Hw.
Qed.

(** In every state the engine can reach from module load, a raised
    initialised flag comes with the stored teardown closure. *)
Lemma reachable_guard_sound (d : document) (evs : list event) :
  guard_sound (final (run_events fuel evs (initial_engine d))).
Proof.
  apply (keeps_run_events fuel guard_sound (λ _, True)); try done.
  - unfold guard_sound. intros s s' Hc%core_fields Hs Hi.
    destruct Hc as (_ & H2 & H3 & _). rewrite H3. apply Hs. congruence.
  - apply initEditMode_guard.
Qed.

(** C7. With the initialised flag up, [initEditMode] returns the stored
    teardown (or the empty function where none is stored, which no
    reachable state allows), logs one line and changes nothing: the same
    window listeners, the same overlay references and document, the same
    timers.  In a state reached from module load the returned handle is
    the cleanup closure. *)
Theorem init_again_changes_nothing (d : document) (evs : list event) (s : engine) :
  window_defined = true →
  initialized s = true →
  initEditMode s = Run (Normal (default NoopTeardown (cleanupFn s))) s [ALREADY]
  ∧ windowListeners (final (initEditMode s)) = windowListeners s
  ∧ highlightOverlay (final (initEditMode s)) = highlightOverlay s
  ∧ selectionOverlay (final (initEditMode s)) = selectionOverlay s
  ∧ doc (final (initEditMode s)) = doc s
  ∧ timers (final (initEditMode s)) = timers s
  ∧ readyInterval (final (initEditMode s)) = readyInterval s
  ∧ (s = final (run_events fuel evs (initial_engine d)) →
     outcome (initEditMode s) = Normal CleanupTeardown).
Proof.
  intros Hw Hi. rewrite (initEditMode_again s Hw Hi). simpl.
  repeat split. intros ->.
  by rewrite (reachable_guard_sound d evs Hi).
Qed.

End InitFacts.

Lemma init_again_changes_nothing_witness :
  outcome (initEditMode (B := page_browser)
             (final (run_events (B := page_browser) 4 [CallInitEditMode]
                       (initial_engine page))))
  = Normal CleanupTeardown.
Proof.
  assert (Hi : initialized
                 (final (run_events (B := page_browser) 4 [CallInitEditMode]
                           (initial_engine page))) = true)
    by (vm_compute; reflexivity).
  pose proof (init_again_changes_nothing (B := page_browser) 4 page
                [CallInitEditMode] _ eq_refl Hi) as H.
  apply H. reflexivity.
Defined.

(** ** Hover throttling *)

Lemma Qltb_lt (a b : Q) : Qltb a b = true ↔ (a < b)%Q.
Proof.
  unfold Qltb. rewrite negb_true_iff. split.
  - intros H. apply Qnot_le_lt. intros Hle.
    apply Qle_bool_iff in Hle. congruence.
  - intros H. destruct (Qle_bool b a) eqn:E; [|done].
    apply Qle_bool_iff in E. by apply Qlt_not_le in H.
Qed.

(** Code that emits nothing has an empty trace. *)
Lemma silent_run {A} (I : engine → Prop) (m : M A) (s : engine) :
  keeps I (λ _, False) m → I s → I (final (m s)) ∧ trace (m s) = [].
Proof.
  intros Hm Hs. destruct (Hm s Hs) as [H1 H2]. split; [done|].
  destruct (trace (m s)) as [|o t]; [done|]. by inversion H2.
Qed.

Lemma hover_updates_app (t1 t2 : list output) :
  hover_updates (t1 ++ t2) = (hover_updates t1 + hover_updates t2)%nat.
Proof. unfold hover_updates. by rewrite filter_app, length_app. Qed.

Lemma quiet_hover_silent {A} (I : engine → Prop) (n : nat) (m : M A) :
  keeps I (λ _, False) m → (∀ s, I s) → quiet_hover n m.
Proof.
  intros Hm HI s. destruct (silent_run I m s Hm (HI s)) as [_ ->].
  unfold hover_updates. simpl. lia.
Qed.

Lemma quiet_hover_bind {A C} (n : nat) (m : M A) (k : A → M C) :
  quiet_hover 0 m → (∀ a, quiet_hover n (k a)) → quiet_hover n (bind m k).
Proof.
  intros Hm Hk s. specialize (Hm s). unfold bind.
  destruct (m s) as [[a|e|] s1 t1]; simpl in *; try lia.
  rewrite hover_updates_app. specialize (Hk a s1). lia.
Qed.

Lemma quiet_hover_nothing {A} (n : nat) (m : M A) :
  (∀ s, trace (m s) = []) → quiet_hover n m.
Proof. intros Hm s. rewrite Hm. unfold hover_updates. simpl. lia. Qed.

Lemma quiet_hover_emit (o : output) : quiet_hover 1 (emit o).
Proof.
  intros s. unfold hover_updates, emit. simpl.
  destruct (decide (is_hover o = true)).
  - rewrite filter_cons_True by done. simpl. lia.
  - rewrite filter_cons_False by done. simpl. lia.
Qed.

Section HoverFacts.
Context {B : Browser} (fuel : nat).

Lemma updateHighlight_silent (now : Q) (el : option node_id) :
  keeps (λ s, lastFrameTime s = now) (λ _, False) (updateHighlight el).
Proof.
  apply keeps_updateHighlight.
  intros s s' Hc Hs. unfold core in Hc. injection Hc as _ _ _ _ _ H. congruence.
Qed.

Lemma quiet_track_hover (target : node_id) : quiet_hover 1 (track_hover fuel target).
Proof.
  unfold track_hover. unfold_monad.
  apply quiet_hover_bind; [by apply quiet_hover_nothing|]. intros s.
  destruct (skipped_on_move s target); [by apply quiet_hover_nothing|].
  destruct (bool_decide _); [by apply quiet_hover_nothing|].
  apply quiet_hover_bind; [by apply quiet_hover_nothing|]. intros _.
  apply quiet_hover_bind.
  { apply (quiet_hover_silent (λ _, True)); [|done].
    apply keeps_updateHighlight. done. }
  intros _.
  apply quiet_hover_bind; [by apply quiet_hover_nothing|]. intros s'.
  apply quiet_hover_bind.
  { apply quiet_hover_nothing. intros s0. by destruct (getElementInfo _ _ _). }
  intros [i|]; [|by apply quiet_hover_nothing]. cbv beta iota.
  destruct (cloneable i); [apply quiet_hover_emit | by apply quiet_hover_nothing].
Qed.

Lemma track_hover_keeps_stamp (now : Q) (target : node_id) :
  keeps (λ s, lastFrameTime s = now) (λ _, True) (track_hover fuel target).
Proof.
  apply keeps_track_hover; try done.
  intros s s' Hc Hs. unfold core in Hc. injection Hc as _ _ _ _ _ H. congruence.
Qed.

(** The three ways through [handleMouseMove]. *)
Lemma handleMouseMove_cases (s : engine) (now : Q) (target : node_id) :
  handleMouseMove fuel now target s
  = if negb (isEditModeActive s) then Run (Normal tt) s []
    else if Qltb (now - lastFrameTime s) FRAME_DELAY then Run (Normal tt) s []
    else track_hover fuel target (set_lastFrameTime now s).
Proof.
  unfold handleMouseMove. unfold_monad. unfold bind at 1. unfold get.
  cbv beta iota. cbn [outcome final trace app].
  destruct (negb (isEditModeActive s)); [done|].
  destruct (Qltb (now - lastFrameTime s) FRAME_DELAY); [done|].
  unfold bind, modify. cbv beta iota. cbn [outcome final trace app].
  by destruct (track_hover fuel target (set_lastFrameTime now s)).
Qed.

Lemma move_dropped (s : engine) (now : Q) (target : node_id) :
  (now - lastFrameTime s < FRAME_DELAY)%Q →
  handleMouseMove fuel now target s = Run (Normal tt) s [].
Proof.
  intros Hlt%Qltb_lt. rewrite handleMouseMove_cases, Hlt.
  by destruct (negb (isEditModeActive s)).
Qed.

(** A move either changes nothing or stamps the state with its clock
    reading; either way it posts at most one hover update. *)
Lemma move_outcome (s : engine) (now : Q) (target : node_id) :
  (hover_updates (trace (handleMouseMove fuel now target s)) ≤ 1)%nat
  ∧ (handleMouseMove fuel now target s = Run (Normal tt) s []
     ∨ lastFrameTime (final (handleMouseMove fuel now target s)) = now).
Proof.
  rewrite handleMouseMove_cases.
  destruct (negb (isEditModeActive s));
    [split; [unfold hover_updates; simpl; lia | by left]|].
  destruct (Qltb (now - lastFrameTime s) FRAME_DELAY);
    [split; [unfold hover_updates; simpl; lia | by left]|].
  split; [apply quiet_track_hover|]. right.
  by destruct (track_hover_keeps_stamp now target (set_lastFrameTime now s)).
Qed.

(** C8. A pointer move that arrives less than 16 ms after the last one
    that passed the throttle returns at once, with the state as it was and
    nothing posted.  Of two moves handled one after the other whose clock
    readings are at most 10 ms apart, at most one posts a hover update. *)
Theorem moves_are_throttled (s : engine) (t1 t2 : Q) (a b : node_id) :
  (t2 - t1 <= 10)%Q →
  (∀ now target, (now - lastFrameTime s < FRAME_DELAY)%Q →
     handleMouseMove fuel now target s = Run (Normal tt) s [])
  ∧ (hover_updates
       (trace ((handleMouseMove fuel t1 a;; handleMouseMove fuel t2 b) s)) ≤ 1)%nat.
Proof.
  intros Hclose. split; [intros now target; apply move_dropped|].
  unfold_monad. unfold bind.
  destruct (move_outcome s t1 a) as [Hone Hcase].
  destruct (handleMouseMove fuel t1 a s) as [[[]|e|] s1 tr1] eqn:H1;
    cbn [outcome final trace] in *; try done.
  destruct Hcase as [[= -> ->]|Hstamp].
  - cbn [app]. apply move_outcome.
  - rewrite move_dropped.
    + cbn [trace]. by rewrite app_nil_r.
    + rewrite Hstamp. unfold FRAME_DELAY. lra.
Qed.

End HoverFacts.

Lemma moves_are_throttled_witness :
  handleMouseMove (B := page_browser) 4 25 3 hovering_engine
  = Run (Normal tt) hovering_engine [].
Proof.
  assert (H : (28 - 25 <= 10)%Q) by (vm_compute; discriminate).
  refine (proj1 (moves_are_throttled (B := page_browser) 4 hovering_engine
                   25 28 3 5 H) 25%Q 3 _).
  vm_compute. reflexivity.
Defined.

(** ** Mutation applier *)

Lemma node_of_set (d : document) (n m : node_id) (nd : node) :
  node_of (set_node d n nd) m = if decide (n = m) then nd else node_of d m.
Proof.
  unfold set_node, node_of. simpl.
  destruct (decide (n = m)) as [->|Hne].
  - by rewrite lookup_insert_eq.
  - by rewrite lookup_insert_ne.
Qed.

Lemma nodeType_detach_all (d : document) (l : list node_id) (n : node_id) :
  nodeType (node_of (foldr (update_node (with_parentNode None)) d l) n)
  = nodeType (node_of d n).
Proof.
  induction l as [|c l IH]; simpl; [done|].
  rewrite node_of_update. destruct (decide (c = n)) as [->|]; simpl; done.
Qed.

Lemma find_first (d : document) (pre post : list node_id) (t : node_id) :
  Forall (λ c, is_text d c = false) pre → is_text d t = true →
  List.find (is_text d) (pre ++ t :: post) = Some t.
Proof.
  intros Hpre Ht. induction Hpre as [|c pre Hc _ IH]; simpl.
  - by rewrite Ht.
  - by rewrite Hc.
Qed.

Lemma find_nothing (d : document) (l : list node_id) :
  Forall (λ c, is_text d c = false) l → List.find (is_text d) l = None.
Proof.
  intros Hl. induction Hl as [|c l Hc _ IH]; simpl; [done|]. by rewrite Hc.
Qed.

(** After the [textContent] setter, the getter reads the text back. *)
Lemma set_textContent_read (fuel : nat) (d : document) (e : node_id) (text : string) :
  is_element d e = true →
  textContent (S fuel) (set_textContent e text d) e = Some (Some text).
Proof.
  unfold is_element. intros He%bool_decide_eq_true.
  unfold set_textContent.
  set (d1 := foldr _ d _).
  set (d2 := update_node (with_childNodes []) e d1).
  assert (Hty : nodeType (node_of d2 e) = ELEMENT_NODE).
  { unfold d2, d1. rewrite node_of_update_eq. simpl.
    by rewrite nodeType_detach_all. }
  assert (Hch : childNodes (node_of d2 e) = []).
  { unfold d2. by rewrite node_of_update_eq. }
  destruct (truthy text) eqn:Htext.
  - unfold createTextNode. set (t := fresh_node d2).
    assert (Hte : t ≠ e).
    { intros Heq. pose proof (fresh_node_not_in d2) as Hfresh. fold t in Hfresh.
      rewrite Heq in Hfresh. unfold d2, update_node, set_node in Hfresh.
      simpl in Hfresh. by rewrite lookup_insert_eq in Hfresh. }
    set (d3 := set_node d2 t _).
    assert (Hrm : remove_node t d3 = d3).
    { unfold remove_node, d3. rewrite node_of_set.
      by destruct (decide (t = t)). }
    unfold appendChild. rewrite Hrm.
    set (d4 := update_node _ e d3).
    set (d5 := update_node _ t d4).
    assert (H5e : node_of d5 e
                  = with_childNodes (childNodes (node_of d2 e) ++ [t]) (node_of d2 e)).
    { unfold d5. rewrite node_of_update_ne by done.
      unfold d4. rewrite node_of_update_eq.
      unfold d3. rewrite node_of_set. by destruct (decide (t = e)). }
    assert (H5t : node_of d5 t
                  = Node TEXT_NODE "" "" (ClassString "") "" ∅ text (Some e) []).
    { unfold d5. rewrite node_of_update_eq.
      unfold d4. rewrite node_of_update_ne by done.
      unfold d3. rewrite node_of_set. by destruct (decide (t = t)). }
    unfold textContent. rewrite H5e. simpl nodeType. rewrite Hty.
    simpl descendant_text. rewrite H5e. simpl nodeType. rewrite Hty.
    simpl childNodes. rewrite Hch. simpl.
    rewrite (descendant_text_of_text fuel d5 t)
      by (unfold is_text; by rewrite H5t, bool_decide_eq_true_2).
    simpl. rewrite H5t. simpl. by rewrite append_empty_r.
  - destruct text; [|done].
    unfold textContent. rewrite Hty. simpl descendant_text. rewrite Hty, Hch. done.
Qed.

Section MutationFacts.
Context {B : Browser}.

Lemma query_found (s : engine) (sel : string) (e : node_id) :
  querySelector (doc s) sel = QFound e → query sel s = Run (Normal (Some e)) s [].
Proof. intros H. unfold query. unfold_monad. unfold bind, get. simpl. by rewrite H. Qed.

Lemma query_none (s : engine) (sel : string) :
  querySelector (doc s) sel = QNoMatch → query sel s = Run (Normal None) s [].
Proof. intros H. unfold query. unfold_monad. rewrite bind_get_run. by rewrite H. Qed.

Lemma query_error (s : engine) (sel : string) :
  querySelector (doc s) sel = QSyntaxError →
  query sel s = Run (Throw (SyntaxError sel)) s [].
Proof. intros H. unfold query. unfold_monad. rewrite bind_get_run. by rewrite H. Qed.

Lemma applyTextChange_found (s : engine) (sel newText : string) (e : node_id) :
  querySelector (doc s) sel = QFound e →
  applyTextChange sel newText s
  = Run (Normal tt)
        (set_doc
           (match List.find (is_text (doc s)) (childNodes (node_of (doc s) e)) with
            | Some textNode => update_node (with_data newText) textNode (doc s)
            | None => set_textContent e newText (doc s)
            end) s)
        [ConsoleLog ["[VlibeEditMode] Applied text change to"; sel]].
Proof.
  intros Hq. unfold applyTextChange, try_catch. unfold_monad.
  unfold bind at 1. rewrite (query_found s sel e Hq).
  unfold bind, get, modify, emit. simpl.
  by destruct (List.find _ _).
Qed.

(** C4. When the selector of [applyTextChange] resolves to an element
    with a text node among its direct children, the data of the first of
    them becomes the new text; every other node of the heap, and with it
    every other child, is as before, and the element keeps its list of
    children.  When no direct child is a text node, the element's text
    content reads as the new text afterwards. *)
Theorem text_change_first_text_node (s : engine) (sel newText : string) (e : node_id) :
  querySelector (doc s) sel = QFound e →
  is_element (doc s) e = true →
  let r := applyTextChange sel newText s in
  outcome r = Normal tt
  ∧ (∀ (pre : list node_id) (t : node_id) (post : list node_id),
       childNodes (node_of (doc s) e) = (pre ++ t :: post)%list →
       Forall (λ c, is_text (doc s) c = false) pre →
       is_text (doc s) t = true →
       data (node_of (doc (final r)) t) = newText
       ∧ (∀ n, n ≠ t → nodes (doc (final r)) !! n = nodes (doc s) !! n)
       ∧ childNodes (node_of (doc (final r)) e) = (pre ++ t :: post)%list)
  ∧ (Forall (λ c, is_text (doc s) c = false) (childNodes (node_of (doc s) e)) →
     ∀ fuel, textContent (S fuel) (doc (final r)) e = Some (Some newText)).
Proof.
  intros Hq He r. unfold r. rewrite (applyTextChange_found s sel newText e Hq).
  simpl. split; [done|]. split.
  - intros pre t post Hch Hpre Ht.
    rewrite Hch, (find_first _ pre post t Hpre Ht).
    split; [by rewrite node_of_update_eq|].
    split; [intros n Hn; by apply nodes_update_ne|].
    rewrite node_of_update.
    destruct (decide (t = e)) as [->|]; simpl; by rewrite Hch.
  - intros Hnone fuel. rewrite (find_nothing _ _ Hnone).
    by apply set_textContent_read.
Qed.

(** The assignment to a style object, run. *)
Lemma assign_style_run (e : node_id) (name value : string) (s : engine) :
  assign_style e name value s
  = match style_assign (style (node_of (doc s) e)) name value with
    | Some st => Run (Normal tt) (set_doc (update_node (with_style st) e (doc s)) s) []
    | None => Run (Throw (TypeError name)) s []
    end.
Proof.
  unfold assign_style. unfold_monad. rewrite bind_get_run.
  by destruct (style_assign _ _ _).
Qed.

(** Writing back the declarations a node has changes nothing. *)
Lemma with_style_same (d : document) (e : node_id) :
  is_Some (nodes d !! e) →
  update_node (with_style (style (node_of d e))) e d = d.
Proof.
  intros [nd Hnd]. unfold update_node, set_node, node_of. rewrite Hnd. simpl.
  rewrite (node_eta nd) by done. rewrite insert_id by done. by destruct d.
Qed.

(** C5, as the code has it.  [applyStyleChange] always returns.  On a
    selector that does not parse, the state is unchanged and one
    [console.error] line is written.  On a selector that matches nothing,
    the state is unchanged and nothing is written at all.  On a match the
    assignment goes to the style object of the element.  Where that
    throws, the state is unchanged and one [console.error] line is
    written.  Otherwise the inline style of the element is what the style
    object made of the assignment, no other node changes, and one
    [console.log] line is written: the named property reads the value
    where the style object stores the declaration as written, and the
    document is as it was where the style object ignores it. *)
Theorem style_change_never_throws (s : engine) (sel property value : string) :
  let r := applyStyleChange sel property value s in
  outcome r = Normal tt
  ∧ match querySelector (doc s) sel with
    | QSyntaxError =>
        final r = s
        ∧ trace r = [ConsoleError ["[VlibeEditMode] Failed to apply style:";
                                   error_text (SyntaxError sel)]]
    | QNoMatch => final r = s ∧ trace r = []
    | QFound e =>
        match style_assign (style (node_of (doc s) e)) property value with
        | None =>
            final r = s
            ∧ trace r = [ConsoleError ["[VlibeEditMode] Failed to apply style:";
                                       error_text (TypeError property)]]
        | Some st =>
            style (node_of (doc (final r)) e) = st
            ∧ (st = <[property := value]> (style (node_of (doc s) e)) →
               style (node_of (doc (final r)) e) !! property = Some value)
            ∧ (st = style (node_of (doc s) e) → is_Some (nodes (doc s) !! e) →
               final r = s)
            ∧ (∀ n, n ≠ e → nodes (doc (final r)) !! n = nodes (doc s) !! n)
            ∧ trace r = [ConsoleLog ["[VlibeEditMode] Applied style:"; property;
                                     "="; value; "to"; sel]]
        end
    end.
Proof.
  unfold applyStyleChange, try_catch. unfold_monad.
  destruct (querySelector (doc s) sel) as [| |e] eqn:Hq.
  - by rewrite (bind_throw_run _ _ _ _ _ _ (query_error s sel Hq)).
  - by rewrite (bind_silent_run _ _ _ _ _ (query_none s sel Hq)).
  - rewrite (bind_silent_run _ _ _ _ _ (query_found s sel e Hq)).
    pose proof (assign_style_run e property value s) as Hrun.
    destruct (style_assign _ _ _) as [st|] eqn:Hst.
    + rewrite (bind_silent_run _ _ _ _ _ Hrun).
      cbn [emit outcome final trace doc set_doc].
      split; [done|]. split; [by rewrite node_of_update_eq|].
      split; [intros ->; rewrite node_of_update_eq; apply lookup_insert_eq|].
      split; [intros -> Hin; by rewrite with_style_same, set_doc_same|].
      split; [intros n Hn; by apply nodes_update_ne | done].
    + by rewrite (bind_throw_run _ _ _ _ _ _ Hrun).
Qed.

End MutationFacts.

(** The claim C5 as written fails where the selector matches nothing:
    no error is logged there, the console stays empty. *)
Lemma style_change_no_match_is_silent :
  querySelector (Browser := page_browser) page "#missing" = QNoMatch
  ∧ ¬ ∃ o, o ∈ trace (applyStyleChange (B := page_browser)
                         "#missing" "color" "red" (initial_engine page)).
Proof.
  split; [reflexivity|].
  intros [o Ho]. vm_compute in Ho. by apply elem_of_nil in Ho.
Qed.

Lemma text_change_first_text_node_witness :
  data (node_of (doc (final (applyTextChange (B := page_browser)
                               "body > p" "Bye" (initial_engine page)))) 6) = "Bye".
Proof.
  refine (proj1 (proj1 (proj2 (text_change_first_text_node (B := page_browser)
            (initial_engine page) "body > p" "Bye" 5 eq_refl eq_refl))
            [] 6 [7] eq_refl _ eq_refl)).
  constructor.
Defined.

(** ** Clearing the selection *)


Lemma set_style_same (d : document) (n : node_id) (nd : node) (prop value : string) :
  nodes d !! n = Some nd → style nd !! prop = Some value →
  set_style n prop value d = d.
Proof.
  intros Hn Hp. unfold set_style, update_node, set_node, node_of. rewrite Hn. simpl.
  rewrite (node_eta nd) by (symmetry; by apply insert_id).
  rewrite insert_id by done. by destruct d.
Qed.


Lemma set_selectedElement_same (s : engine) :
  selectedElement s = None → set_selectedElement None s = s.
Proof. destruct s. simpl. by intros ->. Qed.

Lemma set_style_lookup (d : document) (n : node_id) (prop value : string) :
  ∃ nd, nodes (set_style n prop value d) !! n = Some nd
        ∧ style nd !! prop = Some value.
Proof.
  unfold set_style, update_node, set_node. cbn [nodes].
  eexists. split; [apply lookup_insert_eq|].
  cbn [style with_style]. apply lookup_insert_eq.
Qed.

Section SelectionFacts.
Context {B : Browser}.

Lemma clearSelection_existing (s : engine) (o : node_id) :
  selectionOverlay s = Some o →
  clearSelection s
  = Run (Normal tt)
        (set_doc (set_style o "display" "none" (doc s)) (set_selectedElement None s)) [].
Proof.
  intros Ho. unfold clearSelection, updateSelectionOverlay. unfold_monad.
  run_monad. cbn [selectionOverlay set_selectedElement]. rewrite Ho.
  rewrite bool_decide_eq_false_2 by done. run_monad.
  cbn [selectionOverlay set_selectedElement]. by rewrite Ho.
Qed.

Lemma clearSelection_hidden (s : engine) (o : node_id) (nd : node) :
  selectedElement s = None →
  selectionOverlay s = Some o →
  nodes (doc s) !! o = Some nd →
  style nd !! "display" = Some "none" →
  clearSelection s = Run (Normal tt) s [].
Proof.
  intros Hsel Ho Hn Hd. rewrite (clearSelection_existing s o Ho).
  rewrite (set_selectedElement_same s Hsel).
  rewrite (set_style_same _ _ _ _ _ Hn Hd). by rewrite set_doc_same.
Qed.

Lemma createSelectionOverlay_fresh (s : engine) :
  selectionOverlay s = None →
  createSelectionOverlay s
  = Run (Normal (fresh_node (doc s)))
        (set_doc
           (appendChild (body (doc s)) (fresh_node (doc s))
              (set_cssText (fresh_node (doc s)) selection_css
                 (update_node (with_elem_id SELECTION_ID) (fresh_node (doc s))
                    (fst (createElement "DIV" (doc s))))))
           (set_selectionOverlay (Some (fresh_node (doc s))) s)) [].
Proof.
  intros Ho. unfold createSelectionOverlay, createElement. unfold_monad.
  run_monad. rewrite Ho. run_monad. reflexivity.
Qed.

Lemma clearSelection_creating (s : engine) :
  selectionOverlay s = None →
  clearSelection s
  = Run (Normal tt)
        (set_doc
           (set_style (fresh_node (doc s)) "display" "none"
              (doc (final (createSelectionOverlay (set_selectedElement None s)))))
           (final (createSelectionOverlay (set_selectedElement None s)))) [].
Proof.
  intros Ho.
  assert (Ho' : selectionOverlay (set_selectedElement None s) = None) by done.
  pose proof (createSelectionOverlay_fresh _ Ho') as Hc.
  unfold clearSelection, updateSelectionOverlay. unfold_monad.
  run_monad. rewrite Ho'.
  rewrite bool_decide_eq_true_2 by done. run_monad.
  rewrite (bind_silent_run _ _ _ _ _ Hc). run_monad.
  rewrite Hc. reflexivity.
Qed.

Lemma appendChild_lists (parent child : node_id) (d : document) :
  child ∈ childNodes (node_of (appendChild parent child d) parent).
Proof.
  unfold appendChild. rewrite node_of_update.
  destruct (decide (child = parent)) as [->|Hne]; cbn [childNodes with_parentNode];
    rewrite node_of_update_eq; cbn [childNodes with_childNodes];
    apply elem_of_app; right; apply list_elem_of_singleton; done.
Qed.

Lemma set_style_children (n m : node_id) (prop value : string) (d : document) :
  childNodes (node_of (set_style n prop value d) m) = childNodes (node_of d m).
Proof.
  unfold set_style. rewrite node_of_update.
  by destruct (decide (n = m)) as [->|].
Qed.

(** Where the overlay is missing, [clearSelection] makes a new node for it
    and appends the node to the body. *)
Lemma clearSelection_appends (s : engine) :
  selectionOverlay s = None →
  selectionOverlay (final (clearSelection s)) = Some (fresh_node (doc s))
  ∧ fresh_node (doc s)
    ∈ childNodes (node_of (doc (final (clearSelection s))) (body (doc s))).
Proof.
  intros Ho. rewrite (clearSelection_creating s Ho). cbn [final].
  rewrite createSelectionOverlay_fresh by done.
  cbn [final selectionOverlay doc set_doc set_selectionOverlay set_selectedElement].
  split; [done|].
  rewrite set_style_children. apply appendChild_lists.
Qed.

(** What [clearSelection] leaves behind, from any state: it returns,
    posts and logs nothing, no element is selected, and the selection
    overlay exists, is in the heap and is hidden. *)
Lemma clearSelection_result (s : engine) :
  outcome (clearSelection s) = Normal tt
  ∧ trace (clearSelection s) = []
  ∧ selectedElement (final (clearSelection s)) = None
  ∧ ∃ o nd, selectionOverlay (final (clearSelection s)) = Some o
            ∧ nodes (doc (final (clearSelection s))) !! o = Some nd
            ∧ style nd !! "display" = Some "none".
Proof.
  destruct (selectionOverlay s) as [o|] eqn:Ho.
  - rewrite (clearSelection_existing s o Ho). cbn [outcome trace final].
    repeat split.
    destruct (set_style_lookup (doc s) o "display" "none") as (nd & H1 & H2).
    by exists o, nd.
  - rewrite (clearSelection_creating s Ho). cbn [outcome trace final].
    repeat split.
    + by rewrite createSelectionOverlay_fresh.
    + destruct (set_style_lookup
                  (doc (final (createSelectionOverlay (set_selectedElement None s))))
                  (fresh_node (doc s)) "display" "none") as (nd & H1 & H2).
      exists (fresh_node (doc s)), nd. split; [|done].
      by rewrite createSelectionOverlay_fresh.
Qed.

(** C9. With no element selected, the [CLEAR_SELECTION] command returns
    without an error and without posting or logging.  The engine state of
    the specification (mode, selected element, hover target, time stamp
    and acknowledged flag) is what it was: still no element is selected.
    The selection overlay is hidden afterwards; if it was there and hidden
    before, nothing at all has changed, and if it was not there yet, this
    first use makes it, hidden.  The command received again right after
    changes nothing. *)
Theorem clear_selection_when_none (s : engine) (p : option payload_value) :
  selectedElement s = None →
  let r := handleMessage (Some (Message "CLEAR_SELECTION" p)) s in
  outcome r = Normal tt
  ∧ trace r = []
  ∧ EngineState (final r) = EngineState s
  ∧ selectedElement (final r) = None
  ∧ (∃ o, selectionOverlay (final r) = Some o
          ∧ style (node_of (doc (final r)) o) !! "display" = Some "none")
  ∧ (∀ o nd, selectionOverlay s = Some o →
             nodes (doc s) !! o = Some nd →
             style nd !! "display" = Some "none" →
             final r = s)
  ∧ (selectionOverlay s = None →
     selectionOverlay (final r) = Some (fresh_node (doc s))
     ∧ fresh_node (doc s) ∈ childNodes (node_of (doc (final r)) (body (doc s))))
  ∧ handleMessage (Some (Message "CLEAR_SELECTION" p)) (final r)
    = Run (Normal tt) (final r) [].
Proof.
  intros Hsel r.
  assert (Hcmd : ∀ s', handleMessage (Some (Message "CLEAR_SELECTION" p)) s'
                       = clearSelection s').
  { intros s'. unfold handleMessage. cbn [msg_type truthy negb]. by decide_strings. }
  unfold r. rewrite !Hcmd.
  destruct (clearSelection_result s) as (H1 & H2 & H3 & o & nd & H4 & H5 & H6).
  split; [done|]. split; [done|].
  split; [|split; [done|split; [|split; [|split]]]].
  - unfold EngineState. destruct (selectionOverlay s) as [o'|] eqn:Ho.
    + rewrite (clearSelection_existing s o' Ho). cbn [final]. engine_simpl.
      by rewrite Hsel.
    + rewrite (clearSelection_creating s Ho), createSelectionOverlay_fresh by done.
      cbn [final]. engine_simpl. by rewrite Hsel.
  - exists o. split; [done|]. unfold node_of. by rewrite H5.
  - intros o' nd' Ho' Hn' Hd'.
    by rewrite (clearSelection_hidden s o' nd' Hsel Ho' Hn' Hd').
  - apply clearSelection_appends.
  - by apply (clearSelection_hidden _ o nd).
Qed.

End SelectionFacts.

Lemma clear_selection_when_none_witness :
  EngineState
    (final (handleMessage (B := page_browser)
              (Some (Message "CLEAR_SELECTION" None)) listening_engine))
  = EngineState listening_engine.
Proof.
  assert (Hsel : selectedElement listening_engine = None) by (vm_compute; reflexivity).
  exact (proj1 (proj2 (proj2
    (clear_selection_when_none (B := page_browser) listening_engine None Hsel)))).
Defined.

(** ** Teardown *)

Lemma remove_absent (r : registration) (regs : list registration) :
  r ∉ regs → removeEventListener r regs = regs.
Proof.
  intros Hr. unfold removeEventListener.
  induction regs as [|x regs IH]; [done|].
  apply not_elem_of_cons in Hr as [Hx Hr].
  rewrite filter_cons_True by done. by rewrite IH.
Qed.

Lemma removed_is_absent (r : registration) (regs : list registration) :
  r ∉ removeEventListener r regs.
Proof. unfold removeEventListener. intros [H _]%list_elem_of_filter. done. Qed.

Lemma removed_stays_absent (r x : registration) (regs : list registration) :
  r ∉ regs → r ∉ removeEventListener x regs.
Proof. unfold removeEventListener. intros Hr [_ H]%list_elem_of_filter. done. Qed.

Lemma remove_node_gone (d : document) (n p : node_id) :
  parentNode (node_of d n) = Some p →
  parentNode (node_of (remove_node n d) n) = None
  ∧ n ∉ childNodes (node_of (remove_node n d) p).
Proof.
  intros Hp. unfold remove_node. rewrite Hp. split.
  - by rewrite node_of_update_eq.
  - rewrite node_of_update. destruct (decide (n = p)) as [->|Hne]; simpl;
      rewrite node_of_update_eq; simpl;
      intros [H _]%list_elem_of_filter; done.
Qed.

Lemma remove_node_keeps_detached (d : document) (m n : node_id) :
  parentNode (node_of d n) = None →
  parentNode (node_of (remove_node m d) n) = None.
Proof.
  intros Hn. unfold remove_node.
  destruct (parentNode (node_of d m)) as [q|]; [|done].
  rewrite node_of_update. destruct (decide (m = n)) as [->|Hmn]; [done|].
  rewrite node_of_update. by destruct (decide (q = n)) as [->|].
Qed.

Lemma remove_node_keeps_gone (d : document) (m n p : node_id) :
  n ∉ childNodes (node_of d p) →
  n ∉ childNodes (node_of (remove_node m d) p).
Proof.
  intros Hn. unfold remove_node.
  destruct (parentNode (node_of d m)) as [q|]; [|done].
  assert (Hq : n ∉ childNodes (node_of (update_node
            (λ nd, with_childNodes (filter (λ c, c ≠ m) (childNodes nd)) nd) q d) p)).
  { rewrite node_of_update. destruct (decide (q = p)) as [->|]; [|done].
    simpl. intros [_ H]%list_elem_of_filter. done. }
  rewrite node_of_update. by destruct (decide (m = p)) as [->|].
Qed.

Lemma remove_node_parent_of_other (d : document) (m n : node_id) :
  m ≠ n →
  parentNode (node_of (remove_node m d) n) = parentNode (node_of d n).
Proof.
  intros Hmn. unfold remove_node.
  destruct (parentNode (node_of d m)) as [q|]; [|done].
  rewrite node_of_update_ne by done.
  rewrite node_of_update. by destruct (decide (q = n)) as [->|].
Qed.

(** After both removals, an overlay that had a parent has none, and the
    parent's children do not list it. *)
Lemma overlays_detached (d : document) (h o : option node_id) (n p : node_id) :
  h = Some n ∨ o = Some n →
  parentNode (node_of d n) = Some p →
  parentNode (node_of (remove_overlay o (remove_overlay h d)) n) = None
  ∧ n ∉ childNodes (node_of (remove_overlay o (remove_overlay h d)) p).
Proof.
  intros Hn Hp.
  assert (Hfirst : h = Some n →
    parentNode (node_of (remove_overlay h d) n) = None
    ∧ n ∉ childNodes (node_of (remove_overlay h d) p)).
  { intros ->. simpl. by apply remove_node_gone. }
  assert (Hlater : ∀ d',
    parentNode (node_of d' n) = None ∧ n ∉ childNodes (node_of d' p) →
    parentNode (node_of (remove_overlay o d') n) = None
    ∧ n ∉ childNodes (node_of (remove_overlay o d') p)).
  { intros d' [H1 H2]. destruct o as [m|]; simpl; [|done].
    split; [by apply remove_node_keeps_detached | by apply remove_node_keeps_gone]. }
  destruct (decide (h = Some n)) as [Hh|Hh]; [by apply Hlater, Hfirst|].
  destruct Hn as [Hn|Hn]; [done|]. subst o. simpl.
  apply remove_node_gone.
  destruct h as [m|]; simpl; [|done].
  rewrite remove_node_parent_of_other; [done | congruence].
Qed.

Section TeardownFacts.
Context {B : Browser}.

Lemma cleanup_run (s : engine) : cleanup s = Run (Normal tt) (torn_down s) [].
Proof.
  unfold cleanup, torn_down, remove_overlay. unfold_monad. run_monad.
  rewrite (bind_silent_run _ _ _ _ _ (stop_ready_interval_run _)). run_monad.
  engine_simpl.
  destruct (readyInterval s) as [t|] eqn:E1; engine_simpl;
    destruct (highlightOverlay s) as [h|] eqn:E2; run_monad; engine_simpl;
    destruct (selectionOverlay s) as [o|] eqn:E3; run_monad;
    unfold modify, set_initialized; engine_simpl;
    rewrite ?E1, ?E2, ?E3; reflexivity.
Qed.

Lemma torn_down_idem (s : engine) : torn_down (torn_down s) = torn_down s.
Proof.
  unfold torn_down at 1. simpl.
  rewrite (remove_absent (message_reg OnMessage)).
  - rewrite (remove_absent (message_reg OnAckMessage)); [done|].
    apply removed_is_absent.
  - apply removed_stays_absent, removed_is_absent.
Qed.

(** C3, as the code has it.  The teardown closure returns, removes both
    message listeners from the window, cancels and clears the retry
    interval, detaches both overlay nodes from the document and clears
    their references, and lowers the initialised flag.  Calling it again
    changes nothing. *)
Theorem teardown_releases (s : engine) :
  let r := call_teardown CleanupTeardown s in
  outcome r = Normal tt
  ∧ trace r = []
  ∧ (message_reg OnMessage ∉ windowListeners (final r))
  ∧ (message_reg OnAckMessage ∉ windowListeners (final r))
  ∧ readyInterval (final r) = None
  ∧ (∀ t, readyInterval s = Some t → timers (final r) !! t = None)
  ∧ highlightOverlay (final r) = None
  ∧ selectionOverlay (final r) = None
  ∧ (∀ n p, highlightOverlay s = Some n ∨ selectionOverlay s = Some n →
            parentNode (node_of (doc s) n) = Some p →
            parentNode (node_of (doc (final r)) n) = None
            ∧ (n ∉ childNodes (node_of (doc (final r)) p)))
  ∧ initialized (final r) = false
  ∧ call_teardown CleanupTeardown (final r) = Run (Normal tt) (final r) [].
Proof.
  assert (Hidem : cleanup (torn_down s) = Run (Normal tt) (torn_down s) [])
    by (by rewrite cleanup_run, torn_down_idem).
  intros r. subst r. cbn [call_teardown]. rewrite cleanup_run.
  cbn [outcome final trace].
  split; [reflexivity|]. split; [reflexivity|].
  split; [apply removed_stays_absent, removed_is_absent|].
  split; [apply removed_is_absent|].
  split; [reflexivity|].
  split; [intros t Ht; cbn [timers torn_down]; rewrite Ht; apply lookup_delete_eq|].
  split; [reflexivity|]. split; [reflexivity|].
  split; [intros n p Hn Hp; cbn [doc torn_down]; by apply overlays_detached|].
  split; [reflexivity|].
  exact Hidem.
Qed.

End TeardownFacts.

(** The claim C3 as written fails on the element references and the
    pointer listeners: after teardown the paragraph is still the selected
    and the last hovered element, and the three pointer listeners are
    still on the document. *)
Lemma teardown_keeps_selection :
  selectedElement torn_engine = Some 5
  ∧ lastHoveredElement torn_engine = Some 5
  ∧ documentListeners torn_engine = [mousemove_reg; click_reg; mouseleave_reg]
  ∧ ¬ (selectedElement torn_engine = None
       ∧ lastHoveredElement torn_engine = None
       ∧ documentListeners torn_engine = []).
Proof.
  split; [vm_compute; reflexivity|].
  split; [vm_compute; reflexivity|].
  split; [vm_compute; reflexivity|].
  intros (Hn & _). vm_compute in Hn. discriminate.
Qed.

(** * Further properties of the engine *)

(** ** Commands that are not understood *)

Section CommandFacts.
Context {B : Browser}.

(** X1. A message with no data, with an empty type or with a type the
    switch has no case for changes nothing and writes nothing; so does an
    apply command whose payload is missing or has no selector. *)
Theorem unknown_message_ignored (s : engine) (data : option EditModeMessage) :
  type_of data ∉ command_types →
  handleMessage data s = Run (Normal tt) s []
  ∧ (∀ ty, ty ∈ apply_types →
       handleMessage (Some (Message ty None)) s = Run (Normal tt) s []
       ∧ ∀ property value newText newSrc,
           handleMessage
             (Some (Message ty (Some (PayloadObject
                (Payload None property value newText newSrc))))) s
           = Run (Normal tt) s []).
Proof.
  intros Hty. split.
  - unfold handleMessage. destruct data as [[ty p]|]; [|done].
    cbn [type_of msg_type msg_payload] in *.
    destruct (negb (truthy ty)); [done|].
    unfold command_types in Hty.
    rewrite !bool_decide_eq_false_2
      by (intros ->; apply Hty; apply (bool_decide_unpack _); vm_compute; exact I).
    done.
  - intros ty Hin. unfold apply_types in Hin.
    repeat (apply elem_of_cons in Hin as [->|Hin]);
      [..| by apply elem_of_nil in Hin]; split; intros;
      unfold handleMessage; cbn [msg_type msg_payload truthy negb];
      by decide_strings.
Qed.

End CommandFacts.

Lemma unknown_message_ignored_witness :
  handleMessage (B := page_browser) (Some (Message "PING" None)) listening_engine
  = Run (Normal tt) listening_engine [].
Proof.
  assert (H : type_of (Some (Message "PING" None)) ∉ command_types).
  { apply (bool_decide_unpack _). vm_compute. exact I. }
  exact (proj1 (unknown_message_ignored (B := page_browser) listening_engine
                  (Some (Message "PING" None)) H)).
Defined.

(** ** Running straight-line code that writes *)

Lemma bind_run {A C} (m : M A) (k : A → M C) (s s1 : engine) (a : A) (t1 : list output) :
  m s = Run (Normal a) s1 t1 →
  bind m k s = Run (outcome (k a s1)) (final (k a s1)) (t1 ++ trace (k a s1)).
Proof. intros Hm. unfold bind. by rewrite Hm. Qed.

Lemma bind_emit_run {C} (o : output) (k : unit → M C) (s : engine) :
  bind (emit o) k s = Run (outcome (k tt s)) (final (k tt s)) (o :: trace (k tt s)).
Proof. done. Qed.

Lemma run_eta {A} (r : run A) : Run (outcome r) (final r) (trace r) = r.
Proof. by destruct r. Qed.

(** ** Pointer events while edit mode is off *)

Section InactiveFacts.
Context {B : Browser} (fuel : nat).

Lemma inactive_listener (s : engine) (ev : event) (l : listener) :
  isEditModeActive s = false →
  is_pointer_event ev = true →
  guarded (call_listener fuel ev l) s = Run (Normal tt) s [].
Proof.
  intros Hoff Hev. unfold guarded, try_catch.
  destruct l, ev; try discriminate; cbn [call_listener]; try done.
  - unfold handleMouseMove. unfold_monad. rewrite bind_get_run. by rewrite Hoff.
  - unfold handleClick. unfold_monad. rewrite bind_get_run. by rewrite Hoff.
  - unfold handleMouseLeave. unfold_monad. rewrite bind_get_run. by rewrite Hoff.
Qed.

Lemma inactive_dispatch (s : engine) (ev : event) (regs : list registration) :
  isEditModeActive s = false →
  is_pointer_event ev = true →
  dispatch fuel ev regs s = Run (Normal tt) s [].
Proof.
  intros Hoff Hev. induction regs as [|r rest IH]; [done|].
  cbn [dispatch]. unfold_monad.
  destruct (bool_decide _).
  - by rewrite (bind_silent_run _ _ _ _ _ (inactive_listener s ev _ Hoff Hev)).
  - by rewrite bind_ret_run.
Qed.

(** X2. While edit mode is off, pointer events do nothing: whatever
    listeners are still on the document, any sequence of moves, clicks and
    leaves returns with the state as it was and with nothing posted,
    logged or suppressed. *)
Theorem pointer_events_inert (s : engine) (evs : list event) :
  isEditModeActive s = false →
  forallb is_pointer_event evs = true →
  run_events fuel evs s = Run (Normal tt) s [].
Proof.
  intros Hoff Hevs. induction evs as [|ev rest IH]; [done|].
  cbn [forallb] in Hevs. apply andb_true_iff in Hevs as [Hev Hrest].
  cbn [run_events]. unfold_monad.
  assert (Hstep : step fuel ev s = Run (Normal tt) s []).
  { destruct ev; try discriminate; cbn [step]; unfold_monad;
      rewrite bind_get_run; by apply inactive_dispatch. }
  rewrite (bind_silent_run _ _ _ _ _ Hstep). by apply IH.
Qed.

End InactiveFacts.

Lemma pointer_events_inert_witness :
  run_events (B := page_browser) 4 [MouseMoveEvent 40 5; ClickEvent 5; MouseLeaveEvent]
    listening_engine
  = Run (Normal tt) listening_engine [].
Proof.
  assert (Hoff : isEditModeActive listening_engine = false)
    by (vm_compute; reflexivity).
  exact (pointer_events_inert (B := page_browser) 4 listening_engine
           [MouseMoveEvent 40 5; ClickEvent 5; MouseLeaveEvent] Hoff eq_refl).
Defined.

(** ** The retry timer and its deadline *)

Section TimerFacts.
Context {B : Browser} (fuel : nat).

Lemma sendReady_run (s : engine) :
  sendReady s
  = Run (Normal tt) s
        (if readyAcknowledged s then []
         else [ConsoleLog ["[VlibeEditMode] Sending EDIT_MODE_READY to parent"];
               PostMessage "EDIT_MODE_READY" None]).
Proof.
  unfold sendReady. unfold_monad. rewrite bind_get_run.
  by destruct (readyAcknowledged s).
Qed.

(** X3. When the callback of [setTimeout] runs, the retry interval is
    cancelled and its reference cleared, nothing is posted, and the
    acknowledged flag is left as it was; the interval's timer can no longer
    fire, so no further ready announcement comes from it. *)
Theorem deadline_stops_beacon (s : engine) (t : timer_id) :
  timers s !! t = Some ReadyDeadline →
  let r := step fuel (TimerFires t) s in
  outcome r = Normal tt
  ∧ trace r = []
  ∧ readyInterval (final r) = None
  ∧ readyAcknowledged (final r) = readyAcknowledged s
  ∧ timers (final r) !! t = None
  ∧ (∀ ti, readyInterval s = Some ti →
       timers (final r) !! ti = None
       ∧ step fuel (TimerFires ti) (final r) = Run (Normal tt) (final r) [])
  ∧ (∀ t', t' ≠ t → readyInterval s ≠ Some t' →
       timers (final r) !! t' = timers s !! t').
Proof.
  intros Ht r. unfold r. cbn [step]. unfold fire_timer. unfold_monad.
  rewrite bind_get_run, Ht. run_monad. rewrite stop_ready_interval_run.
  engine_simpl.
  destruct (readyInterval s) as [ti|] eqn:Hi; engine_simpl.
  - split; [done|]. split; [done|]. split; [done|]. split; [done|].
    assert (Hti : delete ti (delete t (timers s)) !! ti = None)
      by apply lookup_delete_eq.
    split; [|split].
    + destruct (decide (ti = t)) as [->|Hne]; [done|].
      rewrite lookup_delete_ne by done. apply lookup_delete_eq.
    + intros ? [= <-]. split; [done|].
      unfold fire_timer. unfold_monad. rewrite bind_get_run.
      engine_simpl. by rewrite Hti.
    + intros t' Hne Hne'. rewrite !lookup_delete_ne; [done | done | congruence].
  - split; [done|]. split; [done|]. split; [done|]. split; [done|].
    split; [apply lookup_delete_eq|]. split; [done|].
    intros t' Hne _. by rewrite lookup_delete_ne.
Qed.

(** X4. Every run of the interval callback while no acknowledgment has
    been seen posts exactly one ready announcement and changes nothing,
    so the announcement is repeated for as long as the timer lives. *)
Theorem retry_announces (s : engine) (t : timer_id) (n : nat) :
  timers s !! t = Some ReadyRetry →
  readyAcknowledged s = false →
  final (run_events fuel (replicate n (TimerFires t)) s) = s
  ∧ outcome (run_events fuel (replicate n (TimerFires t)) s) = Normal tt
  ∧ omap (λ o, match o with PostMessage ty _ => Some ty | _ => None end)
      (trace (run_events fuel (replicate n (TimerFires t)) s))
    = replicate n "EDIT_MODE_READY".
Proof.
  intros Ht Hack.
  assert (Hstep : step fuel (TimerFires t) s
                  = Run (Normal tt) s
                        [ConsoleLog ["[VlibeEditMode] Sending EDIT_MODE_READY to parent"];
                         PostMessage "EDIT_MODE_READY" None]).
  { cbn [step]. unfold fire_timer. unfold_monad.
    rewrite bind_get_run, Ht, sendReady_run. by rewrite Hack. }
  induction n as [|n (IH1 & IH2 & IH3)]; [done|].
  cbn [replicate run_events]. unfold_monad.
  rewrite (bind_run _ _ _ _ _ _ Hstep).
  cbn [final outcome trace]. rewrite IH1, IH2. split; [done|]. split; [done|].
  by rewrite omap_app, IH3.
Qed.

End TimerFacts.

Lemma deadline_stops_beacon_witness :
  readyInterval (final (step (B := page_browser) 4 (TimerFires 2) listening_engine)) = None.
Proof.
  assert (Ht : timers listening_engine !! 2 = Some ReadyDeadline)
    by (vm_compute; reflexivity).
  exact (proj1 (proj2 (proj2
    (deadline_stops_beacon (B := page_browser) 4 listening_engine 2 Ht)))).
Defined.

Lemma retry_announces_witness :
  final (run_events (B := page_browser) 4 (replicate 3 (TimerFires 1)) listening_engine)
  = listening_engine.
Proof.
  assert (Ht : timers listening_engine !! 1 = Some ReadyRetry)
    by (vm_compute; reflexivity).
  assert (Ha : readyAcknowledged listening_engine = false)
    by (vm_compute; reflexivity).
  exact (proj1 (retry_announces (B := page_browser) 4 listening_engine 1 3 Ht Ha)).
Defined.

(** ** The first initialisation *)

Lemma added_is_present (r : registration) (regs : list registration) :
  r ∈ addEventListener r regs.
Proof.
  unfold addEventListener. case_bool_decide; [done|].
  apply elem_of_app. right. by apply list_elem_of_singleton.
Qed.

Lemma added_keeps_present (r x : registration) (regs : list registration) :
  r ∈ regs → r ∈ addEventListener x regs.
Proof.
  intros Hr. unfold addEventListener. case_bool_decide; [done|].
  apply elem_of_app. by left.
Qed.

Lemma add_present (r : registration) (regs : list registration) :
  r ∈ regs → addEventListener r regs = regs.
Proof. intros Hr. unfold addEventListener. by rewrite bool_decide_eq_true_2. Qed.

Section InitRunFacts.
Context {B : Browser}.

Lemma set_timer_run (k : timer) (s : engine) :
  set_timer k s
  = Run (Normal (next_timer s))
        (set_next_timer (S (next_timer s))
           (set_timers (<[next_timer s := k]> (timers s)) s)) [].
Proof. unfold set_timer. unfold_monad. by run_monad. Qed.

(** X5. The first [initEditMode] on a page returns the cleanup closure,
    raises the initialised flag and stores the closure, registers both
    message listeners, starts the retry interval and the deadline under
    two new timer identifiers, and announces readiness once (not at all
    if an acknowledgment was seen before); the document and the edit mode
    flag are untouched. *)
Theorem first_init_sets_up (s : engine) :
  window_defined = true →
  initialized s = false →
  let r := initEditMode s in
  outcome r = Normal CleanupTeardown
  ∧ trace r
    = ((if readyAcknowledged s then []
        else [ConsoleLog ["[VlibeEditMode] Sending EDIT_MODE_READY to parent"];
              PostMessage "EDIT_MODE_READY" None])
       ++ [ConsoleLog ["[VlibeEditMode] Edit mode script initialized"]])%list
  ∧ initialized (final r) = true
  ∧ cleanupFn (final r) = Some CleanupTeardown
  ∧ (message_reg OnMessage ∈ windowListeners (final r))
  ∧ (message_reg OnAckMessage ∈ windowListeners (final r))
  ∧ readyInterval (final r) = Some (next_timer s)
  ∧ timers (final r) !! next_timer s = Some ReadyRetry
  ∧ timers (final r) !! S (next_timer s) = Some ReadyDeadline
  ∧ doc (final r) = doc s
  ∧ isEditModeActive (final r) = isEditModeActive s
  ∧ readyAcknowledged (final r) = readyAcknowledged s.
Proof.
  intros Hw Hi r. unfold r, initEditMode. rewrite Hw. cbn [negb]. unfold_monad.
  rewrite bind_get_run, Hi. run_monad.
  rewrite (bind_run _ _ _ _ _ _ (sendReady_run _)).
  rewrite bind_emit_run.
  rewrite (bind_silent_run _ _ _ _ _ (set_timer_run _ _)). run_monad.
  rewrite (bind_silent_run _ _ _ _ _ (set_timer_run _ _)). run_monad.
  unfold ret. engine_simpl.
  split; [done|]. split; [done|]. split; [done|]. split; [done|].
  split; [apply added_keeps_present, added_is_present|].
  split; [apply added_is_present|].
  split; [done|].
  split; [rewrite lookup_insert_ne by lia; apply lookup_insert_eq|].
  split; [apply lookup_insert_eq|].
  done.
Qed.

End InitRunFacts.

(** X6. Where there is no [window], [initEditMode] does nothing and hands
    back a teardown that does nothing either. *)
Theorem init_without_window (B : Browser) (s s' : engine) :
  window_defined = false →
  initEditMode s = Run (Normal NoopTeardown) s []
  ∧ call_teardown NoopTeardown s' = Run (Normal tt) s' [].
Proof. intros Hw. unfold initEditMode. by rewrite Hw. Qed.

Lemma first_init_sets_up_witness :
  outcome (initEditMode (B := page_browser) (initial_engine page))
  = Normal CleanupTeardown.
Proof.
  exact (proj1 (first_init_sets_up (B := page_browser) (initial_engine page)
                  eq_refl eq_refl)).
Defined.

Lemma init_without_window_witness :
  initEditMode (B := server_browser) (initial_engine page)
  = Run (Normal NoopTeardown) (initial_engine page) [].
Proof.
  exact (proj1 (init_without_window server_browser (initial_engine page)
                  (initial_engine page) eq_refl)).
Defined.

(** ** Image changes *)

Section ImageFacts.
Context {B : Browser}.


(** X7. [applyImageChange] always returns.  A selector that does not
    parse costs one [console.error] line and a selector that matches
    nothing costs nothing; the state is unchanged in both cases.  On a
    match, an [img] element gets the new source as its [src] and keeps its
    inline style.  For any other element the assignment of
    [url(<source>)] to [backgroundImage] goes to the style object of the
    element: where that throws, the state is unchanged and one
    [console.error] line is written; otherwise the inline style is what
    the style object made of the assignment, which reads [url(<source>)]
    where the declaration is stored as written, and the [src] is kept.
    No other node changes. *)
Theorem image_change_by_tag (s : engine) (sel newSrc : string) :
  let r := applyImageChange sel newSrc s in
  outcome r = Normal tt
  ∧ match querySelector (doc s) sel with
    | QSyntaxError =>
        final r = s
        ∧ trace r = [ConsoleError ["[VlibeEditMode] Failed to apply image:";
                                   error_text (SyntaxError sel)]]
    | QNoMatch => final r = s ∧ trace r = []
    | QFound e =>
        if bool_decide (toLowerCase (tagName (node_of (doc s) e)) = "img")
        then src (node_of (doc (final r)) e) = newSrc
             ∧ style (node_of (doc (final r)) e) = style (node_of (doc s) e)
             ∧ (∀ n, n ≠ e → nodes (doc (final r)) !! n = nodes (doc s) !! n)
             ∧ trace r = [ConsoleLog ["[VlibeEditMode] Applied image change to"; sel]]
        else
          match style_assign (style (node_of (doc s) e)) "backgroundImage"
                  ("url(" +:+ newSrc +:+ ")") with
          | None =>
              final r = s
              ∧ trace r = [ConsoleError ["[VlibeEditMode] Failed to apply image:";
                                         error_text (TypeError "backgroundImage")]]
          | Some st =>
              style (node_of (doc (final r)) e) = st
              ∧ (st = <["backgroundImage" := "url(" +:+ newSrc +:+ ")"]>
                        (style (node_of (doc s) e)) →
                 style (node_of (doc (final r)) e) !! "backgroundImage"
                 = Some ("url(" +:+ newSrc +:+ ")"))
              ∧ src (node_of (doc (final r)) e) = src (node_of (doc s) e)
              ∧ (∀ n, n ≠ e → nodes (doc (final r)) !! n = nodes (doc s) !! n)
              ∧ trace r = [ConsoleLog ["[VlibeEditMode] Applied image change to"; sel]]
          end
    end.
Proof.
  unfold applyImageChange, try_catch. unfold_monad.
  destruct (querySelector (doc s) sel) as [| |e] eqn:Hq.
  - by rewrite (bind_throw_run _ _ _ _ _ _ (query_error s sel Hq)).
  - by rewrite (bind_silent_run _ _ _ _ _ (query_none s sel Hq)).
  - rewrite (bind_silent_run _ _ _ _ _ (query_found s sel e Hq)).
    rewrite bind_get_run.
    destruct (bool_decide (toLowerCase (tagName (node_of (doc s) e)) = "img")).
    + rewrite bind_modify_run. cbn [emit outcome final trace doc set_doc].
      split; [done|]. split; [by rewrite node_of_update_eq|].
      split; [by rewrite node_of_update_eq|].
      split; [intros n Hn; by apply nodes_update_ne | done].
    + pose proof (assign_style_run e "backgroundImage" ("url(" +:+ newSrc +:+ ")") s)
        as Hrun.
      destruct (style_assign _ _ _) as [st|] eqn:Hst.
      * rewrite (bind_silent_run _ _ _ _ _ Hrun).
        cbn [emit outcome final trace doc set_doc].
        split; [done|]. split; [by rewrite node_of_update_eq|].
        split; [intros ->; rewrite node_of_update_eq; apply lookup_insert_eq|].
        split; [by rewrite node_of_update_eq|].
        split; [intros n Hn; by apply nodes_update_ne | done].
      * by rewrite (bind_throw_run _ _ _ _ _ _ Hrun).
Qed.

End ImageFacts.

(** ** Overlays *)

Lemma style_after_set_style (n m : node_id) (p q v : string) (d : document) :
  style (node_of (set_style n p v d) m) !! q
  = if decide (n = m ∧ p = q) then Some v else style (node_of d m) !! q.
Proof.
  unfold set_style. rewrite node_of_update.
  destruct (decide (n = m)) as [->|Hn]; cbn [style with_style].
  - destruct (decide (p = q)) as [->|Hp].
    + rewrite lookup_insert_eq. by rewrite decide_True.
    + rewrite lookup_insert_ne by done. rewrite decide_False; [done | tauto].
  - rewrite decide_False; [done | tauto].
Qed.

Lemma set_selectionOverlay_same (s : engine) (o : node_id) :
  selectionOverlay s = Some o → set_selectionOverlay (Some o) s = s.
Proof. destruct s. cbn. by intros ->. Qed.

Lemma set_highlightOverlay_same (s : engine) (h : node_id) :
  highlightOverlay s = Some h → set_highlightOverlay (Some h) s = s.
Proof. destruct s. cbn. by intros ->. Qed.

Section OverlayFacts.
Context {B : Browser}.

Lemma place_overlay_run (o e : node_id) (s : engine) :
  ∃ d', place_overlay o e s = Run (Normal tt) (set_doc d' s) []
        ∧ style (node_of d' o) !! "display" = Some "block"
        ∧ body d' = body (doc s).
Proof.
  unfold place_overlay. unfold_monad. run_monad.
  eexists. split; [reflexivity|]. split; [|done].
  engine_simpl. rewrite !style_after_set_style.
  repeat (rewrite decide_False by (intros [_ ?]; discriminate)).
  by rewrite decide_True.
Qed.

Lemma createHighlightOverlay_fresh (s : engine) :
  highlightOverlay s = None →
  createHighlightOverlay s
  = Run (Normal (fresh_node (doc s)))
        (set_doc
           (appendChild (body (doc s)) (fresh_node (doc s))
              (set_cssText (fresh_node (doc s)) highlight_css
                 (update_node (with_elem_id HIGHLIGHT_ID) (fresh_node (doc s))
                    (fst (createElement "DIV" (doc s))))))
           (set_highlightOverlay (Some (fresh_node (doc s))) s)) [].
Proof.
  intros Ho. unfold createHighlightOverlay, createElement. unfold_monad.
  run_monad. rewrite Ho. run_monad. reflexivity.
Qed.

Lemma createHighlightOverlay_existing (s : engine) (h : node_id) :
  highlightOverlay s = Some h → createHighlightOverlay s = Run (Normal h) s [].
Proof.
  intros Ho. unfold createHighlightOverlay. unfold_monad.
  rewrite bind_get_run. by rewrite Ho.
Qed.

Lemma createSelectionOverlay_existing (s : engine) (o : node_id) :
  selectionOverlay s = Some o → createSelectionOverlay s = Run (Normal o) s [].
Proof.
  intros Ho. unfold createSelectionOverlay. unfold_monad.
  rewrite bind_get_run. by rewrite Ho.
Qed.

(** The style and the place of a node that was just made an overlay. *)
Lemma new_overlay_node (d : document) (css : list (string * string)) (name : string) :
  let o := fresh_node d in
  let d' := appendChild (body d) o
              (set_cssText o css
                 (update_node (with_elem_id name) o (fst (createElement "DIV" d)))) in
  style (node_of d' o) = list_to_map css
  ∧ elem_id (node_of d' o) = name
  ∧ tagName (node_of d' o) = "DIV"
  ∧ nodeType (node_of d' o) = ELEMENT_NODE
  ∧ parentNode (node_of d' o) = Some (body d)
  ∧ o ∈ childNodes (node_of d' (body d))
  ∧ body d' = body d
  ∧ (∀ n, n ≠ o → n ≠ body d → nodes d' !! n = nodes d !! n).
Proof.
  intros o d'.
  set (d2 := set_cssText o css
               (update_node (with_elem_id name) o (fst (createElement "DIV" d)))).
  assert (H2 : node_of d2 o
               = Node ELEMENT_NODE "DIV" name (ClassString "") "" (list_to_map css) "" None []).
  { unfold d2, set_cssText. rewrite !node_of_update_eq.
    unfold createElement. cbn [fst]. fold o. rewrite node_of_set.
    by rewrite decide_True. }
  assert (Hrm : remove_node o d2 = d2).
  { unfold remove_node. by rewrite H2. }
  assert (Ho : node_of d' o
               = with_parentNode (Some (body d))
                   (if decide (body d = o)
                    then with_childNodes (childNodes (node_of d2 o) ++ [o]) (node_of d2 o)
                    else node_of d2 o)).
  { unfold d', appendChild. fold d2. rewrite Hrm.
    rewrite node_of_update_eq. f_equal. rewrite node_of_update.
    destruct (decide (body d = o)) as [Heq|Hne]; [by rewrite Heq|done]. }
  split; [rewrite Ho; destruct (decide _); by rewrite H2|].
  split; [rewrite Ho; destruct (decide _); by rewrite H2|].
  split; [rewrite Ho; destruct (decide _); by rewrite H2|].
  split; [rewrite Ho; destruct (decide _); by rewrite H2|].
  split; [by rewrite Ho|].
  split; [apply appendChild_lists|].
  split; [unfold d', appendChild; fold d2; by rewrite Hrm|].
  intros n Hn Hb. unfold d', appendChild. fold d2. rewrite Hrm.
  rewrite nodes_update_ne by done. rewrite nodes_update_ne by done.
  unfold d2, set_cssText. rewrite !nodes_update_ne by done.
  unfold createElement, set_node. cbn [fst nodes]. fold o.
  by rewrite lookup_insert_ne.
Qed.

(** X8. The overlay factories make their node once.  The first call
    allocates a new [div], gives it the fixed identifier and the style of
    the source (fixed position, no pointer events, hidden), and appends it
    to the body without touching any other node; every later call hands
    back that same node and changes nothing. *)
Theorem overlay_factories_make_one (s : engine) :
  let r := createHighlightOverlay s in
  let q := createSelectionOverlay s in
  (∀ h, outcome r = Normal h →
     highlightOverlay (final r) = Some h
     ∧ createHighlightOverlay (final r) = Run (Normal h) (final r) [])
  ∧ (∀ o, outcome q = Normal o →
     selectionOverlay (final q) = Some o
     ∧ createSelectionOverlay (final q) = Run (Normal o) (final q) [])
  ∧ (highlightOverlay s = None →
     outcome r = Normal (fresh_node (doc s))
     ∧ elem_id (node_of (doc (final r)) (fresh_node (doc s))) = HIGHLIGHT_ID
     ∧ style (node_of (doc (final r)) (fresh_node (doc s))) = list_to_map highlight_css
     ∧ fresh_node (doc s) ∈ childNodes (node_of (doc (final r)) (body (doc s)))
     ∧ (∀ n, n ≠ fresh_node (doc s) → n ≠ body (doc s) →
          nodes (doc (final r)) !! n = nodes (doc s) !! n))
  ∧ (selectionOverlay s = None →
     outcome q = Normal (fresh_node (doc s))
     ∧ elem_id (node_of (doc (final q)) (fresh_node (doc s))) = SELECTION_ID
     ∧ style (node_of (doc (final q)) (fresh_node (doc s))) = list_to_map selection_css
     ∧ fresh_node (doc s) ∈ childNodes (node_of (doc (final q)) (body (doc s)))
     ∧ (∀ n, n ≠ fresh_node (doc s) → n ≠ body (doc s) →
          nodes (doc (final q)) !! n = nodes (doc s) !! n)).
Proof.
  intros r q. unfold r, q. split; [|split; [|split]].
  - intros h Hh. destruct (highlightOverlay s) as [h0|] eqn:Ho.
    + rewrite (createHighlightOverlay_existing s h0 Ho) in *.
      cbn [outcome final] in *. injection Hh as <-.
      split; [done | by apply createHighlightOverlay_existing].
    + rewrite (createHighlightOverlay_fresh s Ho) in *.
      cbn [outcome final] in *. injection Hh as <-.
      split; [done | by apply createHighlightOverlay_existing].
  - intros o Hq. destruct (selectionOverlay s) as [o0|] eqn:Ho.
    + rewrite (createSelectionOverlay_existing s o0 Ho) in *.
      cbn [outcome final] in *. injection Hq as <-.
      split; [done | by apply createSelectionOverlay_existing].
    + rewrite (createSelectionOverlay_fresh s Ho) in *.
      cbn [outcome final] in *. injection Hq as <-.
      split; [done | by apply createSelectionOverlay_existing].
  - intros Ho. rewrite (createHighlightOverlay_fresh s Ho).
    cbn [outcome final doc set_doc].
    destruct (new_overlay_node (doc s) highlight_css HIGHLIGHT_ID)
      as (H1 & H2 & _ & _ & _ & H6 & _ & H8).
    done.
  - intros Ho. rewrite (createSelectionOverlay_fresh s Ho).
    cbn [outcome final doc set_doc].
    destruct (new_overlay_node (doc s) selection_css SELECTION_ID)
      as (H1 & H2 & _ & _ & _ & H6 & _ & H8).
    done.
Qed.

End OverlayFacts.

(** ** Clicks *)

Section ClickFacts.
Context {B : Browser} (fuel : nat).

(** What [updateSelectionOverlay] does for an element: the overlay is
    there afterwards and shown, and only the overlay reference and the
    document have changed. *)
Lemma updateSelectionOverlay_shown (e : node_id) (s : engine) :
  ∃ o d', updateSelectionOverlay (Some e) s
          = Run (Normal tt) (set_selectionOverlay (Some o) (set_doc d' s)) []
          ∧ style (node_of d' o) !! "display" = Some "block".
Proof.
  unfold updateSelectionOverlay. unfold_monad. rewrite bind_get_run.
  destruct (selectionOverlay s) as [o|] eqn:Ho.
  - rewrite bool_decide_eq_false_2 by done. run_monad. rewrite Ho.
    destruct (place_overlay_run o e s) as (d' & Hrun & Hshown & _).
    exists o, d'. split; [|done].
    rewrite Hrun. f_equal. rewrite set_selectionOverlay_same; done.
  - rewrite bool_decide_eq_true_2 by done. run_monad.
    rewrite (bind_silent_run _ _ _ _ _ (createSelectionOverlay_fresh s Ho)).
    run_monad. engine_simpl.
    destruct (place_overlay_run (fresh_node (doc s)) e
                (set_doc
                   (appendChild (body (doc s)) (fresh_node (doc s))
                      (set_cssText (fresh_node (doc s)) selection_css
                         (update_node (with_elem_id SELECTION_ID)
                            (fresh_node (doc s))
                            (fst (createElement "DIV" (doc s))))))
                   (set_selectionOverlay (Some (fresh_node (doc s))) s)))
      as (d' & Hrun & Hshown & _).
    exists (fresh_node (doc s)), d'. split; [|done].
    rewrite Hrun. reflexivity.
Qed.

(** X9. A click on either overlay, met while edit mode is on, is
    swallowed: the default action and the propagation are suppressed,
    nothing is posted and the state, the selection included, is as it
    was. *)
Theorem click_on_overlay_swallowed (s : engine) (target : node_id) :
  isEditModeActive s = true →
  Some target = highlightOverlay s ∨ Some target = selectionOverlay s
  ∨ elem_id (node_of (doc s) target) = HIGHLIGHT_ID
  ∨ elem_id (node_of (doc s) target) = SELECTION_ID →
  handleClick fuel target s = Run (Normal tt) s [PreventDefault; StopPropagation].
Proof.
  intros Hon Hov.
  assert (Hskip : skipped_on_click s target = true).
  { unfold skipped_on_click. rewrite !orb_true_iff, !bool_decide_eq_true. tauto. }
  unfold handleClick. unfold_monad. rewrite bind_get_run, Hon. cbn [negb].
  rewrite !bind_emit_run, Hskip. reflexivity.
Qed.

(** X10. A click on any other element, met while edit mode is on, makes
    that element the selected one, whatever was selected before, and shows
    the selection overlay; the hover state and the edit mode flag stay.
    When the descriptor can be computed, [getSelectedElementInfo] called
    next returns it.  If the class name of the target is a string, the
    click suppresses the default action and the propagation, posts
    [ELEMENT_CLICKED] with the descriptor and returns.  If it is an
    object, as on an SVG element, the descriptor cannot be cloned: the
    click suppresses the default action and the propagation, posts
    nothing and ends in a [DataCloneError], with the selection made. *)
Theorem click_selects (s : engine) (target : node_id) :
  isEditModeActive s = true →
  skipped_on_click s target = false →
  let r := handleClick fuel target s in
  selectedElement (final r) = Some target
  ∧ lastHoveredElement (final r) = lastHoveredElement s
  ∧ isEditModeActive (final r) = true
  ∧ (∃ o, selectionOverlay (final r) = Some o
          ∧ style (node_of (doc (final r)) o) !! "display" = Some "block")
  ∧ (∀ i, getElementInfo fuel (doc (final r)) (Some target) = Some (Some i) →
       getSelectedElementInfo fuel (final r) = Run (Normal (Some i)) (final r) []
       ∧ match className (node_of (doc (final r)) target) with
         | ClassString _ =>
             outcome r = Normal tt
             ∧ trace r = [PreventDefault; StopPropagation;
                          PostMessage "ELEMENT_CLICKED" (Some i)]
         | ClassAnimated _ =>
             outcome r = Throw (DataCloneError "ELEMENT_CLICKED")
             ∧ trace r = [PreventDefault; StopPropagation]
         end).
Proof.
  intros Hon Hskip r. unfold r, handleClick. unfold_monad.
  rewrite bind_get_run, Hon. cbn [negb].
  rewrite !bind_emit_run, Hskip. rewrite bind_modify_run.
  destruct (updateSelectionOverlay_shown target (set_selectedElement (Some target) s))
    as (o & d' & Hupd & Hshown).
  rewrite (bind_silent_run _ _ _ _ _ Hupd). rewrite bind_get_run.
  set (s2 := set_selectionOverlay (Some o) (set_doc d' (set_selectedElement (Some target) s))).
  assert (Hfinal : ∀ k : option ElementInfo → M unit,
            (∀ a s', final (k a s') = s') →
            final (bind (walk (getElementInfo fuel (doc s2) (Some target))) k s2) = s2).
  { intros k Hk. unfold bind, walk.
    destruct (getElementInfo fuel (doc s2) (Some target)); [|done].
    cbn [final]. apply Hk. }
  cbn [final outcome trace].
  rewrite Hfinal by (intros [i|] ?; [by destruct (cloneable i) | done]).
  split; [done|]. split; [done|]. split; [done|].
  split; [by exists o|].
  intros i Hi. change (doc s2) with d' in Hi |- *.
  split.
  { unfold getSelectedElementInfo. unfold_monad. rewrite bind_get_run.
    change (selectedElement s2) with (Some target). cbv iota.
    change (doc s2) with d'. by rewrite Hi. }
  pose proof (cloneable_className fuel d' target i Hi) as Hclone.
  unfold bind, walk. change (doc s2) with d'. rewrite Hi. cbv beta iota.
  rewrite Hclone. by destruct (className (node_of d' target)).
Qed.

End ClickFacts.

Lemma click_on_overlay_swallowed_witness :
  handleClick (B := page_browser) 4 10 selecting_engine
  = Run (Normal tt) selecting_engine [PreventDefault; StopPropagation].
Proof.
  assert (Hon : isEditModeActive selecting_engine = true) by (vm_compute; reflexivity).
  assert (Hov : Some 10 = highlightOverlay selecting_engine
                ∨ Some 10 = selectionOverlay selecting_engine
                ∨ elem_id (node_of (doc selecting_engine) 10) = HIGHLIGHT_ID
                ∨ elem_id (node_of (doc selecting_engine) 10) = SELECTION_ID).
  { right. left. vm_compute. reflexivity. }
  exact (click_on_overlay_swallowed (B := page_browser) 4 selecting_engine 10 Hon Hov).
Defined.

Lemma click_selects_witness :
  selectedElement (final (handleClick (B := page_browser) 4 3 selecting_engine))
  = Some 3.
Proof.
  assert (Hon : isEditModeActive selecting_engine = true) by (vm_compute; reflexivity).
  assert (Hsk : skipped_on_click selecting_engine 3 = false) by (vm_compute; reflexivity).
  exact (proj1 (click_selects (B := page_browser) 4 selecting_engine 3 Hon Hsk)).
Defined.

(** ** Hover *)

Lemma Qltb_ge (a b : Q) : Qltb a b = false ↔ (b <= a)%Q.
Proof.
  unfold Qltb. rewrite negb_false_iff. apply Qle_bool_iff.
Qed.

Section HoverRunFacts.
Context {B : Browser} (fuel : nat).

Lemma updateHighlight_run (e : node_id) (s : engine) :
  ∃ d', updateHighlight (Some e) s = Run (Normal tt) (set_doc d' s) []
        ∧ (∀ h, highlightOverlay s = Some h →
             style (node_of d' h) !! "display" = Some "block").
Proof.
  unfold updateHighlight. unfold_monad. rewrite bind_get_run.
  destruct (highlightOverlay s) as [h|] eqn:Hh.
  - destruct (place_overlay_run h e s) as (d' & Hrun & Hshown & _).
    exists d'. split; [done|]. by intros ? [= <-].
  - exists (doc s). split; [by rewrite set_doc_same | done].
Qed.

(** Nothing to track: the element is the hover target already, or it is
    one the engine skips. *)
Lemma track_hover_quiet (s : engine) (target : node_id) :
  lastHoveredElement s = Some target
  ∨ tagName (node_of (doc s) target) = "HTML"
  ∨ tagName (node_of (doc s) target) = "BODY"
  ∨ Some target = highlightOverlay s
  ∨ Some target = selectionOverlay s
  ∨ elem_id (node_of (doc s) target) = HIGHLIGHT_ID
  ∨ elem_id (node_of (doc s) target) = SELECTION_ID →
  track_hover fuel target s = Run (Normal tt) s [].
Proof.
  intros Hcase. unfold track_hover. unfold_monad. rewrite bind_get_run.
  destruct (skipped_on_move s target) eqn:Hskip; [done|].
  destruct Hcase as [Hsame|Hskipped].
  - rewrite Hsame. by rewrite bool_decide_eq_true_2.
  - exfalso. unfold skipped_on_move in Hskip.
    rewrite !orb_false_iff, !bool_decide_eq_false in Hskip. tauto.
Qed.

(** X11. A move over the element that is already the hover target, over
    [html] or [body], or over an overlay reports nothing: the handler
    returns with an empty trace, and the state is either untouched or
    differs only in the time stamp of the throttle, which such a move
    still takes when it passes the throttle. *)
Theorem move_without_news (s : engine) (now : Q) (target : node_id) :
  lastHoveredElement s = Some target
  ∨ tagName (node_of (doc s) target) = "HTML"
  ∨ tagName (node_of (doc s) target) = "BODY"
  ∨ Some target = highlightOverlay s
  ∨ Some target = selectionOverlay s
  ∨ elem_id (node_of (doc s) target) = HIGHLIGHT_ID
  ∨ elem_id (node_of (doc s) target) = SELECTION_ID →
  let r := handleMouseMove fuel now target s in
  outcome r = Normal tt
  ∧ trace r = []
  ∧ (final r = s ∨ final r = set_lastFrameTime now s)
  ∧ (isEditModeActive s = true → (FRAME_DELAY <= now - lastFrameTime s)%Q →
     final r = set_lastFrameTime now s).
Proof.
  intros Hcase r. unfold r. rewrite handleMouseMove_cases.
  assert (Htrack : track_hover fuel target (set_lastFrameTime now s)
                   = Run (Normal tt) (set_lastFrameTime now s) [])
    by (by apply track_hover_quiet).
  destruct (negb (isEditModeActive s)) eqn:Hon.
  { repeat split; [by left|]. intros Hact. rewrite Hact in Hon. discriminate. }
  destruct (Qltb (now - lastFrameTime s) FRAME_DELAY) eqn:Hlt.
  { repeat split; [by left|]. intros _ Hge%Qltb_ge. congruence. }
  rewrite Htrack. repeat split; by right.
Qed.

(** X12. A move that passes the throttle while edit mode is on, over an
    element that is neither skipped nor the current hover target, makes
    that element the hover target, stamps the clock reading and shows the
    highlight overlay where it exists; the selection is untouched.  When
    the descriptor can be computed and the class name of the target is a
    string, exactly one [ELEMENT_HOVERED] message with the descriptor is
    posted and the handler returns.  When the class name is an object, as
    on an SVG element, the descriptor cannot be cloned: nothing is posted
    and the handler ends in a [DataCloneError].  Either way a later move
    over the same element posts nothing. *)
Theorem move_reports_new_target (s : engine) (now : Q) (target : node_id) :
  isEditModeActive s = true →
  (FRAME_DELAY <= now - lastFrameTime s)%Q →
  skipped_on_move s target = false →
  lastHoveredElement s ≠ Some target →
  let r := handleMouseMove fuel now target s in
  lastHoveredElement (final r) = Some target
  ∧ lastFrameTime (final r) = now
  ∧ selectedElement (final r) = selectedElement s
  ∧ (∀ h, highlightOverlay s = Some h →
       highlightOverlay (final r) = Some h
       ∧ style (node_of (doc (final r)) h) !! "display" = Some "block")
  ∧ (∀ i, getElementInfo fuel (doc (final r)) (Some target) = Some (Some i) →
       match className (node_of (doc (final r)) target) with
       | ClassString _ =>
           outcome r = Normal tt
           ∧ trace r = [PostMessage "ELEMENT_HOVERED" (Some i)]
       | ClassAnimated _ =>
           outcome r = Throw (DataCloneError "ELEMENT_HOVERED")
           ∧ trace r = []
       end)
  ∧ (∀ later, trace (handleMouseMove fuel later target (final r)) = []).
Proof.
  intros Hon Hge%Qltb_ge Hskip Hnew r.
  assert (Hfacts :
    lastHoveredElement (final r) = Some target
    ∧ lastFrameTime (final r) = now
    ∧ selectedElement (final r) = selectedElement s
    ∧ (∀ h, highlightOverlay s = Some h →
         highlightOverlay (final r) = Some h
         ∧ style (node_of (doc (final r)) h) !! "display" = Some "block")
    ∧ (∀ i, getElementInfo fuel (doc (final r)) (Some target) = Some (Some i) →
         match className (node_of (doc (final r)) target) with
         | ClassString _ =>
             outcome r = Normal tt
             ∧ trace r = [PostMessage "ELEMENT_HOVERED" (Some i)]
         | ClassAnimated _ =>
             outcome r = Throw (DataCloneError "ELEMENT_HOVERED")
             ∧ trace r = []
         end)).
  { unfold r. rewrite handleMouseMove_cases, Hon, Hge. cbn [negb].
    unfold track_hover. unfold_monad. rewrite bind_get_run.
    change (skipped_on_move (set_lastFrameTime now s) target)
      with (skipped_on_move s target). rewrite Hskip.
    engine_simpl. rewrite bool_decide_eq_false_2 by congruence.
    rewrite bind_modify_run.
    destruct (updateHighlight_run target
                (set_lastHoveredElement (Some target) (set_lastFrameTime now s)))
      as (d' & Hupd & Hshown).
    rewrite (bind_silent_run _ _ _ _ _ Hupd). rewrite bind_get_run.
    set (s2 := set_doc d' (set_lastHoveredElement (Some target)
                             (set_lastFrameTime now s))).
    assert (Hfinal : ∀ k : option ElementInfo → M unit,
              (∀ a s', final (k a s') = s') →
              final (bind (walk (getElementInfo fuel (doc s2) (Some target))) k s2)
              = s2).
    { intros k Hk. unfold bind, walk.
      destruct (getElementInfo fuel (doc s2) (Some target)); [|done].
      cbn [final]. apply Hk. }
    rewrite Hfinal by (intros [i|] ?; [by destruct (cloneable i) | done]).
    split; [done|]. split; [done|]. split; [done|].
    split; [intros h Hh; split; [done | by apply Hshown]|].
    intros i Hi. change (doc s2) with d' in Hi |- *.
    pose proof (cloneable_className fuel d' target i Hi) as Hclone.
    unfold bind, walk. change (doc s2) with d'. rewrite Hi. cbv beta iota.
    rewrite Hclone. by destruct (className (node_of d' target)). }
  destruct Hfacts as (H1 & H2 & H3 & H4 & H5).
  split; [done|]. split; [done|]. split; [done|]. split; [done|]. split; [done|].
  intros later. rewrite handleMouseMove_cases.
  destruct (negb (isEditModeActive (final r))); [done|].
  destruct (Qltb (later - lastFrameTime (final r)) FRAME_DELAY); [done|].
  rewrite track_hover_quiet; [done|]. by left.
Qed.

(** X13. When the pointer leaves while edit mode is on, the hover target
    is forgotten, the highlight overlay is hidden where it exists, and
    exactly one [ELEMENT_UNHOVERED] message is posted; the selection and
    every node but the highlight overlay are as before. *)
Theorem leave_unhovers (s : engine) :
  isEditModeActive s = true →
  let r := handleMouseLeave s in
  outcome r = Normal tt
  ∧ trace r = [PostMessage "ELEMENT_UNHOVERED" None]
  ∧ lastHoveredElement (final r) = None
  ∧ selectedElement (final r) = selectedElement s
  ∧ selectionOverlay (final r) = selectionOverlay s
  ∧ (∀ h, highlightOverlay s = Some h →
       style (node_of (doc (final r)) h) !! "display" = Some "none"
       ∧ ∀ n, n ≠ h → nodes (doc (final r)) !! n = nodes (doc s) !! n)
  ∧ (highlightOverlay s = None → doc (final r) = doc s).
Proof.
  intros Hon r. unfold r, handleMouseLeave. unfold_monad.
  rewrite bind_get_run, Hon. cbn [negb]. rewrite bind_modify_run.
  destruct (highlightOverlay s) as [h|] eqn:Hh.
  - rewrite bind_modify_run.
    cbn [emit outcome final trace]. engine_simpl.
    split; [done|]. split; [done|]. split; [done|]. split; [done|].
    split; [done|]. split; [|done].
    intros ? [= <-]. split.
    + rewrite style_after_set_style. by rewrite decide_True.
    + intros n Hn. unfold set_style. by apply nodes_update_ne.
  - rewrite bind_ret_run. cbn [emit outcome final trace]. engine_simpl.
    split; [done|]. split; [done|]. split; [done|]. split; [done|].
    split; [done|]. split; done.
Qed.

End HoverRunFacts.

Lemma move_without_news_witness :
  trace (handleMouseMove (B := page_browser) 4 60 5 hovering_engine) = [].
Proof.
  assert (H : lastHoveredElement hovering_engine = Some 5) by (vm_compute; reflexivity).
  exact (proj1 (proj2 (move_without_news (B := page_browser) 4 hovering_engine
                         60 5 (or_introl H)))).
Defined.

Lemma move_reports_new_target_witness :
  lastHoveredElement (final (handleMouseMove (B := page_browser) 4 60 3 hovering_engine))
  = Some 3.
Proof.
  assert (Hon : isEditModeActive hovering_engine = true) by (vm_compute; reflexivity).
  assert (Hge : (FRAME_DELAY <= 60 - lastFrameTime hovering_engine)%Q)
    by (vm_compute; discriminate).
  assert (Hsk : skipped_on_move hovering_engine 3 = false) by (vm_compute; reflexivity).
  assert (Hne : lastHoveredElement hovering_engine ≠ Some 3)
    by (vm_compute; discriminate).
  exact (proj1 (move_reports_new_target (B := page_browser) 4 hovering_engine
                  60 3 Hon Hge Hsk Hne)).
Defined.

Lemma leave_unhovers_witness :
  trace (handleMouseLeave hovering_engine) = [PostMessage "ELEMENT_UNHOVERED" None].
Proof.
  assert (Hon : isEditModeActive hovering_engine = true) by (vm_compute; reflexivity).
  exact (proj1 (proj2 (leave_unhovers hovering_engine Hon))).
Defined.

(** ** Switching edit mode on and off *)

Lemma set_isEditModeActive_same (s : engine) (b : bool) :
  isEditModeActive s = b → set_isEditModeActive b s = s.
Proof. destruct s. cbn. by intros ->. Qed.

Lemma set_documentListeners_same (s : engine) :
  set_documentListeners (documentListeners s) s = s.
Proof. by destruct s. Qed.

Lemma added_no_dup (r : registration) (regs : list registration) :
  NoDup regs → NoDup (addEventListener r regs).
Proof.
  intros Hnd. unfold addEventListener. case_bool_decide as Hin; [done|].
  apply NoDup_app. split; [done|]. split; [|apply NoDup_singleton].
  intros x Hx ->%list_elem_of_singleton. done.
Qed.

Section ModeFacts.
Context {B : Browser} (fuel : nat).

Lemma createHighlightOverlay_shape (s : engine) :
  ∃ h d', createHighlightOverlay s
          = Run (Normal h) (set_highlightOverlay (Some h) (set_doc d' s)) []
          ∧ body d' = body (doc s).
Proof.
  destruct (highlightOverlay s) as [h|] eqn:Ho.
  - exists h, (doc s). split; [|done].
    rewrite (createHighlightOverlay_existing s h Ho).
    by rewrite set_doc_same, set_highlightOverlay_same.
  - eexists _, _. split; [by apply createHighlightOverlay_fresh|].
    by destruct (new_overlay_node (doc s) highlight_css HIGHLIGHT_ID)
      as (_ & _ & _ & _ & _ & _ & Hb & _).
Qed.

Lemma createSelectionOverlay_shape (s : engine) :
  ∃ o d', createSelectionOverlay s
          = Run (Normal o) (set_selectionOverlay (Some o) (set_doc d' s)) []
          ∧ body d' = body (doc s).
Proof.
  destruct (selectionOverlay s) as [o|] eqn:Ho.
  - exists o, (doc s). split; [|done].
    rewrite (createSelectionOverlay_existing s o Ho).
    by rewrite set_doc_same, set_selectionOverlay_same.
  - eexists _, _. split; [by apply createSelectionOverlay_fresh|].
    by destruct (new_overlay_node (doc s) selection_css SELECTION_ID)
      as (_ & _ & _ & _ & _ & _ & Hb & _).
Qed.

(** A state that has all [enableEditMode] sets up is left alone by it. *)
Lemma enableEditMode_fixed (s : engine) (h o : node_id) (nd : node) :
  isEditModeActive s = true →
  highlightOverlay s = Some h →
  selectionOverlay s = Some o →
  nodes (doc s) !! body (doc s) = Some nd →
  style nd !! "cursor" = Some "crosshair" →
  mousemove_reg ∈ documentListeners s →
  click_reg ∈ documentListeners s →
  mouseleave_reg ∈ documentListeners s →
  enableEditMode s = Run (Normal tt) s [ENABLING].
Proof.
  intros Hon Hh Ho Hb Hc Hm Hk Hl. unfold enableEditMode. unfold_monad.
  rewrite bind_emit_run, bind_modify_run.
  rewrite (set_isEditModeActive_same s true Hon).
  rewrite (bind_silent_run _ _ _ _ _ (createHighlightOverlay_existing s h Hh)).
  rewrite (bind_silent_run _ _ _ _ _ (createSelectionOverlay_existing s o Ho)).
  rewrite bind_modify_run.
  rewrite (set_style_same _ _ _ _ _ Hb Hc), set_doc_same.
  rewrite bind_modify_run, (add_present _ _ Hm), set_documentListeners_same.
  rewrite bind_modify_run, (add_present _ _ Hk), set_documentListeners_same.
  unfold modify. by rewrite (add_present _ _ Hl), set_documentListeners_same.
Qed.

(** What [enableEditMode] leaves, field by field. *)
Lemma enableEditMode_run (s : engine) :
  ∃ f h o d2, enableEditMode s = Run (Normal tt) f [ENABLING]
    ∧ isEditModeActive f = true
    ∧ highlightOverlay f = Some h
    ∧ selectionOverlay f = Some o
    ∧ body d2 = body (doc s)
    ∧ doc f = set_style (body (doc s)) "cursor" "crosshair" d2
    ∧ documentListeners f
      = addEventListener mouseleave_reg
          (addEventListener click_reg
             (addEventListener mousemove_reg (documentListeners s)))
    ∧ windowListeners f = windowListeners s
    ∧ selectedElement f = selectedElement s
    ∧ lastHoveredElement f = lastHoveredElement s.
Proof.
  destruct (createHighlightOverlay_shape (set_isEditModeActive true s))
    as (h & d1 & Hrun1 & Hb1).
  destruct (createSelectionOverlay_shape
              (set_highlightOverlay (Some h) (set_doc d1 (set_isEditModeActive true s))))
    as (o & d2 & Hrun2 & Hb2).
  cbn [doc set_doc set_isEditModeActive set_highlightOverlay] in Hb1, Hb2.
  eexists _, h, o, d2. split.
  - unfold enableEditMode. unfold_monad.
    rewrite bind_emit_run, bind_modify_run.
    rewrite (bind_silent_run _ _ _ _ _ Hrun1).
    rewrite (bind_silent_run _ _ _ _ _ Hrun2).
    rewrite !bind_modify_run. unfold modify. engine_simpl.
    rewrite Hb2, Hb1. reflexivity.
  - engine_simpl. split; [done|]. split; [done|]. split; [done|].
    split; [congruence|]. done.
Qed.

(** X14. [enableEditMode] returns with edit mode on, both overlays in
    place, the crosshair cursor on the body and the three pointer
    listeners on the document.  Listeners that were there stay, none is
    entered twice, and the selection and the hover target are untouched.
    Enabling again right away changes nothing. *)
Theorem enable_sets_up (s : engine) :
  let r := enableEditMode s in
  outcome r = Normal tt
  ∧ trace r = [ENABLING]
  ∧ isEditModeActive (final r) = true
  ∧ (∃ h, highlightOverlay (final r) = Some h)
  ∧ (∃ o, selectionOverlay (final r) = Some o)
  ∧ style (node_of (doc (final r)) (body (doc s))) !! "cursor" = Some "crosshair"
  ∧ (mousemove_reg ∈ documentListeners (final r))
  ∧ (click_reg ∈ documentListeners (final r))
  ∧ (mouseleave_reg ∈ documentListeners (final r))
  ∧ (∀ x, x ∈ documentListeners s → x ∈ documentListeners (final r))
  ∧ (NoDup (documentListeners s) → NoDup (documentListeners (final r)))
  ∧ selectedElement (final r) = selectedElement s
  ∧ lastHoveredElement (final r) = lastHoveredElement s
  ∧ enableEditMode (final r) = Run (Normal tt) (final r) [ENABLING].
Proof.
  intros r. unfold r.
  destruct (enableEditMode_run s)
    as (f & h & o & d2 & Hf & Hon & Hh & Ho & Hb2 & Hd & Hl & _ & Hsel & Hhov).
  rewrite Hf. cbn [outcome final trace].
  destruct (set_style_lookup d2 (body (doc s)) "cursor" "crosshair")
    as (nd & Hnd & Hcur).
  assert (Hm : mousemove_reg ∈ documentListeners f).
  { rewrite Hl. apply added_keeps_present, added_keeps_present, added_is_present. }
  assert (Hk : click_reg ∈ documentListeners f).
  { rewrite Hl. apply added_keeps_present, added_is_present. }
  assert (Hv : mouseleave_reg ∈ documentListeners f).
  { rewrite Hl. apply added_is_present. }
  assert (Hbody : body (doc f) = body (doc s)).
  { rewrite Hd. cbn [body set_style update_node set_node]. congruence. }
  split; [done|]. split; [done|]. split; [done|].
  split; [by exists h|]. split; [by exists o|].
  split; [rewrite Hd; unfold node_of; by rewrite Hnd|].
  split; [done|]. split; [done|]. split; [done|].
  split; [intros x Hx; rewrite Hl; by do 3 apply added_keeps_present|].
  split; [intros Hnd'; rewrite Hl; by do 3 apply added_no_dup|].
  split; [done|]. split; [done|].
  apply (enableEditMode_fixed f h o nd); try done.
  by rewrite Hbody, Hd.
Qed.

Lemma removed_keeps_others (r x : registration) (regs : list registration) :
  x ∈ regs → x ≠ r → x ∈ removeEventListener r regs.
Proof. intros Hx Hne. unfold removeEventListener. by apply list_elem_of_filter. Qed.

Lemma removed_was_there (r x : registration) (regs : list registration) :
  x ∈ removeEventListener r regs → x ∈ regs.
Proof. unfold removeEventListener. by intros [_ H]%list_elem_of_filter. Qed.

Lemma clearSelection_shape (s : engine) :
  ∃ o d', clearSelection s
          = Run (Normal tt)
                (set_selectionOverlay (Some o) (set_doc d' (set_selectedElement None s))) []
          ∧ body d' = body (doc s)
          ∧ style (node_of d' o) !! "display" = Some "none"
          ∧ (∀ n, n ≠ o → n ≠ body (doc s) → nodes d' !! n = nodes (doc s) !! n).
Proof.
  destruct (selectionOverlay s) as [o|] eqn:Ho.
  - exists o, (set_style o "display" "none" (doc s)).
    split; [|split; [done|split]].
    + rewrite (clearSelection_existing s o Ho).
      by rewrite set_selectionOverlay_same.
    + rewrite style_after_set_style. by rewrite decide_True.
    + intros n Hn _. unfold set_style. by apply nodes_update_ne.
  - destruct (new_overlay_node (doc s) selection_css SELECTION_ID)
      as (_ & _ & _ & _ & _ & _ & Hb & Hrest).
    exists (fresh_node (doc s)),
      (set_style (fresh_node (doc s)) "display" "none"
         (appendChild (body (doc s)) (fresh_node (doc s))
            (set_cssText (fresh_node (doc s)) selection_css
               (update_node (with_elem_id SELECTION_ID) (fresh_node (doc s))
                  (fst (createElement "DIV" (doc s))))))).
    split; [|split; [|split]].
    + rewrite (clearSelection_creating s Ho).
      rewrite createSelectionOverlay_fresh by done.
      cbn [final]. engine_simpl. reflexivity.
    + exact Hb.
    + rewrite style_after_set_style. by rewrite decide_True.
    + intros n Hn Hnb. unfold set_style. rewrite nodes_update_ne by done.
      by apply Hrest.
Qed.

(** What [disableEditMode] leaves, field by field. *)
Lemma disableEditMode_run (s : engine) :
  ∃ f o d1, disableEditMode s = Run (Normal tt) f [DISABLING]
    ∧ isEditModeActive f = false
    ∧ lastHoveredElement f = None
    ∧ selectedElement f = None
    ∧ highlightOverlay f = highlightOverlay s
    ∧ selectionOverlay f = Some o
    ∧ style (node_of d1 o) !! "display" = Some "none"
    ∧ (∀ n, n ≠ o → n ≠ body (doc s) → nodes d1 !! n = nodes (doc s) !! n)
    ∧ doc f = set_style (body (doc s)) "cursor" ""
                (match highlightOverlay s with
                 | Some h => set_style h "display" "none" d1
                 | None => d1
                 end)
    ∧ documentListeners f
      = removeEventListener mouseleave_reg
          (removeEventListener click_reg
             (removeEventListener mousemove_reg (documentListeners s)))
    ∧ windowListeners f = windowListeners s.
Proof.
  destruct (clearSelection_shape
              (set_lastHoveredElement None (set_isEditModeActive false s)))
    as (o & d1 & Hclear & Hb1 & Hhid & Hrest).
  cbn [doc set_lastHoveredElement set_isEditModeActive] in Hb1, Hrest.
  unfold disableEditMode. unfold_monad.
  rewrite bind_emit_run, !bind_modify_run.
  rewrite (bind_silent_run _ _ _ _ _ Hclear). rewrite bind_get_run.
  engine_simpl.
  destruct (highlightOverlay s) as [h|] eqn:Hh.
  - rewrite !bind_modify_run. unfold modify. engine_simpl.
    cbn [body set_style update_node set_node]. rewrite Hb1.
    eexists _, o, d1. split; [reflexivity|]. engine_simpl. by rewrite Hh.
  - rewrite bind_ret_run, !bind_modify_run. unfold modify. engine_simpl.
    rewrite Hb1.
    eexists _, o, d1. split; [reflexivity|]. engine_simpl. by rewrite Hh.
Qed.

(** X15. [disableEditMode] returns with edit mode off, no hover target
    and no selection, both overlays hidden, the cursor of the body reset
    and the three pointer listeners off the document; every other
    listener stays, and no node but the overlays and the body changes.
    From the state it leaves, no pointer event has any effect. *)
Theorem disable_cleans_up (s : engine) :
  let r := disableEditMode s in
  outcome r = Normal tt
  ∧ trace r = [DISABLING]
  ∧ isEditModeActive (final r) = false
  ∧ lastHoveredElement (final r) = None
  ∧ selectedElement (final r) = None
  ∧ highlightOverlay (final r) = highlightOverlay s
  ∧ (∀ h, highlightOverlay s = Some h →
       style (node_of (doc (final r)) h) !! "display" = Some "none")
  ∧ (∃ o, selectionOverlay (final r) = Some o
          ∧ style (node_of (doc (final r)) o) !! "display" = Some "none"
          ∧ ∀ n, n ≠ o → n ≠ body (doc s) → Some n ≠ highlightOverlay s →
                 nodes (doc (final r)) !! n = nodes (doc s) !! n)
  ∧ style (node_of (doc (final r)) (body (doc s))) !! "cursor" = Some ""
  ∧ (∀ x, x ∈ documentListeners (final r)
          ↔ x ∈ documentListeners s
            ∧ x ≠ mousemove_reg ∧ x ≠ click_reg ∧ x ≠ mouseleave_reg)
  ∧ (∀ ev, is_pointer_event ev = true →
       step fuel ev (final r) = Run (Normal tt) (final r) []).
Proof.
  intros r. unfold r.
  destruct (disableEditMode_run s)
    as (f & o & d1 & Hf & Hoff & Hhov & Hsel & Hh & Ho & Hhid & Hrest & Hd & Hl & _).
  rewrite Hf. cbn [outcome final trace].
  split; [done|]. split; [done|]. split; [done|]. split; [done|].
  split; [done|]. split; [done|].
  split.
  { intros h Hh'. rewrite Hd, Hh'. rewrite style_after_set_style.
    rewrite decide_False by (intros [_ ?]; discriminate).
    rewrite style_after_set_style. by rewrite decide_True. }
  split.
  { exists o. split; [done|]. split.
    - rewrite Hd, style_after_set_style.
      rewrite decide_False by (intros [_ ?]; discriminate).
      destruct (highlightOverlay s) as [h|]; [|done].
      rewrite style_after_set_style. by destruct (decide _).
    - intros n Hn Hnb Hnh. rewrite Hd. unfold set_style at 1.
      rewrite nodes_update_ne by done.
      destruct (highlightOverlay s) as [h|].
      + unfold set_style. rewrite nodes_update_ne by congruence. by apply Hrest.
      + by apply Hrest. }
  split.
  { rewrite Hd, style_after_set_style. by rewrite decide_True. }
  split.
  { intros x. rewrite Hl. unfold removeEventListener.
    rewrite !list_elem_of_filter. tauto. }
  intros ev Hev.
  destruct ev; try discriminate; cbn [step]; unfold_monad;
    rewrite bind_get_run; by apply inactive_dispatch.
Qed.

End ModeFacts.

(** ** The React provider follows the engine *)

Lemma bind_normal_run {A C} (m : M A) (k : A → M C) (s : engine) (a : A) :
  outcome (m s) = Normal a →
  outcome (bind m k s) = outcome (k a (final (m s)))
  ∧ final (bind m k s) = final (k a (final (m s)))
  ∧ trace (bind m k s) = (trace (m s) ++ trace (k a (final (m s))))%list.
Proof.
  intros Hm. unfold bind. destruct (m s) as [o s1 t1]. cbn in Hm. subst o.
  split; [reflexivity|]. split; reflexivity.
Qed.

Lemma guarded_normal_run (m : M unit) (s : engine) :
  outcome (m s) = Normal tt → guarded m s = m s.
Proof.
  intros Hm. unfold guarded, try_catch.
  destruct (m s) as [o s1 t1]. cbn in Hm. by subst o.
Qed.

Lemma guarded_throw_run (m : M unit) (s s1 : engine) (e : js_error)
    (t1 : list output) :
  m s = Run (Throw e) s1 t1 →
  guarded m s = Run (Normal tt) s1 (t1 ++ [Uncaught e]).
Proof. intros Hm. unfold guarded, try_catch. by rewrite Hm. Qed.

(** The commands other than the two mode switches leave the mode and
    the listeners on the window alone, and write nothing but lines on the
    console. *)
Create HintDb mode_db.

Section ModeFrame.
Context {B : Browser} (b : bool) (L : list registration).

Ltac mode_tac :=
  unfold_monad;
  repeat first [ solve [eauto with mode_db] | keeps_step ];
  try solve [ intros ?; discriminate
            | let s := fresh "s" in let Hs := fresh "Hs" in
              intros s Hs; exact Hs ].

Lemma mode_createSelectionOverlay :
  keeps (mode_kept b L) no_uncaught createSelectionOverlay.
Proof. unfold createSelectionOverlay. mode_tac. Qed.
Hint Resolve mode_createSelectionOverlay : mode_db.

Lemma mode_place_overlay (o e : node_id) :
  keeps (mode_kept b L) no_uncaught (place_overlay o e).
Proof. unfold place_overlay. mode_tac. Qed.
Hint Resolve mode_place_overlay : mode_db.

Lemma mode_updateSelectionOverlay (el : option node_id) :
  keeps (mode_kept b L) no_uncaught (updateSelectionOverlay el).
Proof. unfold updateSelectionOverlay. mode_tac. Qed.
Hint Resolve mode_updateSelectionOverlay : mode_db.

Lemma mode_clearSelection : keeps (mode_kept b L) no_uncaught clearSelection.
Proof. unfold clearSelection. mode_tac. Qed.
Hint Resolve mode_clearSelection : mode_db.

Lemma mode_query (sel : string) : keeps (mode_kept b L) no_uncaught (query sel).
Proof. unfold query. mode_tac. Qed.
Hint Resolve mode_query : mode_db.

Lemma mode_assign_style (e : node_id) (name value : string) :
  keeps (mode_kept b L) no_uncaught (assign_style e name value).
Proof. unfold assign_style. mode_tac. Qed.
Hint Resolve mode_assign_style : mode_db.

Lemma mode_applyStyleChange (sel property value : string) :
  keeps (mode_kept b L) no_uncaught (applyStyleChange sel property value).
Proof. unfold applyStyleChange. mode_tac. Qed.
Hint Resolve mode_applyStyleChange : mode_db.

Lemma mode_applyTextChange (sel newText : string) :
  keeps (mode_kept b L) no_uncaught (applyTextChange sel newText).
Proof. unfold applyTextChange. mode_tac. Qed.
Hint Resolve mode_applyTextChange : mode_db.

Lemma mode_applyImageChange (sel newSrc : string) :
  keeps (mode_kept b L) no_uncaught (applyImageChange sel newSrc).
Proof. unfold applyImageChange. mode_tac. Qed.
Hint Resolve mode_applyImageChange : mode_db.

Lemma mode_stop_ready_interval :
  keeps (mode_kept b L) no_uncaught stop_ready_interval.
Proof. unfold stop_ready_interval. mode_tac. Qed.
Hint Resolve mode_stop_ready_interval : mode_db.

Lemma mode_handleMessage_other (ty : string) (pl : option payload_value) :
  ty ≠ "EDIT_MODE_ENABLE" → ty ≠ "EDIT_MODE_DISABLE" →
  keeps (mode_kept b L) no_uncaught (handleMessage (Some (Message ty pl))).
Proof.
  intros H1 H2. unfold handleMessage. cbn [msg_type msg_payload].
  rewrite (bool_decide_eq_false_2 _ H1), (bool_decide_eq_false_2 _ H2).
  mode_tac.
Qed.

End ModeFrame.

Section ProviderFacts.
Context {B : Browser} (fuel : nat).

(** [handleMessage] throws on an apply command whose payload is a
    primitive, before it has done anything. *)
Lemma handleMessage_throws (data : option EditModeMessage) (s : engine) :
  ill_typed data = true →
  handleMessage data s = Run (Throw (TypeError "in")) s []
  ∧ mode_after data (isEditModeActive s) = isEditModeActive s
  ∧ clears data = false.
Proof.
  destruct data as [[ty [[p|]|]]|]; try done.
  cbn [ill_typed]. intros Hin%bool_decide_eq_true. unfold apply_types in Hin.
  repeat (apply elem_of_cons in Hin as [->|Hin]); [..| by apply elem_of_nil in Hin];
    (split;
     [ unfold handleMessage; cbn [msg_type msg_payload truthy negb]; by decide_strings
     | split;
       [ unfold mode_after; cbn [type_of msg_type]; by decide_strings
       | unfold clears; cbn [type_of msg_type]; by decide_strings ] ]).
Qed.

(** On every other message it returns. *)
Lemma handleMessage_returns (data : option EditModeMessage) (s : engine) :
  ill_typed data = false → outcome (handleMessage data s) = Normal tt.
Proof.
  intros Hok.
  assert (Hn : normal (handleMessage data)).
  { destruct data as [[ty pl]|]; [|apply normal_ret].
    destruct pl as [[p|]|].
    - by apply normal_handleMessage_object.
    - cbn [ill_typed] in Hok. apply bool_decide_eq_false in Hok.
      apply normal_handleMessage_other. done.
    - by apply normal_handleMessage_object. }
  by destruct (Hn s) as [[] H].
Qed.

(** What one call of [handleMessage] does to the mode, the listeners on
    the window and the selection. *)
Lemma handleMessage_mode (data : option EditModeMessage) (s : engine) :
  windowListeners (final (handleMessage data s)) = windowListeners s
  ∧ isEditModeActive (final (handleMessage data s))
    = mode_after data (isEditModeActive s)
  ∧ (clears data = true → selectedElement (final (handleMessage data s)) = None)
  ∧ Forall no_uncaught (trace (handleMessage data s)).
Proof.
  destruct data as [[ty pl]|]; [|by repeat split].
  unfold mode_after, clears. cbn [type_of msg_type].
  destruct (decide (ty = "EDIT_MODE_ENABLE")) as [->|H1].
  { unfold handleMessage. cbn [msg_type truthy negb]. decide_strings.
    destruct (enableEditMode_run s)
      as (f & h & o & d2 & Hf & Hon & _ & _ & _ & _ & _ & Hw & _).
    rewrite Hf. cbn [final trace]. split; [done|]. split; [done|].
    split; [discriminate|]. by repeat constructor. }
  destruct (decide (ty = "EDIT_MODE_DISABLE")) as [->|H2].
  { unfold handleMessage. cbn [msg_type truthy negb]. decide_strings.
    destruct (disableEditMode_run s)
      as (f & o & d1 & Hf & Hoff & _ & Hsel & _ & _ & _ & _ & _ & _ & Hw).
    rewrite Hf. cbn [final trace]. split; [done|]. split; [done|].
    split; [done|]. by repeat constructor. }
  rewrite (bool_decide_eq_false_2 _ H1), (bool_decide_eq_false_2 _ H2).
  cbn [orb].
  destruct (mode_handleMessage_other (isEditModeActive s) (windowListeners s)
              ty pl H1 H2 s) as [[Hm Hw] Htr]; [done|].
  split; [done|]. split; [done|]. split; [|done].
  intros ->%bool_decide_eq_true.
  unfold handleMessage. cbn [msg_type truthy negb]. decide_strings.
  destruct (clearSelection_shape s) as (o & d' & Hrun & _).
  by rewrite Hrun.
Qed.

Lemma handleAckMessage_mode (data : option EditModeMessage) (s : engine) :
  outcome (handleAckMessage data s) = Normal tt
  ∧ windowListeners (final (handleAckMessage data s)) = windowListeners s
  ∧ isEditModeActive (final (handleAckMessage data s)) = isEditModeActive s
  ∧ selectedElement (final (handleAckMessage data s)) = selectedElement s
  ∧ trace (handleAckMessage data s) = [].
Proof.
  unfold handleAckMessage.
  destruct (bool_decide _ || bool_decide _); [|done].
  unfold_monad. rewrite bind_modify_run, stop_ready_interval_run.
  cbn [outcome final trace]. by destruct (readyInterval _).
Qed.

(** One listener, called on a message. *)
Lemma message_listener_mode (data : option EditModeMessage) (r : registration)
    (s : engine) :
  let m := when (bool_decide (reg_type r = event_type (MessageEvent data)))
             (guarded (call_listener fuel (MessageEvent data) (reg_callback r))) in
  outcome (m s) = Normal tt
  ∧ windowListeners (final (m s)) = windowListeners s
  ∧ isEditModeActive (final (m s))
    = (if is_message_handler r then mode_after data (isEditModeActive s)
       else isEditModeActive s)
  ∧ (if is_message_handler r
     then clears data = true → selectedElement (final (m s)) = None
     else selectedElement (final (m s)) = selectedElement s)
  ∧ (ill_typed data = false → Forall no_uncaught (trace (m s)))
  ∧ (ill_typed data = true → is_message_handler r = true →
     m s = Run (Normal tt) s [Uncaught (TypeError "in")]).
Proof.
  intros m. unfold m, is_message_handler, when. cbn [event_type].
  destruct (bool_decide (reg_type r = "message")); cbn [andb];
    [|by repeat split].
  destruct (reg_callback r); cbn [call_listener];
    rewrite ?bool_decide_eq_true_2 by done;
    rewrite ?bool_decide_eq_false_2 by done;
    try (by repeat split).
  - destruct (handleMessage_mode data s) as (Hw & Hm & Hs & Htr).
    destruct (ill_typed data) eqn:Hill.
    + destruct (handleMessage_throws data s Hill) as (Hrun & Hsame & Hcl).
      rewrite (guarded_throw_run _ _ _ _ _ Hrun). cbn [outcome final trace app].
      rewrite Hsame, Hcl. by repeat split.
    + rewrite (guarded_normal_run _ _ (handleMessage_returns data s Hill)).
      split; [by apply handleMessage_returns|]. by repeat split.
  - destruct (handleAckMessage_mode data s) as (Ho & Hw & Hm & Hs & Htr).
    rewrite (guarded_normal_run _ _ Ho), Htr. by repeat split.
Qed.

Lemma mode_after_idem (data : option EditModeMessage) (b : bool) :
  mode_after data (mode_after data b) = mode_after data b.
Proof. unfold mode_after. by repeat case_bool_decide. Qed.

(** All the listeners of the window, called on a message. *)
Lemma message_dispatch_mode (data : option EditModeMessage)
    (regs : list registration) (s : engine) :
  let r := dispatch fuel (MessageEvent data) regs s in
  outcome r = Normal tt
  ∧ windowListeners (final r) = windowListeners s
  ∧ isEditModeActive (final r)
    = (if existsb is_message_handler regs
       then mode_after data (isEditModeActive s) else isEditModeActive s)
  ∧ (clears data = true →
     existsb is_message_handler regs = true ∨ selectedElement s = None →
     selectedElement (final r) = None)
  ∧ (ill_typed data = false → Forall no_uncaught (trace r))
  ∧ (ill_typed data = true → existsb is_message_handler regs = true →
     Uncaught (TypeError "in") ∈ trace r).
Proof.
  revert s. induction regs as [|r rest IH]; intros s; cbv zeta.
  { cbn. split; [done|]. split; [done|]. split; [done|].
    split; [by intros _ [?|?]|]. split; [by constructor | done]. }
  destruct (message_listener_mode data r s) as (Ho & Hw & Hm & Hs & Htr & Hthrow).
  cbv zeta in Ho, Hw, Hm, Hs, Htr, Hthrow.
  destruct (IH (final (when (bool_decide (reg_type r = event_type (MessageEvent data)))
                         (guarded (call_listener fuel (MessageEvent data)
                                     (reg_callback r))) s)))
    as (Ho' & Hw' & Hm' & Hs' & Htr' & Hthrow').
  cbv zeta in Ho', Hw', Hm', Hs', Htr', Hthrow'.
  cbn [dispatch existsb]. unfold_monad.
  destruct (bind_normal_run _ (λ _, dispatch fuel (MessageEvent data) rest) _ _ Ho)
    as (-> & -> & ->).
  split; [done|]. split; [congruence|]. split; [|split; [|split]].
  - rewrite Hm', Hm.
    destruct (is_message_handler r); cbn [orb]; [|done].
    destruct (existsb is_message_handler rest); [|done].
    apply mode_after_idem.
  - intros Hc Hcase. apply Hs'; [done|].
    destruct (is_message_handler r); cbn [orb] in Hcase.
    + right. by apply Hs.
    + destruct Hcase as [?|Hnone]; [by left|]. right. by rewrite Hs.
  - intros Hok. apply Forall_app. split; [by apply Htr | by apply Htr'].
  - intros Hill Hex. apply elem_of_app.
    destruct (is_message_handler r) eqn:Hr; cbn [orb] in Hex.
    + left. rewrite (Hthrow Hill eq_refl). cbn [trace]. by left.
    + right. by apply Hthrow'.
Qed.

Lemma handler_registered (regs : list registration) :
  message_reg OnMessage ∈ regs → existsb is_message_handler regs = true.
Proof.
  intros Hin. apply existsb_exists. exists (message_reg OnMessage).
  split; [by apply list_elem_of_In|done].
Qed.

(** One message event. *)
Lemma message_step_mode (data : option EditModeMessage) (s : engine) :
  message_reg OnMessage ∈ windowListeners s →
  let r := step fuel (MessageEvent data) s in
  outcome r = Normal tt
  ∧ windowListeners (final r) = windowListeners s
  ∧ isEditModeActive (final r) = mode_after data (isEditModeActive s)
  ∧ (clears data = true → selectedElement (final r) = None)
  ∧ (ill_typed data = false → Forall no_uncaught (trace r))
  ∧ (ill_typed data = true → Uncaught (TypeError "in") ∈ trace r).
Proof.
  intros Hreg r. unfold r. cbn [step]. unfold_monad. rewrite bind_get_run.
  destruct (message_dispatch_mode data (windowListeners s) s)
    as (Ho & Hw & Hm & Hs & Htr & Hthrow).
  cbv zeta in Ho, Hw, Hm, Hs, Htr, Hthrow.
  rewrite (handler_registered _ Hreg) in Hm, Hs, Hthrow.
  split; [done|]. split; [done|]. split; [done|].
  split; [intros Hc; apply Hs; [done|by left]|].
  split; [done|]. intros Hill. by apply Hthrow.
Qed.

Lemma provider_mode (data : option EditModeMessage) (p : React.provider) :
  React.isActive (React.handleMessage data p) = mode_after data (React.isActive p).
Proof.
  unfold mode_after. destruct data as [[ty pl]|]; [|done].
  cbn [React.handleMessage type_of msg_type msg_payload].
  destruct ty as [|c ty]; [done|]. cbn [truthy negb].
  repeat case_bool_decide; try done. by destruct pl.
Qed.

Lemma provider_clears (data : option EditModeMessage) (p : React.provider) :
  clears data = true → React.selectedElement (React.handleMessage data p) = None.
Proof.
  unfold clears. destruct data as [[ty pl]|]; cbn [type_of msg_type].
  - cbn [React.handleMessage msg_type msg_payload].
    intros [->%bool_decide_eq_true| ->%bool_decide_eq_true]%orb_true_iff;
      cbn [truthy negb]; decide_strings; done.
  - rewrite !bool_decide_eq_false_2 by done. done.
Qed.

(** X16. The React provider follows the engine.  While the engine's
    message listener is on the window and the provider's [isActive] cell
    agrees with the engine's mode, any run of message events delivered to
    both leaves them in agreement: the engine's listeners stay on the
    window, and [isEditModeEnabled()] returns what the provider shows as
    [isActive].  When the last message of the run is [EDIT_MODE_DISABLE]
    or [CLEAR_SELECTION], neither side has a selection.  An exception
    leaves a listener of the engine exactly when a message is an apply
    command whose payload is a primitive: with no such message in the run
    nothing is reported as uncaught, and with one a [TypeError] is. *)
Theorem provider_follows_engine (msgs : list (option EditModeMessage))
    (s : engine) (p : React.provider) :
  message_reg OnMessage ∈ windowListeners s →
  React.isActive p = isEditModeActive s →
  let r := run_events fuel (map MessageEvent msgs) s in
  let p' := React.handleMessages msgs p in
  outcome r = Normal tt
  ∧ windowListeners (final r) = windowListeners s
  ∧ outcome (isEditModeEnabled (final r)) = Normal (React.isActive p')
  ∧ (∀ front last, msgs = (front ++ [last])%list → clears last = true →
       React.selectedElement p' = None ∧ selectedElement (final r) = None)
  ∧ (forallb (λ data, negb (ill_typed data)) msgs = true →
       ∀ e, Uncaught e ∉ trace r)
  ∧ (existsb ill_typed msgs = true → Uncaught (TypeError "in") ∈ trace r).
Proof.
  revert s p. induction msgs as [|data rest IH]; intros s p Hreg Hmode r p'.
  { unfold r, p'. cbn. split; [done|]. split; [done|]. split; [by rewrite Hmode|].
    split; [intros [|? ?] ? ?; discriminate|].
    split; [intros _ e He; by apply elem_of_nil in He | discriminate]. }
  unfold r, p'. cbn [map run_events React.handleMessages foldl forallb existsb].
  unfold_monad.
  destruct (message_step_mode data s Hreg) as (Ho & Hw & Hm & Hs & Htr & Hthrow).
  cbv zeta in Ho, Hw, Hm, Hs, Htr, Hthrow.
  destruct (bind_normal_run _ (λ _, run_events fuel (map MessageEvent rest)) _ _ Ho)
    as (-> & -> & ->).
  assert (Hreg' : message_reg OnMessage
                  ∈ windowListeners (final (step fuel (MessageEvent data) s)))
    by (by rewrite Hw).
  assert (Hmode' : React.isActive (React.handleMessage data p)
                   = isEditModeActive (final (step fuel (MessageEvent data) s)))
    by (by rewrite provider_mode, Hm, Hmode).
  destruct (IH _ _ Hreg' Hmode') as (Ho' & Hw' & Hen & Hlast & Hquiet & Hloud).
  split; [done|]. split; [congruence|]. split; [exact Hen|].
  split; [|split].
  - intros front last Hsplit Hc.
    destruct rest as [|next rest'].
    + destruct front as [|? [|? ?]]; try discriminate.
      injection Hsplit as ->. cbn. split; [by apply provider_clears | by apply Hs].
    + destruct front as [|first front']; [discriminate|].
      injection Hsplit as -> Hrest. by apply (Hlast front' last).
  - intros [Hd Hrest]%andb_true_iff e [He|He]%elem_of_app.
    + apply negb_true_iff in Hd. specialize (Htr Hd).
      rewrite Forall_forall in Htr. by apply (Htr _ He e).
    + by apply (Hquiet Hrest e).
  - intros [Hd|Hrest]%orb_true_iff; apply elem_of_app.
    + left. by apply Hthrow.
    + right. by apply Hloud.
Qed.

End ProviderFacts.

Lemma provider_follows_engine_witness :
  outcome (isEditModeEnabled
             (final (run_events (B := page_browser) 4
                       (map MessageEvent
                          [Some (Message "EDIT_MODE_ENABLE" None);
                           Some (Message "CLEAR_SELECTION" None)])
                       listening_engine)))
  = Normal (React.isActive
              (React.handleMessages
                 [Some (Message "EDIT_MODE_ENABLE" None);
                  Some (Message "CLEAR_SELECTION" None)] React.initial)).
Proof.
  assert (Hreg : message_reg OnMessage ∈ windowListeners listening_engine).
  { apply (bool_decide_unpack _). vm_compute. exact I. }
  assert (Hmode : React.isActive React.initial = isEditModeActive listening_engine)
    by (vm_compute; reflexivity).
  exact (proj1 (proj2 (proj2
    (provider_follows_engine (B := page_browser) 4
       [Some (Message "EDIT_MODE_ENABLE" None);
        Some (Message "CLEAR_SELECTION" None)]
       listening_engine React.initial Hreg Hmode)))).
Defined.

(** ** Positions in the XPath and in the selector *)

Section PositionFacts.
Context {B : Browser}.

(** The loop of [getXPath] counts what [indexOf] finds among the element
    siblings of the same tag. *)
Lemma xpath_index_counts (d : document) (e : node_id) (siblings : list node_id)
    (k : nat) :
  is_element d e = true →
  e ∈ siblings →
  ∃ j, indexOf_succ e (same_tag_elements d e siblings) = S j
       ∧ xpath_index d e siblings k = Some (k + j)%nat.
Proof.
  intros He. revert k. induction siblings as [|x rest IH]; intros k Hin.
  { by apply elem_of_nil in Hin. }
  unfold same_tag_elements in *. cbn [xpath_index].
  destruct (decide (x = e)) as [->|Hx].
  - exists 0%nat. rewrite bool_decide_eq_true_2 by done.
    rewrite filter_cons_True by done. rewrite filter_cons_True by done.
    cbn [indexOf_succ]. rewrite bool_decide_eq_true_2 by done.
    split; [done | f_equal; lia].
  - rewrite bool_decide_eq_false_2 by done.
    apply elem_of_cons in Hin as [->|Hin]; [done|].
    destruct (is_element d x) eqn:Hel; cbn [andb].
    + rewrite (filter_cons_True _ x rest) by done.
      case_bool_decide as Htag.
      * rewrite filter_cons_True by done. cbn [indexOf_succ].
        rewrite bool_decide_eq_false_2 by done.
        destruct (IH (S k) Hin) as (j & Hj & Hix). rewrite Hj, Hix.
        exists (S j). split; [done | f_equal; lia].
      * rewrite filter_cons_False by done. by apply IH.
    + rewrite (filter_cons_False _ x rest) by (by rewrite Hel). by apply IH.
Qed.

(** X17. For an element without an id, other than the body, that is
    among the child nodes of its parent, the last step of the XPath and
    the [:nth-of-type] part of the selector carry the same number: the
    position of the element among the element children of its parent
    that have its tag, counted from one.  The selector leaves the number
    out when the element is the only one of its tag. *)
Theorem xpath_position_is_nth_of_type (fuel : nat) (d : document)
    (e p : node_id) (parentPath : string) :
  truthy (elem_id (node_of d e)) = false →
  e ≠ body d →
  is_element d e = true →
  parentNode (node_of d e) = Some p →
  e ∈ childNodes (node_of d p) →
  getXPath fuel d (Some p) = Some parentPath →
  let same := same_tag_elements d e (childNodes (node_of d p)) in
  let k := indexOf_succ e same in
  (1 ≤ k)%nat
  ∧ e ∈ same
  ∧ getXPath (S fuel) d (Some e)
    = Some (parentPath +:+ "/" +:+ toLowerCase (tagName (node_of d e))
            +:+ "[" +:+ pretty k +:+ "]")
  ∧ nth_suffix d e
    = (if (1 <? length same)%nat
       then ":nth-of-type(" +:+ pretty k +:+ ")" else "").
Proof.
  intros Hid Hbody He Hp Hin Hpp same k.
  destruct (xpath_index_counts d e (childNodes (node_of d p)) 0 He Hin)
    as (j & Hj & Hix).
  fold same in Hj. fold k in Hj.
  split; [lia|]. split.
  { unfold same, same_tag_elements. apply list_elem_of_filter. split; [done|].
    by apply list_elem_of_filter. }
  split.
  - cbn [getXPath]. rewrite Hid, (bool_decide_eq_false_2 _ Hbody), Hp, Hix, Hpp.
    rewrite Hj. by replace (0 + j + 1)%nat with (S j) by lia.
  - unfold nth_suffix. rewrite Hp. reflexivity.
Qed.

(** *** Splitting a class attribute *)

Lemma append_assoc (a b c : string) : (a +:+ b) +:+ c = a +:+ (b +:+ c).
Proof.
  induction a as [|x a IH]; [done|].
  change (String x ((a +:+ b) +:+ c) = String x (a +:+ (b +:+ c))).
  by rewrite IH.
Qed.

(** Reading a word: its code units go on the piece being read. *)
Lemma split_ws_go_word (w rest : string) (cur : list ascii) (b : bool) :
  ws_free w = true →
  split_ws_go cur b (w +:+ rest)
  = split_ws_go (rev (String.list_ascii_of_string w) ++ cur)%list
      (if truthy w then false else b) rest.
Proof.
  revert cur b. induction w as [|c w IH]; intros cur b Hw; [done|].
  cbn [ws_free] in Hw. apply andb_true_iff in Hw as [Hc Hw].
  apply negb_true_iff in Hc.
  change (String c w +:+ rest) with (String c (w +:+ rest)).
  cbn [split_ws_go String.list_ascii_of_string rev truthy]. rewrite Hc.
  rewrite (IH (c :: cur) false Hw), <- app_assoc. cbn [app].
  by destruct (truthy w).
Qed.

Lemma split_ws_go_end (w : string) (b : bool) :
  ws_free w = true → truthy w = true → split_ws_go [] b w = [w].
Proof.
  intros Hw Ht. rewrite <- (append_empty_r w) at 1.
  rewrite (split_ws_go_word w "" [] b Hw), Ht. cbn [split_ws_go].
  by rewrite app_nil_r, rev_involutive, String.string_of_list_ascii_of_string.
Qed.

(** Splitting undoes joining with single blanks. *)
Lemma split_ws_join (names : list string) (w : string) (b : bool) :
  Forall (λ c, class_token c = true) (w :: names) →
  split_ws_go [] b (join " " (w :: names)) = w :: names.
Proof.
  revert w b. induction names as [|w2 names IH]; intros w b Hall.
  - apply Forall_cons in Hall as [[Ht Hw]%andb_true_iff _].
    by apply split_ws_go_end.
  - apply Forall_cons in Hall as [[Ht Hw]%andb_true_iff Hall].
    change (join " " (w :: w2 :: names))
      with (w +:+ String " " (join " " (w2 :: names))).
    rewrite (split_ws_go_word w _ [] b Hw), Ht.
    cbn [split_ws_go]. change (is_ws " ") with true. cbv iota.
    rewrite app_nil_r, rev_involutive, String.string_of_list_ascii_of_string.
    f_equal. by apply IH.
Qed.

Lemma trimStart_word (w rest : string) :
  class_token w = true → trimStart (w +:+ rest) = w +:+ rest.
Proof.
  intros [Ht Hw]%andb_true_iff. destruct w as [|c w]; [done|].
  cbn [ws_free] in Hw. apply andb_true_iff in Hw as [Hc%negb_true_iff _].
  change (String c w +:+ rest) with (String c (w +:+ rest)).
  cbn [trimStart]. by rewrite Hc.
Qed.

Lemma trimEnd_free (w : string) : ws_free w = true → trimEnd w = w.
Proof.
  induction w as [|c w IH]; [done|]. cbn [ws_free trimEnd].
  intros [Hc%negb_true_iff Hw]%andb_true_iff. by rewrite (IH Hw), Hc.
Qed.

Lemma trimEnd_word (a w : string) :
  class_token w = true → trimEnd (a +:+ w) = a +:+ w.
Proof.
  intros [Ht Hw]%andb_true_iff. induction a as [|c a IH].
  - by apply trimEnd_free.
  - change (String c a +:+ w) with (String c (a +:+ w)).
    cbn [trimEnd]. rewrite IH.
    assert (Hne : truthy (a +:+ w) = true).
    { destruct a; [done|reflexivity]. }
    by rewrite Hne, andb_false_r.
Qed.

Lemma join_last (names : list string) (w : string) :
  Forall (λ c, class_token c = true) (w :: names) →
  ∃ a z, join " " (w :: names) = a +:+ z ∧ class_token z = true.
Proof.
  revert w. induction names as [|w2 names IH]; intros w Hall.
  - apply Forall_cons in Hall as [Hw _]. by exists "", w.
  - apply Forall_cons in Hall as [Hw Hall].
    destruct (IH w2 Hall) as (a & z & Hj & Hz).
    exists (w +:+ " " +:+ a), z. split; [|done].
    change (join " " (w :: w2 :: names)) with (w +:+ " " +:+ join " " (w2 :: names)).
    by rewrite Hj, !append_assoc.
Qed.

Lemma trim_join (names : list string) (w : string) :
  Forall (λ c, class_token c = true) (w :: names) →
  trim (join " " (w :: names)) = join " " (w :: names)
  ∧ truthy (join " " (w :: names)) = true.
Proof.
  intros Hall. unfold trim.
  assert (Hstart : ∃ rest, join " " (w :: names) = w +:+ rest).
  { destruct names as [|w2 names]; [exists ""; by rewrite append_empty_r|].
    by eexists. }
  destruct Hstart as [rest Hrest].
  pose proof Hall as [Hw _]%Forall_cons.
  destruct (join_last names w Hall) as (a & z & Hj & Hz).
  split.
  - rewrite Hrest, (trimStart_word w rest Hw), <- Hrest, Hj.
    by apply trimEnd_word.
  - rewrite Hrest. apply andb_true_iff in Hw as [Ht _]. by destruct w.
Qed.

Lemma filter_tokens (names : list string) :
  Forall (λ c, class_token c = true) names →
  filter (λ c, truthy c && negb (includes_char ":" c) = true) names
  = filter (λ c, includes_char ":" c = false) names.
Proof.
  induction 1 as [|c names [Ht _]%andb_true_iff _ IH]; [done|].
  rewrite !filter_cons, IH, Ht. cbn [andb].
  destruct (includes_char ":" c); cbn [negb];
    repeat case_decide; done.
Qed.

(** X18. For a class attribute that lists class names with single
    blanks between them, the class part of a selector segment is built
    from the names that hold no colon: nothing when there is none, a dot
    and the escaped name when there is one, and the first two, each after
    a dot, when there are more.  When [className] is an object, as on an
    SVG element, the class part is empty. *)
Theorem class_suffix_picks (names : list string) :
  Forall (λ c, class_token c = true) names →
  class_suffix (ClassString (join " " names))
  = match filter (λ c, includes_char ":" c = false) names with
    | [] => ""
    | [a] => "." +:+ CSS_escape a
    | a :: b :: _ => "." +:+ CSS_escape a +:+ "." +:+ CSS_escape b
    end
  ∧ ∀ baseVal, class_suffix (ClassAnimated baseVal) = "".
Proof.
  intros Hall. split; [|done].
  destruct names as [|w names]; [done|].
  destruct (trim_join names w Hall) as [Htrim Htruthy].
  unfold class_suffix. rewrite Htruthy, Htrim. cbv zeta.
  unfold split_ws. rewrite (split_ws_join names w false Hall).
  rewrite (filter_tokens _ Hall).
  by destruct (filter _ (w :: names)) as [|a [|b rest]].
Qed.

End PositionFacts.

Lemma class_suffix_picks_witness :
  class_suffix (B := page_browser) (ClassString "lead hover:bold big wide")
  = ".lead.big".
Proof.
  assert (H : Forall (λ c, class_token c = true) ["lead"; "hover:bold"; "big"; "wide"]).
  { apply (bool_decide_unpack _). vm_compute. exact I. }
  exact (proj1 (class_suffix_picks (B := page_browser)
                  ["lead"; "hover:bold"; "big"; "wide"] H)).
Defined.

Lemma xpath_position_is_nth_of_type_witness :
  getXPath 4 page (Some 5) = Some "/html/body/p[1]".
Proof.
  assert (Hid : truthy (elem_id (node_of page 5)) = false) by (vm_compute; reflexivity).
  assert (Hbody : 5 ≠ body page) by (vm_compute; discriminate).
  assert (He : is_element page 5 = true) by (vm_compute; reflexivity).
  assert (Hp : parentNode (node_of page 5) = Some 2) by (vm_compute; reflexivity).
  assert (Hin : 5 ∈ childNodes (node_of page 2)).
  { apply (bool_decide_unpack _). vm_compute. exact I. }
  assert (Hpp : getXPath 3 page (Some 2) = Some "/html/body")
    by (vm_compute; reflexivity).
  exact (proj1 (proj2 (proj2
    (xpath_position_is_nth_of_type 3 page 5 2 "/html/body"
       Hid Hbody He Hp Hin Hpp)))).
Defined.

(** ** Images in the descriptor *)

Section ImageInfoFacts.
Context {B : Browser}.

Lemma descriptor_text_total (fuel : nat) (d : document) (e : node_id) :
  subtree_fits fuel d e = true → is_Some (descriptor_text fuel d e).
Proof.
  intros Hfit. unfold descriptor_text.
  destruct (is_text_element d e); [|by eexists].
  unfold textContent.
  destruct (nodeType (node_of d e)); try by eexists.
  destruct (descendant_text_total fuel d e Hfit) as [full ->]. by eexists.
Qed.

Lemma img_is_no_text_tag : includes "img" textTags = false.
Proof. by vm_compute. Qed.

(** X19. For an element whose surroundings fit the fuel, the descriptor
    has a source exactly when the lower-cased tag is [img]; it is then
    marked as an image, is never marked as text and has no text content.
    A descriptor marked as an image without a source is that of a [div]
    whose computed background image is neither empty nor [none].  The
    page coordinates of the box are the sums, as doubles, of the viewport
    coordinates and the scroll offsets. *)
Theorem descriptor_image_fields (fuel : nat) (d : document) (e : node_id) :
  ancestors_fit fuel d e = true →
  subtree_fits fuel d e = true →
  ∃ info, getElementInfo fuel d (Some e) = Some (Some info)
    ∧ info_tagName info = toLowerCase (tagName (node_of d e))
    ∧ (imageSrc info ≠ None ↔ info_tagName info = "img")
    ∧ (∀ u, imageSrc info = Some u →
         u = resolve_url (src (node_of d e))
         ∧ isImageElement info = true
         ∧ isTextElement info = false
         ∧ info_textContent info = None)
    ∧ (isImageElement info = true → imageSrc info = None →
         info_tagName info = "div"
         ∧ getComputedStyle d e "background-image" ≠ ""
         ∧ getComputedStyle d e "background-image" ≠ "none")
    ∧ top (boundingRect info) = double_add (viewportTop (boundingRect info)) scrollY
    ∧ left (boundingRect info) = double_add (viewportLeft (boundingRect info)) scrollX.
Proof.
  intros Hup Hdown.
  destruct (getXPath_total fuel d e Hup) as [xp Hxp].
  destruct (getSelector_total fuel d e Hup) as [sel Hsel].
  destruct (descriptor_text_total fuel d e Hdown) as [text Htext].
  unfold getElementInfo. cbv zeta. rewrite Htext, Hxp, Hsel.
  cbn [mbind option_bind]. eexists. split; [reflexivity|].
  cbn [info_tagName imageSrc isImageElement isTextElement info_textContent
       boundingRect bounding_rect_of top left viewportTop viewportLeft].
  split; [done|].
  destruct (decide (toLowerCase (tagName (node_of d e)) = "img")) as [Himg|Himg].
  - rewrite (bool_decide_eq_true_2 _ Himg).
    split; [done|]. split.
    + intros u [= <-]. split; [done|].
      unfold is_image_element, is_text_element. cbv zeta.
      rewrite Himg, img_is_no_text_tag. cbn [andb].
      rewrite bool_decide_eq_true_2 by done. split; [done|]. split; [done|].
      unfold descriptor_text, is_text_element in Htext.
      rewrite Himg, img_is_no_text_tag in Htext. cbn [andb] in Htext.
      congruence.
    + split; [discriminate|done].
  - rewrite (bool_decide_eq_false_2 _ Himg).
    split; [split; [done | intros; contradiction]|].
    split; [discriminate|]. split; [|done].
    intros Him _. unfold is_image_element in Him. cbv zeta in Him.
    rewrite (bool_decide_eq_false_2 _ Himg) in Him. cbn [orb] in Him.
    apply andb_true_iff in Him as [Him Hnone].
    apply andb_true_iff in Him as [Hdiv Hbg].
    apply bool_decide_eq_true in Hdiv.
    apply negb_true_iff, bool_decide_eq_false in Hnone.
    split; [done|]. split; [|done].
    intros Hempty. by rewrite Hempty in Hbg.
Qed.

End ImageInfoFacts.

Lemma descriptor_image_fields_witness :
  ∃ info, getElementInfo (B := page_browser) 4 page (Some 8) = Some (Some info)
          ∧ (imageSrc info ≠ None ↔ info_tagName info = "img").
Proof.
  assert (Hup : ancestors_fit 4 page 8 = true) by (vm_compute; reflexivity).
  assert (Hdown : subtree_fits 4 page 8 = true) by (vm_compute; reflexivity).
  destruct (descriptor_image_fields (B := page_browser) 4 page 8 Hup Hdown)
    as (info & H1 & _ & H2 & _).
  exists info. split; [exact H1 | exact H2].
Defined.

(** ** Where the overlays are put *)

Section BoxFacts.
Context {B : Browser}.

Lemma place_overlay_placed (o e : node_id) (s : engine) :
  ∃ d', place_overlay o e s = Run (Normal tt) (set_doc d' s) []
        ∧ placed_over (doc s) d' o e.
Proof.
  unfold place_overlay. unfold_monad. run_monad.
  eexists. split; [reflexivity|].
  engine_simpl. unfold placed_over. cbv zeta.
  repeat match goal with
         | |- _ !! _ = Some _ ∧ _ =>
             split;
             [ rewrite !style_after_set_style;
               repeat (rewrite decide_False by (intros [_ ?]; discriminate));
               by rewrite decide_True |]
         end.
  split; [|split; [|done]].
  - intros q Hq. rewrite !style_after_set_style.
    repeat (rewrite decide_False
              by (intros [_ <-]; apply Hq; rewrite !elem_of_cons; tauto)).
    done.
  - intros n Hn. unfold set_style. by rewrite !nodes_update_ne by done.
Qed.

(** X20. With both overlays in place, [updateHighlight] and
    [updateSelectionOverlay] on an element return without output and
    change nothing but the document; there the overlay is shown with the
    top, left, width and height of the element's box in the viewport, as
    measured before the call and with no scroll offset added, every other
    style property of the overlay is kept, and no other node changes. *)
Theorem overlays_track_box (s : engine) (h o e : node_id) :
  highlightOverlay s = Some h →
  selectionOverlay s = Some o →
  (∃ d', updateHighlight (Some e) s = Run (Normal tt) (set_doc d' s) []
         ∧ placed_over (doc s) d' h e)
  ∧ (∃ d', updateSelectionOverlay (Some e) s = Run (Normal tt) (set_doc d' s) []
           ∧ placed_over (doc s) d' o e).
Proof.
  intros Hh Ho. split.
  - unfold updateHighlight. unfold_monad. rewrite bind_get_run, Hh.
    apply place_overlay_placed.
  - unfold updateSelectionOverlay. unfold_monad. rewrite bind_get_run, Ho.
    rewrite bool_decide_eq_false_2 by done. run_monad. rewrite Ho.
    apply place_overlay_placed.
Qed.

End BoxFacts.

Lemma overlays_track_box_witness :
  ∃ d', updateHighlight (B := page_browser) (Some 3) selecting_engine
        = Run (Normal tt) (set_doc d' selecting_engine) []
        ∧ placed_over (B := page_browser) (doc selecting_engine) d' 9 3.
Proof.
  assert (Hh : highlightOverlay selecting_engine = Some 9) by (vm_compute; reflexivity).
  assert (Ho : selectionOverlay selecting_engine = Some 10) by (vm_compute; reflexivity).
  exact (proj1 (overlays_track_box (B := page_browser) selecting_engine 9 10 3 Hh Ho)).
Defined.

(** ** The selector of an element below an anchor *)

Section ChainFacts.
Context {B : Browser}.

Lemma selector_walk_eq (fuel : nat) (d : document) (c : node_id)
    (path : list string) :
  selector_walk fuel d (Some c) path
  = if negb (is_element d c) then Some path
    else if truthy (elem_id (node_of d c)) then
      Some (("#" +:+ CSS_escape (elem_id (node_of d c))) :: path)
    else if bool_decide (parentNode (node_of d c) = Some (body d))
         then Some ("body" :: segment d c :: path)
         else match fuel with
              | O => None
              | S fuel' =>
                  selector_walk fuel' d (parentNode (node_of d c)) (segment d c :: path)
              end.
Proof. by destruct fuel. Qed.

Lemma selector_walk_chain (d : document) (top : node_id) (cs : list node_id) :
  anchors d top = true →
  ∀ (c : node_id) (fuel : nat) (path : list string),
    chain_to d top (c :: cs) = true →
    (length (c :: cs) ≤ fuel)%nat →
    selector_walk fuel d (Some c) path
    = Some (anchor d top :: (map (segment d) (rev (c :: cs)) ++ path)%list).
Proof.
  intros Htop. induction cs as [|c' rest IH]; intros c fuel path Hchain Hfuel.
  - cbn [chain_to] in Hchain.
    apply andb_true_iff in Hchain as [Hplain Hpar].
    apply andb_true_iff in Hplain as [Hel Hid].
    apply negb_true_iff in Hid. apply bool_decide_eq_true in Hpar.
    rewrite selector_walk_eq, Hel, Hid, Hpar. cbn [negb].
    unfold anchor. case_bool_decide as Hb.
    + injection Hb as ->. by rewrite bool_decide_eq_true_2.
    + rewrite bool_decide_eq_false_2 by congruence.
      destruct fuel as [|fuel']; [cbn in Hfuel; lia|].
      rewrite selector_walk_eq.
      unfold anchors in Htop. rewrite bool_decide_eq_false_2 in Htop by congruence.
      cbn [orb] in Htop. apply andb_true_iff in Htop as [Htel Htid].
      by rewrite Htel, Htid.
  - cbn [chain_to] in Hchain.
    apply andb_true_iff in Hchain as [Hplain Hrest].
    apply andb_true_iff in Hrest as [Hrest Hchain].
    apply andb_true_iff in Hrest as [Hpar Hnb].
    apply andb_true_iff in Hplain as [Hel Hid].
    apply negb_true_iff in Hid. apply bool_decide_eq_true in Hpar.
    apply negb_true_iff, bool_decide_eq_false in Hnb.
    rewrite selector_walk_eq, Hel, Hid, Hpar. cbn [negb].
    rewrite bool_decide_eq_false_2 by congruence.
    destruct fuel as [|fuel']; [cbn in Hfuel; lia|].
    rewrite (IH c' fuel' (segment d c :: path) Hchain)
      by (cbn [length] in *; lia).
    f_equal. f_equal.
    change (rev (c :: c' :: rest)) with (rev (c' :: rest) ++ [c])%list.
    by rewrite map_app, <- app_assoc.
Qed.

(** X21. The selector of an element without an id spells the way down to
    it: when the element and its ancestors up to an anchor (the body, or
    the nearest ancestor with an id) are elements without an id, the
    selector is the anchor followed by one segment for each of them,
    outermost first, joined by [ > ].  The body is named [body] even
    when it has an id. *)
Theorem selector_spells_chain (fuel : nat) (d : document) (top e : node_id)
    (above : list node_id) :
  anchors d top = true →
  chain_to d top (e :: above) = true →
  (length (e :: above) ≤ fuel)%nat →
  getSelector fuel d (Some e)
  = Some (join " > " (anchor d top :: map (segment d) (rev (e :: above)))).
Proof.
  intros Htop Hchain Hfuel. unfold getSelector.
  assert (Hid : truthy (elem_id (node_of d e)) = false).
  { cbn [chain_to] in Hchain. apply andb_true_iff in Hchain as [Hplain _].
    apply andb_true_iff in Hplain as [_ Hid]. by apply negb_true_iff. }
  rewrite Hid, (selector_walk_chain d top above Htop e fuel [] Hchain Hfuel).
  cbn [mbind option_bind]. by rewrite app_nil_r.
Qed.

End ChainFacts.

Lemma selector_spells_chain_witness :
  getSelector (B := page_browser) 4 page (Some 7)
  = Some (join " > " (anchor (B := page_browser) page 2
                        :: map (segment (B := page_browser) page) (rev [7; 5]))).
Proof.
  assert (Htop : anchors page 2 = true) by (vm_compute; reflexivity).
  assert (Hchain : chain_to page 2 [7; 5] = true) by (vm_compute; reflexivity).
  assert (Hfuel : (length [7; 5] ≤ 4)%nat) by (cbn; lia).
  exact (selector_spells_chain (B := page_browser) 4 page 2 7 [5] Htop Hchain Hfuel).
Defined.
